(** * Notebook cell execution runtime: a shallow embedding

    The development follows three TypeScript services of the repository:

    - [jupyter-notebook-service.ts]  (module [JupyterNotebookService]):
      the persisted notebook document, its validation on load, the
      conversion to and from the in-memory cell list, and the selection
      of one rendering for an output;
    - [python-execution-service.ts]  (module [PythonExecutionService]):
      the Python backend with its own execution counter;
    - [multi-language-execution-service.ts]
      (module [MultiLanguageExecutionService]): the dispatcher with one
      counter per language tag, the SQL / Rust / R / NAV-Lambda /
      JavaScript backends and the tabular formatter.

    JavaScript numbers are restricted to integers ([Z]); strings are
    [string], a text standing as its UTF-8 bytes;
    [Map<SupportedLanguage, number>] is a [gmap string Z]; a [throw] is
    an explicit outcome, and a thrown value is any value, given by what
    a handler can read of it; every answer of the outside world (host
    engine, interpreter, [eval], [fetch], regular expression engine,
    JSON parser, the comparison of a string with a number) is read from
    an explicit parameter. *)

From stdpp Require Import gmap strings list fin_maps pretty.
From Stdlib Require Import ZArith String Ascii.

Set Warnings "-register-all".

Local Open Scope string_scope.
Local Open Scope Z_scope.

(** ** The JavaScript runtime notions the services rely on *)
Module Js.

(** The line feed and the double quote, as one-character strings. *)
Definition LF : string := String "010"%char EmptyString.
Definition DQ : string := String "034"%char EmptyString.

(** Truthiness of a string: only the empty string is falsy. *)
Definition truthy (s : string) : bool :=
  match s with
  | EmptyString => false
  | String _ _ => true
  end.

(** [s || d] on strings. *)
Definition or_else (s d : string) : string :=
  if truthy s then s else d.

(** [o || d] where [o] may also be [undefined]. *)
Definition opt_or_else (o : option string) (d : string) : string :=
  match o with
  | Some s => or_else s d
  | None => d
  end.

(** An optional string is truthy when present and non-empty. *)
Definition opt_truthy (o : option string) : bool :=
  match o with
  | Some s => truthy s
  | None => false
  end.

(** [Array.prototype.join] on an array of strings. *)
Definition join (sep : string) (l : list string) : string :=
  String.concat sep l.

(** [String.prototype.split] with a one-character separator: the
    pieces between the separators, the separators themselves dropped;
    the empty string splits into one empty piece. *)
Fixpoint split (sep : ascii) (s : string) : list string :=
  match s with
  | EmptyString => [EmptyString]
  | String c r =>
      if Ascii.eqb c sep then EmptyString :: split sep r
      else match split sep r with
           | h :: t => String c h :: t
           | [] => [String c EmptyString]
           end
  end.

Definition split_lines (s : string) : list string := split "010"%char s.

(** [String.prototype.includes]. *)
Fixpoint includes (s needle : string) : bool :=
  if String.prefix needle s then true
  else match s with
       | EmptyString => false
       | String _ r => includes r needle
       end.

(** An error object, by what the handlers of the services read of it:
    [error.message] (empty when the object carries none),
    [String(error)] and [error.stack]. *)
Record Error := {
  message : string;
  to_string : string;
  stack : option string;
}.

(** [new Error(msg)].  The stack text depends on the engine; no handler
    of the services reads it from an error the services create. *)
Definition new_Error (msg : string) : Error :=
  {| message := msg;
     to_string := if truthy msg then "Error: " +:+ msg else "Error";
     stack := None |}.

(** The [TypeError] of a property read on [null] or [undefined] (V8
    wording). *)
Definition property_TypeError (base prop : string) : Error :=
  let msg := "Cannot read properties of " +:+ base +:+ " (reading '" +:+ prop +:+ "')" in
  {| message := msg; to_string := "TypeError: " +:+ msg; stack := None |}.

Definition null_property_TypeError (prop : string) : Error :=
  property_TypeError "null" prop.

(** How an evaluation ends: with a value, or by throwing a value of
    type [E]. *)
Inductive outcome (E A : Type) : Type :=
| Normal (a : A)
| Throw (e : E).
Arguments Normal {E A} a.
Arguments Throw {E A} e.

(** The end of code that throws error objects only: a built-in such as
    [JSON.parse], or code whose [throw] statements create the error
    they throw. *)
Abbreviation completion := (outcome Error).

(** [c] first, then [k] on its value. *)
Definition and_then {E A B} (c : outcome E A) (k : A -> outcome E B) : outcome E B :=
  match c with
  | Normal a => k a
  | Throw e => Throw e
  end.

(** Any value can be thrown, by evaluated source in particular, and a
    handler written as [catch (error: any)] reads [error.message],
    [String(error)] and [error.stack] of whatever it caught.  On [null]
    and [undefined] a property read throws a [TypeError].  On every
    other value each of the three reads gives a value or throws in its
    turn (an accessor property, a [toString] method, a proxy); reading
    the same value again gives the same.  A property that is missing
    or falsy reads as the empty string, for the stack as [None]; a
    property value that is no string stands as the string it converts
    to. *)
Inductive Thrown : Type :=
| Null
| Undefined
| Value (message : outcome Thrown string)
        (text : outcome Thrown string)
        (stack : outcome Thrown (option string)).

(** An error object as a thrown value: every read succeeds. *)
Definition of_Error (e : Error) : Thrown :=
  Value (Normal (message e)) (Normal (to_string e)) (Normal (stack e)).

(** [error.message] *)
Definition read_message (error : Thrown) : outcome Thrown string :=
  match error with
  | Null => Throw (of_Error (property_TypeError "null" "message"))
  | Undefined => Throw (of_Error (property_TypeError "undefined" "message"))
  | Value m _ _ => m
  end.

(** [String(error)] *)
Definition read_String (error : Thrown) : outcome Thrown string :=
  match error with
  | Null => Normal "null"
  | Undefined => Normal "undefined"
  | Value _ t _ => t
  end.

(** [error.stack] *)
Definition read_stack (error : Thrown) : outcome Thrown (option string) :=
  match error with
  | Null => Throw (of_Error (property_TypeError "null" "stack"))
  | Undefined => Throw (of_Error (property_TypeError "undefined" "stack"))
  | Value _ _ s => s
  end.

(** [error.message || String(error)]: the text is asked for only when
    the message is falsy. *)
Definition message_or_String (error : Thrown) : outcome Thrown string :=
  and_then (read_message error)
           (fun m => if truthy m then Normal m else read_String error).

(** [error.stack || String(error)] *)
Definition stack_or_String (error : Thrown) : outcome Thrown string :=
  and_then (read_stack error)
           (fun s => if opt_truthy s then Normal (default "" s) else read_String error).

(** The reads of a handler that builds [error.message || String(error)]
    and [[String(error)]]: the message first, then the text; the error
    object of the two strings when both reads succeed. *)
Definition read_message_and_String (error : Thrown) : outcome Thrown Error :=
  and_then (read_message error) (fun m =>
  and_then (read_String error) (fun t =>
  Normal {| message := m; to_string := t; stack := None |})).

(** Values of type [any]: parsed JSON. *)
Inductive JSON : Type :=
| JNull
| JBool (b : bool)
| JNum (z : Z)
| JStr (s : string)
| JArr (l : list JSON)
| JObj (fields : list (string * JSON)).

(** Truthiness of a parsed value: [null], [false], [0] and the empty
    string are falsy; arrays and objects are truthy, also when empty. *)
Definition JSON_truthy (v : JSON) : bool :=
  match v with
  | JNull => false
  | JBool b => b
  | JNum z => negb (z =? 0)
  | JStr s => truthy s
  | JArr _ | JObj _ => true
  end.

(** The [TypeError] of converting an object that has no usable
    [toString] and [valueOf] (V8 wording). *)
Definition primitive_TypeError : Error :=
  {| message := "Cannot convert object to primitive value";
     to_string := "TypeError: Cannot convert object to primitive value";
     stack := None |}.

(** A parsed object has an own property of this name. *)
Definition has_key (key : string) (fields : list (string * JSON)) : bool :=
  existsb (fun kv => String.eqb (fst kv) key) fields.

(** [String(v)] for a parsed value.  A number is printed in decimal,
    as JavaScript prints an integer of magnitude below 10^21.  An array
    is its elements joined by commas, where [null] counts as the empty
    string.  A parsed object is the fixed text, unless it has an own
    property [toString]: that property is no function and hides the
    inherited method, and the conversion throws. *)
Fixpoint JSON_String (v : JSON) : completion string :=
  match v with
  | JNull => Normal "null"
  | JBool true => Normal "true"
  | JBool false => Normal "false"
  | JNum z => Normal (pretty z)
  | JStr s => Normal s
  | JArr l =>
      and_then
        ((fix elements (l : list JSON) : completion (list string) :=
            match l with
            | [] => Normal []
            | x :: rest =>
                and_then (match x with
                          | JNull => Normal ""
                          | _ => JSON_String x
                          end) (fun t =>
                and_then (elements rest) (fun ts => Normal (t :: ts)))
            end) l)
        (fun texts => Normal (join "," texts))
  | JObj fields =>
      if has_key "toString" fields then Throw primitive_TypeError
      else Normal "[object Object]"
  end.

(** [string | string[]]. *)
Inductive StringOrLines : Type :=
| Str (s : string)
| Lines (l : list string).

(** [Array.isArray(x) ? x.join('') : x] *)
Definition joined (x : StringOrLines) : string :=
  match x with
  | Str s => s
  | Lines l => join "" l
  end.

(** An array is truthy, also when empty; a string when non-empty. *)
Definition sol_truthy (o : option StringOrLines) : bool :=
  match o with
  | Some (Str s) => truthy s
  | Some (Lines _) => true
  | None => false
  end.

End Js.

(** ** jupyter-notebook-service.ts *)
Module JupyterNotebookService.
Import Js.

Inductive CellType := code | markdown | raw.

Inductive OutputType := execute_result | display_data | stream | error.

Inductive StreamName := stdout | stderr.

(** The [data] object of an output, keyed by MIME type. *)
Record OutputData := {
  text_plain : option StringOrLines;
  text_html : option StringOrLines;
  image_png : option string;
  image_jpeg : option string;
  image_svg_xml : option StringOrLines;
  application_json : option JSON;
  other_mime : list (string * JSON);
}.

Record NotebookOutput := {
  output_type : OutputType;
  out_execution_count : option Z;
  data : option OutputData;
  text : option StringOrLines;
  name : option StreamName;
  ename : option string;
  evalue : option string;
  traceback : option (list string);
}.

(** [Record<string, any>] of a cell, its [language] entry singled out. *)
Record CellMetadata := {
  md_language : option string;
  md_rest : list (string * JSON);
}.

Definition empty_metadata : CellMetadata :=
  {| md_language := None; md_rest := [] |}.

Record NotebookCell := {
  cell_type : CellType;
  execution_count : option Z;
  cell_id : option string;
  cell_metadata : option CellMetadata;
  source : option StringOrLines;
  cell_outputs : option (list NotebookOutput);
}.

Record Kernelspec := {
  display_name : string;
  ks_language : string;
  ks_name : string;
}.

Record LanguageInfo := {
  li_name : string;
  version : string;
  mimetype : option string;
  file_extension : option string;
}.

Record NotebookMetadata := {
  kernelspec : option Kernelspec;
  language_info : option LanguageInfo;
  nb_rest : list (string * JSON);
}.

(** [nbformat] is declared a number; what a loaded document holds
    there is whatever value passed the validation. *)
Record JupyterNotebook := {
  cells : list NotebookCell;
  metadata : option NotebookMetadata;
  nbformat : JSON;
  nbformat_minor : option Z;
}.

Record ErrorInfo := {
  err_ename : string;
  err_evalue : string;
  err_traceback : list string;
}.

Record CellExecutionResult := {
  success : bool;
  outputs : list NotebookOutput;
  res_execution_count : Z;
  res_error : option ErrorInfo;
}.

(** The value of the top-level [cells] property, before validation.
    An element of an array is a cell object, or [null] ([None]). *)
Inductive CellsField :=
| CellsArray (cs : list (option NotebookCell))
| CellsNull
| CellsBool (b : bool)
| CellsNumber (z : Z)
| CellsString (s : string)
| CellsObject (fields : list (string * JSON)).

(** A parsed top-level value read through the properties
    [parseNotebook] looks at.  A property that is missing is [None]; a
    number, string, boolean or array at top level has none of them. *)
Record RawNotebook := {
  raw_cells : option CellsField;
  raw_metadata : option NotebookMetadata;
  raw_nbformat : option JSON;
  raw_nbformat_minor : option Z;
}.

(** What [JSON.parse] returns: [null], or a value with properties. *)
Inductive ParsedJson :=
| ParsedNull
| ParsedValue (d : RawNotebook).

(** [Array.isArray(cell.source) ? cell.source.join('') : (cell.source || '')] *)
Definition source_text (src : option StringOrLines) : string :=
  match src with
  | Some (Lines l) => join "" l
  | Some (Str s) => or_else s ""
  | None => ""
  end.

(** [normalizeSource] *)
Definition normalizeSource (src : StringOrLines) : string :=
  match src with
  | Lines l => join "" l
  | Str s => or_else s ""
  end.

Section Parse.
(** The runtime's [JSON.parse]. *)
Variable JSON_parse : string -> completion ParsedJson.
(** The runtime's comparison [s < n] of a string with a number: the
    string is converted to a number first, and the comparison is false
    when it is no numeral. *)
Variable string_less_than : string -> Z -> bool.

(** [v < n] for a parsed value [v] and a number [n].  [null] and the
    booleans count as 0 and 1.  An array or object is converted to a
    string first, which can throw; the text of an object is no
    numeral. *)
Definition less_than (v : JSON) (n : Z) : completion bool :=
  match v with
  | JNull => Normal (0 <? n)
  | JBool b => Normal ((if b then 1 else 0) <? n)
  | JNum z => Normal (z <? n)
  | JStr s => Normal (string_less_than s n)
  | JArr _ => and_then (JSON_String v) (fun s => Normal (string_less_than s n))
  | JObj _ => and_then (JSON_String v) (fun _ => Normal false)
  end.

(** The cell that the [map] of [parseNotebook] builds from a cell. *)
Definition normalized (cell : NotebookCell) : NotebookCell :=
  {| cell_type := cell_type cell;
     execution_count := execution_count cell;
     cell_id := cell_id cell;
     cell_metadata := cell_metadata cell;
     source := Some (Str (source_text (source cell)));
     cell_outputs := cell_outputs cell |}.

(** [notebook.cells.map(cell => ...)]: reading [cell.source] of an
    element that is [null] throws. *)
Fixpoint normalize_cells (cs : list (option NotebookCell))
  : completion (list NotebookCell) :=
  match cs with
  | [] => Normal []
  | Some cell :: rest =>
      and_then (normalize_cells rest) (fun cells => Normal (normalized cell :: cells))
  | None :: _ => Throw (null_property_TypeError "source")
  end.

(** The body of the [try] block of [parseNotebook]. *)
Definition parseNotebook_body (jsonContent : string) : completion JupyterNotebook :=
  match JSON_parse jsonContent with
  | Throw e => Throw e
  | Normal ParsedNull => Throw (null_property_TypeError "cells")
  | Normal (ParsedValue notebook) =>
      match raw_cells notebook with
      | Some (CellsArray cs) =>
          match raw_nbformat notebook with
          | Some v =>
              and_then (if JSON_truthy v then less_than v 4 else Normal true)
                (fun unsupported : bool =>
                   if unsupported
                   then Throw (new_Error "Unsupported notebook format version")
                   else and_then (normalize_cells cs) (fun cells =>
                        Normal {| cells := cells;
                                  metadata := raw_metadata notebook;
                                  nbformat := v;
                                  nbformat_minor := raw_nbformat_minor notebook |}))
          | None => Throw (new_Error "Unsupported notebook format version")
          end
      | _ => Throw (new_Error "Invalid notebook format: missing cells array")
      end
  end.

(** [parseNotebook]: every error of the body is wrapped; what the body
    throws is an [Error] instance, so its message is kept. *)
Definition parseNotebook (jsonContent : string) : completion JupyterNotebook :=
  match parseNotebook_body jsonContent with
  | Normal notebook => Normal notebook
  | Throw e => Throw (new_Error ("Failed to parse notebook: " +:+ message e))
  end.
End Parse.

(** The two failures of the validation, as [parseNotebook] throws them. *)
Definition MalformedDocument : Error :=
  new_Error "Failed to parse notebook: Invalid notebook format: missing cells array".
Definition UnsupportedVersion : Error :=
  new_Error "Failed to parse notebook: Unsupported notebook format version".

(** The in-memory cell of [notebookToCells] and [cellsToNotebook]. *)
Inductive CellKind := kind_code | kind_markdown.

Record Cell := {
  id : string;
  type : CellKind;
  language : string;
  content : string;
  executionCount : option Z;
  cellOutputs : option (list NotebookOutput);
  cellMetadata : option CellMetadata;
}.

(** [detectLanguage] *)
Definition detectLanguage (cell : NotebookCell) (notebook : JupyterNotebook) : string :=
  if opt_truthy (md ← cell_metadata cell; md_language md)
  then default "" (md ← cell_metadata cell; md_language md)
  else if opt_truthy (m ← metadata notebook; ks_language <$> kernelspec m)
  then default "" (m ← metadata notebook; ks_language <$> kernelspec m)
  else if opt_truthy (m ← metadata notebook; li_name <$> language_info m)
  then default "" (m ← metadata notebook; li_name <$> language_info m)
  else match cell_type cell with
       | code => "python"
       | _ => "markdown"
       end.

(** [notebookToCells] *)
Definition notebookToCells (notebook : JupyterNotebook) : list Cell :=
  imap (fun (index : nat) (cell : NotebookCell) =>
          {| id := opt_or_else (cell_id cell) ("cell-" +:+ pretty index);
             type := match cell_type cell with
                     | code => kind_code
                     | _ => kind_markdown
                     end;
             language := detectLanguage cell notebook;
             content := source_text (source cell);
             executionCount := execution_count cell;
             cellOutputs := Some (default [] (cell_outputs cell));
             cellMetadata := Some (default empty_metadata (cell_metadata cell)) |})
       (cells notebook).

Definition default_notebook_metadata : NotebookMetadata :=
  {| kernelspec := Some {| display_name := "Python 3";
                           ks_language := "python";
                           ks_name := "python3" |};
     language_info := Some {| li_name := "python";
                              version := "3.0.0";
                              mimetype := None;
                              file_extension := None |};
     nb_rest := [] |}.

(** [cellsToNotebook] *)
Definition cellsToNotebook (cs : list Cell) (md : option NotebookMetadata)
  : JupyterNotebook :=
  {| cells :=
       map (fun cell =>
              {| cell_type := match type cell with
                              | kind_code => code
                              | kind_markdown => markdown
                              end;
                 execution_count := match type cell with
                                    | kind_code => executionCount cell
                                    | kind_markdown => None
                                    end;
                 cell_id := Some (id cell);
                 cell_metadata := Some (default empty_metadata (cellMetadata cell));
                 source := Some (Lines (split_lines (content cell)));
                 cell_outputs := match type cell with
                                 | kind_code => cellOutputs cell
                                 | kind_markdown => None
                                 end |}) cs;
     metadata := Some (default default_notebook_metadata md);
     nbformat := JNum 4;
     nbformat_minor := Some 4 |}.

(** The result of [formatOutput]. *)
Inductive FormatType := fmt_text | fmt_html | fmt_image | fmt_error | fmt_stream.

Record Formatted := {
  fmt_type : FormatType;
  fmt_content : string;
  mimeType : option string;
}.

(** The part of [formatOutput] that reads [output.data]. *)
Definition formatData (d : OutputData) : Formatted :=
  if opt_truthy (image_png d) then
    {| fmt_type := fmt_image; fmt_content := default "" (image_png d);
       mimeType := Some "image/png" |}
  else if opt_truthy (image_jpeg d) then
    {| fmt_type := fmt_image; fmt_content := default "" (image_jpeg d);
       mimeType := Some "image/jpeg" |}
  else if sol_truthy (image_svg_xml d) then
    {| fmt_type := fmt_image; fmt_content := from_option joined "" (image_svg_xml d);
       mimeType := Some "image/svg+xml" |}
  else if sol_truthy (text_html d) then
    {| fmt_type := fmt_html; fmt_content := from_option joined "" (text_html d);
       mimeType := None |}
  else if sol_truthy (text_plain d) then
    {| fmt_type := fmt_text; fmt_content := from_option joined "" (text_plain d);
       mimeType := None |}
  else {| fmt_type := fmt_text; fmt_content := ""; mimeType := None |}.

(** [formatOutput] *)
Definition formatOutput (output : NotebookOutput) : Formatted :=
  match output_type output with
  | error =>
      {| fmt_type := fmt_error;
         fmt_content :=
           join LF ([opt_or_else (ename output) "Error";
                     opt_or_else (evalue output) ""]
                      ++ default [] (traceback output));
         mimeType := None |}
  | stream =>
      {| fmt_type := fmt_stream;
         fmt_content := source_text (text output);
         mimeType := None |}
  | _ =>
      match data output with
      | Some d => formatData d
      | None => {| fmt_type := fmt_text; fmt_content := ""; mimeType := None |}
      end
  end.

(** [createEmptyNotebook]; [now] is the value of [Date.now()]. *)
Definition createEmptyNotebook (now : Z) (language : string) : JupyterNotebook :=
  {| cells :=
       [ {| cell_type := markdown;
            execution_count := None;
            cell_id := Some ("cell-" +:+ pretty now);
            cell_metadata := Some empty_metadata;
            source := Some (Str ("# New Notebook" +:+ LF +:+ LF
                                 +:+ "Start writing your code here..."));
            cell_outputs := None |} ];
     metadata :=
       Some {| kernelspec :=
                 Some {| display_name := if String.eqb language "python"
                                         then "Python 3" else language;
                         ks_language := language;
                         ks_name := if String.eqb language "python"
                                    then "python3" else language |};
               language_info :=
                 Some {| li_name := language; version := "3.0.0";
                         mimetype := None; file_extension := None |};
               nb_rest := [] |};
     nbformat := JNum 4;
     nbformat_minor := Some 4 |}.

End JupyterNotebookService.

(** ** The fields of the two service objects

    They are declared ahead of the services: the source that the
    JavaScript backend evaluates runs inside a method of the service
    and can reach them. *)
Module Store.

(** [executionCount] and [pyodide] of the Python service; of the
    interpreter object only whether it is set. *)
Record Python := {
  executionCount : Z;
  pyodide : bool;
}.

(** [executionCounts] of the multi-language service, and the Python
    service object it imports. *)
Record Services := {
  executionCounts : gmap string Z;
  python : Python;
}.

End Store.

(** ** Stateful code: a state and exception monad *)
Module Eff.
Import Js.

(** A computation over a store [S]: it ends normally or by throwing,
    and the store it leaves behind is kept in both cases, as a mutated
    JavaScript object is. *)
Definition M (S A : Type) : Type := S -> outcome Thrown A * S.

Definition ret {S A} (a : A) : M S A := fun s => (Normal a, s).

Definition throw {S A} (e : Thrown) : M S A := fun s => (Throw e, s).

Definition bind {S A B} (m : M S A) (k : A -> M S B) : M S B :=
  fun s => match m s with
           | (Normal a, s') => k a s'
           | (Throw e, s') => (Throw e, s')
           end.

(** [try { m } catch (e) { h e }] *)
Definition try_catch {S A} (m : M S A) (h : Thrown -> M S A) : M S A :=
  fun s => match m s with
           | (Normal a, s') => (Normal a, s')
           | (Throw e, s') => h e s'
           end.

Definition gets {S A} (f : S -> A) : M S A := fun s => (Normal (f s), s).

Definition modify {S} (f : S -> S) : M S unit := fun s => (Normal tt, f s).

(** Run a computation of a component on its part of a larger store. *)
Definition zoom {S T A} (proj : T -> S) (upd : S -> T -> T) (m : M S A) : M T A :=
  fun t => match m (proj t) with
           | (r, s') => (r, upd s' t)
           end.

(** An outcome that involves no store: a promise awaited from the
    outside world, or reads of a caught value. *)
Definition await {S A} (c : outcome Thrown A) : M S A :=
  match c with
  | Normal a => ret a
  | Throw e => throw e
  end.

Declare Scope eff_scope.
Delimit Scope eff_scope with eff.
Notation "'let!' x ':=' m 'in' k" := (bind m (fun x => k))
  (at level 10, x name, m at level 100, k at level 200,
   format "'[v' 'let!'  x  ':='  m  'in' '/' k ']'") : eff_scope.
Notation "m ';;' k" := (bind m (fun _ => k))
  (at level 100, k at level 200, right associativity) : eff_scope.

End Eff.

(** ** What the outside world answers during one call *)
Module Host.
Import Js JupyterNotebookService.

(** A value in a result row of the SQL engine: [null], a boolean, a
    number, a string, or an array of such values.  (An object as a
    value, whose conversion to a string can throw, is left out.) *)
Inductive SqlValue :=
| SqlNull
| SqlBool (b : bool)
| SqlNum (z : Z)
| SqlText (s : string)
| SqlArray (l : list SqlValue).

(** A row: an object with its keys in insertion order. *)
Definition Row : Type := list (string * SqlValue).

(** Truthiness of a value: [null], [false], [0] and the empty string
    are falsy; an array is truthy, also when empty. *)
Definition value_truthy (v : SqlValue) : bool :=
  match v with
  | SqlNull => false
  | SqlBool b => b
  | SqlNum z => negb (z =? 0)
  | SqlText s => truthy s
  | SqlArray _ => true
  end.

(** [String(v)].  A number is printed in decimal, as JavaScript prints
    an integer of magnitude below 10^21; an array is its elements
    joined by commas, where [null] counts as the empty string. *)
Fixpoint value_String (v : SqlValue) : string :=
  match v with
  | SqlNull => "null"
  | SqlBool true => "true"
  | SqlBool false => "false"
  | SqlNum z => pretty z
  | SqlText s => s
  | SqlArray l => join "," (map (fun x => match x with
                                          | SqlNull => ""
                                          | _ => value_String x
                                          end) l)
  end.

(** [{ success: boolean; rows?: any[]; error?: string }] *)
Record SqlReply := {
  sql_success : bool;
  sql_rows : option (list Row);
  sql_error : option string;
}.

(** [{ success: boolean; output?: string; error?: string }] *)
Record TextReply := {
  reply_success : bool;
  reply_output : option string;
  reply_error : option string;
}.

(** The in-process interpreter during [executeWithPyodide]: either no
    [runPython] call throws, or one does and the handler then asks for
    the Python traceback. *)
Inductive PyodideRun :=
| RunCompletes
    (stdoutContent stderrContent : string)
    (hasFigure : option string)   (* [None]: falsy, or the check threw *)
    (result : option string)      (* [String(result)]; [None]: undefined or null *)
| RunThrows
    (err : Error)
    (pyError : option string).    (* [None]: asking for the traceback threw *)

(** What [eval(code)] does.  The call is a direct [eval] inside
    [executeJavaScript]: the source can reach the service object
    ([this]) and the Python service imported next to it, the arrays
    [outputs] and [consoleLogs] of the running call, which are empty
    when it starts, and it can throw any value.  [services]: the two
    service objects as the source leaves them; [pushed]: the contents
    of [outputs]; [consoleLogs]: the contents of [consoleLogs], for a
    source that only logs the lines it hands to [console.log], each
    already joined with spaces; [thrown]: the value it throws, if any.
    The source is taken to leave the built-in objects as they are:
    [console.log] stays assignable, and [Array.prototype.push] and
    [String] are the built-in ones. *)
Record EvalOutcome := {
  services : Store.Services;
  pushed : list NotebookOutput;
  consoleLogs : list string;
  thrown : option Thrown;
}.

(** A source that touches nothing: it logs [logs] and ends as [ends]. *)
Definition script (logs : list string) (ends : option Thrown)
  : Store.Services -> EvalOutcome :=
  fun st => {| services := st; pushed := []; consoleLogs := logs; thrown := ends |}.

Record ExecutionOptions := {
  timeout : option Z;
  captureOutput : option bool;
  workingDirectory : option string;
  environment : list (string * string);
  compileOnly : bool;
}.

Definition no_options : ExecutionOptions :=
  {| timeout := None; captureOutput := None; workingDirectory := None;
     environment := []; compileOnly := false |}.

Record Env := {
  (** [typeof window !== 'undefined' && window.__TAURI__] *)
  tauri : bool;
  (** whether loading the in-process interpreter leaves [this.pyodide] set *)
  pyodide_loads : bool;
  pyodide_run : string -> PyodideRun;
  (** [invoke('execute_python_code', ...)]; [None]: the import or the
      call failed, or the reply is no object *)
  tauri_python : string -> option CellExecutionResult;
  (** [fetch('/api/python/execute')] and [response.json()]; [None]: the
      request failed, was not ok, or the reply is no object *)
  api_python : string -> option CellExecutionResult;
  (** [code.match] with the global pattern for a call of print with a
      non-empty argument text; [None] when nothing matches *)
  match_print : string -> option (list string);
  (** [match.replace] of one such call by its argument text, one pair
      of enclosing quotes dropped *)
  replace_print : string -> string;
  (** the host engine's commands; [Throw]: the import or the call
      failed, with whatever value *)
  invoke_execute_sql : string -> outcome Thrown SqlReply;
  invoke_compile_rust : string -> outcome Thrown TextReply;
  invoke_execute_rust : string -> outcome Thrown TextReply;
  invoke_execute_r : string -> outcome Thrown TextReply;
  invoke_run_live_preview : string -> outcome Thrown string;
  JSON_parse : string -> completion JSON;
  (** [JSON.stringify(v, null, 2)] *)
  JSON_stringify : JSON -> string;
  (** [eval(code)], on the service objects as the call finds them *)
  eval : string -> Store.Services -> EvalOutcome;
}.

(** Output constructors for the object literals of the services. *)
Definition stream_output (n : StreamName) (t : string) : NotebookOutput :=
  {| output_type := stream; out_execution_count := None; data := None;
     text := Some (Str t); name := Some n;
     ename := None; evalue := None; traceback := None |}.

Definition error_output (en ev : string) (tb : list string) : NotebookOutput :=
  {| output_type := error; out_execution_count := None; data := None;
     text := None; name := None;
     ename := Some en; evalue := Some ev; traceback := Some tb |}.

Definition data_output (ot : OutputType) (count : option Z) (d : OutputData)
  : NotebookOutput :=
  {| output_type := ot; out_execution_count := count; data := Some d;
     text := None; name := None;
     ename := None; evalue := None; traceback := None |}.

Definition no_data : OutputData :=
  {| text_plain := None; text_html := None; image_png := None;
     image_jpeg := None; image_svg_xml := None; application_json := None;
     other_mime := [] |}.

Definition plain (t : string) : OutputData :=
  {| text_plain := Some (Str t); text_html := None; image_png := None;
     image_jpeg := None; image_svg_xml := None; application_json := None;
     other_mime := [] |}.

End Host.

(** ** python-execution-service.ts *)
Module PythonExecutionService.
Import Js JupyterNotebookService Host Eff.
Local Open Scope eff_scope.

(** The fields of the service object. *)
Abbreviation State := Store.Python.
Abbreviation executionCount := Store.executionCount.
Abbreviation pyodide := Store.pyodide.

Definition initial : State := {| executionCount := 0; pyodide := false |}.

Definition P : Type -> Type := M State.

(** [initializePyodide], between two calls ([pyodideLoading] is false):
    a loaded interpreter is kept, otherwise loading is attempted. *)
Definition initializePyodide (env : Env) : P unit :=
  let! loaded := gets pyodide in
  if (loaded : bool) then ret tt
  else modify (fun st => {| executionCount := executionCount st;
                            pyodide := pyodide_loads env |}).

(** [tryInitializePyodide] *)
Definition tryInitializePyodide (env : Env) : P bool :=
  try_catch (initializePyodide env;; gets pyodide) (fun _ => ret false).

(** [simulateExecution] (the extra [data] property of the returned
    object is not part of [CellExecutionResult]). *)
Definition simulateExecution (env : Env) (code : string) : P CellExecutionResult :=
  let! count := gets executionCount in
  let printed :=
    match match_print env code with
    | Some printMatches =>
        map (fun m => stream_output stdout (replace_print env m +:+ LF)) printMatches
    | None => []
    end in
  let figure :=
    if includes code "import matplotlib" || includes code "import plt"
    then [data_output display_data None (plain "<matplotlib.figure.Figure>")]
    else [] in
  let outs := (printed ++ figure)%list in
  ret {| success := true;
         outputs := match outs with
                    | [] => [data_output execute_result (Some count)
                               (plain "Code executed successfully (simulated)")]
                    | _ => outs
                    end;
         res_execution_count := count;
         res_error := None |}.

(** The outputs [executeWithPyodide] collects when nothing throws. *)
Definition pyodide_outputs (count : Z) (stdoutContent stderrContent : string)
    (hasFigure result : option string) : list NotebookOutput :=
  ((if truthy stdoutContent then [stream_output stdout stdoutContent] else [])
  ++ (if truthy stderrContent then [stream_output stderr stderrContent] else [])
  ++ (match hasFigure with
      | Some img =>
          if truthy img && negb (String.eqb img "None")
          then [data_output display_data None
                  {| text_plain := Some (Str "<matplotlib.figure.Figure>");
                     text_html := None; image_png := Some img;
                     image_jpeg := None; image_svg_xml := None;
                     application_json := None; other_mime := [] |}]
          else []
      | None => []
      end)
  ++ (match result with
      | Some repr =>
          if truthy repr && negb (String.eqb repr "None")
          then [data_output execute_result (Some count) (plain repr)]
          else []
      | None => []
      end))%list.

(** The [catch] block of [executeWithPyodide]. *)
Definition pyodide_failure (count : Z) (err : Error) (pyError : option string)
  : CellExecutionResult :=
  let tb_value :=
    match pyError with
    | Some p =>
        if truthy p
        then (split_lines p, or_else (hd "" (split_lines p)) (to_string err))
        else ([], to_string err)
    | None =>
        (match stack err with
         | Some st => if truthy st then split_lines st else [to_string err]
         | None => [to_string err]
         end, to_string err)
    end in
  let tb := match fst tb_value with
            | [] => [to_string err]
            | t => t
            end in
  {| success := false;
     outputs := [error_output "Error" (snd tb_value) tb];
     res_execution_count := count;
     res_error := Some {| err_ename := "Error";
                          err_evalue := snd tb_value;
                          err_traceback := tb |} |}.

(** [executeWithPyodide] *)
Definition executeWithPyodide (env : Env) (code : string) (options : ExecutionOptions)
  : P CellExecutionResult :=
  let! loaded := gets pyodide in
  if negb loaded then throw (of_Error (new_Error "Pyodide not initialized"))
  else
    let! count := gets executionCount in
    match pyodide_run env code with
    | RunCompletes out err fig res =>
        ret {| success := true;
               outputs := pyodide_outputs count out err fig res;
               res_execution_count := count;
               res_error := None |}
    | RunThrows err pyError => ret (pyodide_failure count err pyError)
    end.

(** [result.execution_count = this.executionCount; return result] *)
Definition stamp (count : Z) (result : CellExecutionResult) : CellExecutionResult :=
  {| success := success result;
     outputs := outputs result;
     res_execution_count := count;
     res_error := res_error result |}.

(** [executeWithTauri] *)
Definition executeWithTauri (env : Env) (code : string) (options : ExecutionOptions)
  : P CellExecutionResult :=
  try_catch
    (if negb (tauri env) then throw (of_Error (new_Error "Tauri is not available"))
     else match tauri_python env code with
          | Some result =>
              let! count := gets executionCount in
              ret (stamp count result)
          | None => simulateExecution env code
          end)
    (fun _ => simulateExecution env code).

(** [executeWithAPI] *)
Definition executeWithAPI (env : Env) (code : string) (options : ExecutionOptions)
  : P CellExecutionResult :=
  match api_python env code with
  | Some result =>
      let! count := gets executionCount in
      ret (stamp count result)
  | None => simulateExecution env code
  end.

(** [executeWithBackend] *)
Definition executeWithBackend (env : Env) (code : string) (options : ExecutionOptions)
  : P CellExecutionResult :=
  if tauri env then executeWithTauri env code options
  else executeWithAPI env code options.

(** [executeCode] *)
Definition executeCode (env : Env) (code : string) (options : ExecutionOptions)
  : P CellExecutionResult :=
  modify (fun st => {| executionCount := executionCount st + 1;
                       pyodide := pyodide st |});;
  let! loaded := gets pyodide in
  let! ready := (if (loaded : bool) then ret true else tryInitializePyodide env) in
  if (ready : bool) then executeWithPyodide env code options
  else executeWithBackend env code options.

Definition resetExecutionCount : P unit :=
  modify (fun st => {| executionCount := 0; pyodide := pyodide st |}).

Definition getExecutionCount : P Z := gets executionCount.

End PythonExecutionService.

(** ** multi-language-execution-service.ts *)
Module MultiLanguageExecutionService.
Import Js JupyterNotebookService Host Eff.
Local Open Scope eff_scope.

(** The store of the service: its own [executionCounts] map, and the
    store of the [pythonExecutionService] object it calls. *)
Abbreviation State := Store.Services.
Abbreviation executionCounts := Store.executionCounts.
Abbreviation python := Store.python.

Definition initial : State :=
  {| executionCounts := ∅; python := PythonExecutionService.initial |}.

Definition S : Type -> Type := M State.

(** [this.executionCounts.get(language) || 0] *)
Definition counter (language : string) (st : State) : Z :=
  default 0 (executionCounts st !! language).

(** [this.executionCounts.set(language, count)] *)
Definition set_counter (language : string) (count : Z) (st : State) : State :=
  {| executionCounts := <[language := count]> (executionCounts st);
     python := python st |}.

(** A call of [pythonExecutionService.executeCode]. *)
Definition pythonExecutionService_executeCode
    (env : Env) (code : string) (options : ExecutionOptions) : S CellExecutionResult :=
  zoom python
       (fun p st => {| executionCounts := executionCounts st; python := p |})
       (PythonExecutionService.executeCode env code options).

(** The failure object the [catch] blocks of the backends build, which
    has no [error] property, from the strings the handler has read. *)
Definition failure (en evalue : string) (tb : list string) (count : Z)
  : CellExecutionResult :=
  {| success := false;
     outputs := [error_output en evalue tb];
     res_execution_count := count;
     res_error := None |}.

(** The failure object of the [catch] block of [executeCode], with the
    [error] property, from the message and the text the handler has
    read: [error.message || String(error)] and [[String(error)]]. *)
Definition failure_with_error (en : string) (err : Error) (count : Z)
  : CellExecutionResult :=
  {| success := false;
     outputs := [error_output en (or_else (message err) (to_string err))
                   [to_string err]];
     res_execution_count := count;
     res_error := Some {| err_ename := en;
                          err_evalue := or_else (message err) (to_string err);
                          err_traceback := [to_string err] |} |}.

(** The [catch] block of a backend that tries the host engine: the
    handler reads the message and the text of what it caught and builds
    the failure, or throws what a read throws. *)
Definition caught (en : string) (err : Thrown) (count : Z) : S CellExecutionResult :=
  let! seen := await (read_message_and_String err) in
  ret (failure en (or_else (message seen) (to_string seen)) [to_string seen] count).

(** A successful result with one [stdout] stream output. *)
Definition printed (t : string) (count : Z) : CellExecutionResult :=
  {| success := true;
     outputs := [stream_output stdout t];
     res_execution_count := count;
     res_error := None |}.

(** *** The tabular formatter *)

(** [row[key]] *)
Fixpoint row_get (row : Row) (key : string) : option SqlValue :=
  match row with
  | [] => None
  | (k, v) :: rest => if String.eqb k key then Some v else row_get rest key
  end.

(** [String(row[key] || '')]: a falsy value is shown as nothing. *)
Definition cell_text (v : option SqlValue) : string :=
  match v with
  | Some x => if value_truthy x then value_String x else ""
  | None => ""
  end.

(** [Object.keys(rows[0])], for keys that are no array indices. *)
Definition keys_of (rows : list Row) : list string :=
  match rows with
  | row :: _ => map fst row
  | [] => []
  end.

Definition sql_header (rows : list Row) : string :=
  join " | " (keys_of rows).

Definition sql_separator (rows : list Row) : string :=
  join " | " (map (fun _ => "---") (keys_of rows)).

(** [rows.slice(0, 100).map(row => keys.map(...).join(' | '))] *)
Definition sql_dataRows (rows : list Row) : list string :=
  map (fun row => join " | " (map (fun key => cell_text (row_get row key)) (keys_of rows)))
      (take 100 rows).

Definition sql_trailer (rows : list Row) : string :=
  if (100 <? List.length rows)%nat
  then LF +:+ "... (" +:+ pretty (List.length rows - 100)%nat +:+ " more rows)"
  else "".

(** [formatSQLTable] *)
Definition formatSQLTable (rows : list Row) : string :=
  match rows with
  | [] => "No rows returned"
  | _ :: _ =>
      join LF (sql_header rows :: sql_separator rows :: sql_dataRows rows)
      +:+ sql_trailer rows
  end.

Definition html_headerRow (rows : list Row) : string :=
  "<tr>" +:+ join "" (map (fun k => "<th>" +:+ k +:+ "</th>") (keys_of rows)) +:+ "</tr>".

Definition html_dataRows (rows : list Row) : list string :=
  map (fun row =>
         "<tr>" +:+ join "" (map (fun k => "<td>" +:+ cell_text (row_get row k) +:+ "</td>")
                                 (keys_of rows)) +:+ "</tr>")
      (take 100 rows).

Definition html_trailer (rows : list Row) : string :=
  if (100 <? List.length rows)%nat
  then "<div>... (" +:+ pretty (List.length rows - 100)%nat +:+ " more rows)</div>"
  else "".

(** [formatSQLTableHTML] *)
Definition formatSQLTableHTML (rows : list Row) : string :=
  match rows with
  | [] => "<div>No rows returned</div>"
  | _ :: _ =>
      LF +:+ "      <table style=" +:+ DQ
      +:+ "border-collapse: collapse; width: 100%; font-family: monospace; font-size: 12px;"
      +:+ DQ +:+ ">" +:+ LF
      +:+ "        <thead>" +:+ html_headerRow rows +:+ "</thead>" +:+ LF
      +:+ "        <tbody>" +:+ join "" (html_dataRows rows) +:+ "</tbody>" +:+ LF
      +:+ "      </table>" +:+ LF
      +:+ "      " +:+ html_trailer rows +:+ LF
      +:+ "    "
  end.

(** *** The backends *)

(** [code.trim().toUpperCase().startsWith('SELECT')] on the UTF-8 text
    of the source.  The white space that [trim] removes is the tab,
    the line feed, the vertical tab, the form feed, the carriage return
    and the space, and outside ASCII the code points U+00A0, U+1680,
    U+2000 to U+200A, U+2028, U+2029, U+202F, U+205F, U+3000 and
    U+FEFF, of two or three bytes each. *)
Definition is_space (c : ascii) : bool :=
  let n := nat_of_ascii c in
  ((n =? 32) || ((9 <=? n) && (n <=? 13)))%nat.

Definition is_space2 (a b : ascii) : bool :=
  ((nat_of_ascii a =? 194) && (nat_of_ascii b =? 160))%nat.

Definition is_space3 (a b c : ascii) : bool :=
  let x := nat_of_ascii a in
  let y := nat_of_ascii b in
  let z := nat_of_ascii c in
  (((x =? 225) && (y =? 154) && (z =? 128))
   || ((x =? 226) && (y =? 128)
       && (((128 <=? z) && (z <=? 138)) || (z =? 168) || (z =? 169) || (z =? 175)))
   || ((x =? 226) && (y =? 129) && (z =? 159))
   || ((x =? 227) && (y =? 128) && (z =? 128))
   || ((x =? 239) && (y =? 187) && (z =? 191)))%nat.

(** The text without the white space at its start. *)
Fixpoint trimStart (s : string) : string :=
  match s with
  | String a r1 =>
      if is_space a then trimStart r1
      else match r1 with
           | String b r2 =>
               if is_space2 a b then trimStart r2
               else match r2 with
                    | String c r3 => if is_space3 a b c then trimStart r3 else s
                    | EmptyString => s
                    end
           | EmptyString => s
           end
  | EmptyString => EmptyString
  end.

(** The capital of an ASCII letter. *)
Definition upper (c : ascii) : ascii :=
  let n := nat_of_ascii c in
  if ((97 <=? n) && (n <=? 122))%nat then ascii_of_nat (n - 32) else c.

(** [s.toUpperCase().startsWith(word)] for a word of ASCII capitals
    out of S, E, L, C and T.  The code points that [toUpperCase] turns
    into a text starting with one of these letters are the letter, its
    small form, for S the long s U+017F (the bytes 197 and 191), and
    for T the small t with diaeresis U+1E97 (the bytes 225, 186 and
    151), which becomes T followed by the combining diaeresis U+0308
    (the bytes 204 and 136); and the sharp s and the ligatures U+FB05
    and U+FB06, which become SS and ST and so start no word in which S
    is followed by another letter. *)
Fixpoint upper_starts_with (word s : string) : bool :=
  match word with
  | EmptyString => true
  | String w word' =>
      match s with
      | String a r =>
          if Ascii.eqb (upper a) w then upper_starts_with word' r
          else match r with
               | String b r' =>
                   if Ascii.eqb w "S" && (nat_of_ascii a =? 197)%nat
                      && (nat_of_ascii b =? 191)%nat
                   then upper_starts_with word' r'
                   else match r' with
                        | String c r'' =>
                            Ascii.eqb w "T" && (nat_of_ascii a =? 225)%nat
                            && (nat_of_ascii b =? 186)%nat
                            && (nat_of_ascii c =? 151)%nat
                            && upper_starts_with word'
                                 (String (ascii_of_nat 204)
                                    (String (ascii_of_nat 136) r''))
                        | EmptyString => false
                        end
               | EmptyString => false
               end
      | EmptyString => false
      end
  end.

(** [code.trim().toUpperCase().startsWith('SELECT')]: of the trimming
    only the start matters. *)
Definition starts_with_select (code : string) : bool :=
  upper_starts_with "SELECT" (trimStart code).
Arguments starts_with_select : simpl never.

(** [executeSQLWeb] *)
Definition executeSQLWeb (code : string) (count : Z) : CellExecutionResult :=
  {| success := true;
     outputs :=
       if starts_with_select code
       then [data_output execute_result (Some count)
               {| text_plain := Some (Str ("Query executed successfully" +:+ LF
                                           +:+ "(Simulated - use backend for real SQL)"));
                  text_html := Some (Str ("<div style=" +:+ DQ
                    +:+ "padding: 12px; background: #1e1e1e; border-radius: 4px;" +:+ DQ
                    +:+ ">Query executed successfully<br/>(Simulated - use backend for real SQL)</div>"));
                  image_png := None; image_jpeg := None; image_svg_xml := None;
                  application_json := None; other_mime := [] |}]
       else [stream_output stdout ("SQL command executed (simulated)" +:+ LF)];
     res_execution_count := count;
     res_error := None |}.

(** The pattern shared by the backends that try the host engine:
    [if (tauri) { try { ... return r ... } catch { } }], whose value
    is [Some r] when the block returned and [None] when control falls
    through to the fallback. *)
Definition attempt_tauri (env : Env) (body : S CellExecutionResult)
  : S (option CellExecutionResult) :=
  if tauri env
  then try_catch (let! r := body in ret (Some r)) (fun _ => ret None)
  else ret None.

(** [executeSQL] *)
Definition executeSQL (env : Env) (code : string) (options : ExecutionOptions)
  : S CellExecutionResult :=
  let! count := gets (fun st => counter "sql" st + 1) in
  try_catch
    (let! attempt :=
       attempt_tauri env
         (let! result := await (invoke_execute_sql env code) in
          match sql_success result, sql_rows result with
          | true, Some rows =>
              ret {| success := true;
                     outputs :=
                       [data_output execute_result (Some count)
                          {| text_plain := Some (Str (formatSQLTable rows));
                             text_html := Some (Str (formatSQLTableHTML rows));
                             image_png := None; image_jpeg := None;
                             image_svg_xml := None; application_json := None;
                             other_mime := [] |}];
                     res_execution_count := count;
                     res_error := None |}
          | _, _ => throw (of_Error (new_Error (opt_or_else (sql_error result)
                                                            "SQL execution failed")))
          end) in
     match attempt with
     | Some r => ret r
     | None => ret (executeSQLWeb code count)
     end)
    (fun err => caught "SQLError" err count).

(** The reply to a text command, turned into a result or an error. *)
Definition text_reply (result : TextReply) (fallback_text fallback_error : string)
    (count : Z) : S CellExecutionResult :=
  if reply_success result
  then ret (printed (opt_or_else (reply_output result) fallback_text) count)
  else throw (of_Error (new_Error (opt_or_else (reply_error result) fallback_error))).

(** [executeRust] *)
Definition executeRust (env : Env) (code : string) (options : ExecutionOptions)
  : S CellExecutionResult :=
  let! count := gets (fun st => counter "rust" st + 1) in
  try_catch
    (let! attempt :=
       attempt_tauri env
         (if compileOnly options
          then let! result := await (invoke_compile_rust env code) in
               text_reply result "Compilation successful" "Rust compilation failed" count
          else let! result := await (invoke_execute_rust env code) in
               text_reply result "Execution successful" "Rust execution failed" count) in
     match attempt with
     | Some r => ret r
     | None =>
         ret (printed ("Rust code compiled and executed (simulated)" +:+ LF
                       +:+ "Note: Real Rust execution requires backend or WebAssembly compilation")
                      count)
     end)
    (fun err => caught "RustError" err count).

(** [executeR] *)
Definition executeR (env : Env) (code : string) (options : ExecutionOptions)
  : S CellExecutionResult :=
  let! count := gets (fun st => counter "r" st + 1) in
  try_catch
    (let! attempt :=
       attempt_tauri env
         (let! result := await (invoke_execute_r env code) in
          text_reply result "R code executed successfully" "R execution failed" count) in
     match attempt with
     | Some r => ret r
     | None =>
         ret (printed ("R code executed (simulated)" +:+ LF
                       +:+ "Note: Real R execution requires R.js or backend R installation")
                      count)
     end)
    (fun err => caught "RError" err count).

(** [executeNavLambda] *)
Definition executeNavLambda (env : Env) (code : string) (options : ExecutionOptions)
  : S CellExecutionResult :=
  let! count := gets (fun st => counter "navlambda" st + 1) in
  try_catch
    (let! attempt :=
       attempt_tauri env
         (let! result := await (invoke_run_live_preview env code) in
          match JSON_parse env result with
          | Normal parsedResult =>
              ret {| success := true;
                     outputs :=
                       [data_output execute_result (Some count)
                          {| text_plain :=
                               Some (Str match parsedResult with
                                         | JStr s => s
                                         | _ => JSON_stringify env parsedResult
                                         end);
                             text_html := None; image_png := None;
                             image_jpeg := None; image_svg_xml := None;
                             application_json := Some parsedResult;
                             other_mime := [] |}];
                     res_execution_count := count;
                     res_error := None |}
          | Throw _ => ret (printed result count)
          end) in
     match attempt with
     | Some r => ret r
     | None =>
         ret (printed ("NAVΛ code executed (simulated)" +:+ LF
                       +:+ "→ Navigation field computed" +:+ LF
                       +:+ "→ Optimal path calculated" +:+ LF
                       +:+ "Note: Real NAVΛ execution requires backend compiler")
                      count)
     end)
    (fun err => caught "NavLambdaError" err count).

(** [eval(code)] as a step of the service: the store becomes what the
    source leaves, whether it returns or throws. *)
Definition evaluate (env : Env) (code : string) : S EvalOutcome :=
  fun st => let ran := eval env code st in
            (match thrown ran with
             | Some err => Throw err
             | None => Normal ran
             end, services ran).

(** [executeJavaScript]; both tags run [eval(code)].  The handler reads
    [error.message || String(error)] and [error.stack || String(error)]
    of what it caught. *)
Definition executeJavaScript (env : Env) (code : string) (language : string)
    (options : ExecutionOptions) : S CellExecutionResult :=
  let! count := gets (fun st => counter language st + 1) in
  try_catch
    (let! ran := evaluate env code in
     ret {| success := true;
            outputs :=
              (pushed ran
               ++ [match consoleLogs ran with
                   | [] => data_output execute_result (Some count)
                             (plain "Code executed successfully")
                   | logs => stream_output stdout (join LF logs +:+ LF)
                   end])%list;
            res_execution_count := count;
            res_error := None |})
    (fun err =>
       let! evalue := await (message_or_String err) in
       let! top := await (stack_or_String err) in
       ret (failure "JavaScriptError" evalue [top] count)).

(** *** The dispatcher *)

Section Dispatcher.
(** The backends the [switch] selects from. *)
Variable run_python run_sql run_rust run_r run_navlambda
  : string -> ExecutionOptions -> S CellExecutionResult.
Variable run_javascript
  : string -> string -> ExecutionOptions -> S CellExecutionResult.

(** The [switch (language)] of [executeCode]. *)
Definition select (language code : string) (options : ExecutionOptions)
  : S CellExecutionResult :=
  if String.eqb language "python" then run_python code options
  else if String.eqb language "sql" then run_sql code options
  else if String.eqb language "rust" then run_rust code options
  else if String.eqb language "r" then run_r code options
  else if String.eqb language "navlambda" || String.eqb language "vnc"
  then run_navlambda code options
  else if String.eqb language "javascript" || String.eqb language "typescript"
  then run_javascript code language options
  else throw (of_Error (new_Error ("Unsupported language: " +:+ language))).

(** [executeCode], over any backends.  The handler reads the message
    and the text of what it caught; when a read throws, so does the
    handler, and with it the call. *)
Definition executeCode_over (language code : string) (options : ExecutionOptions)
  : S CellExecutionResult :=
  let! count := gets (fun st => counter language st + 1) in
  modify (set_counter language count);;
  try_catch (select language code options)
            (fun err =>
               let! seen := await (read_message_and_String err) in
               ret (failure_with_error "ExecutionError" seen count)).
End Dispatcher.

(** [executeCode] *)
Definition executeCode (env : Env) (language code : string) (options : ExecutionOptions)
  : S CellExecutionResult :=
  executeCode_over (pythonExecutionService_executeCode env)
                   (executeSQL env) (executeRust env) (executeR env)
                   (executeNavLambda env) (executeJavaScript env)
                   language code options.

(** [resetExecutionCount] *)
Definition resetExecutionCount (language : option string) : S unit :=
  if opt_truthy language
  then modify (set_counter (default "" language) 0)
  else modify (fun st => {| executionCounts := ∅; python := python st |}).

(** [getExecutionCount] *)
Definition getExecutionCount (language : string) : S Z :=
  gets (counter language).

(** The language tags of [SupportedLanguage]. *)
Definition SupportedLanguage : list string :=
  ["python"; "sql"; "rust"; "r"; "navlambda"; "vnc"; "javascript"; "typescript"].

(** *** Sequences of calls *)

Record Call := {
  call_env : Env;
  call_language : string;
  call_code : string;
  call_options : ExecutionOptions;
}.

(** The calls of a sequence, one after the other on the same service. *)
Fixpoint run (calls : list Call) (st : State)
  : list (outcome Thrown CellExecutionResult) * State :=
  match calls with
  | [] => ([], st)
  | c :: rest =>
      let (r, st') := executeCode (call_env c) (call_language c) (call_code c)
                                  (call_options c) st in
      let (rs, st'') := run rest st' in
      (r :: rs, st'')
  end.

End MultiLanguageExecutionService.

(** ** NotebookPanel.tsx: the cell list of the panel and its caller of
    the dispatcher *)
Module NotebookPanel.
Import Js JupyterNotebookService Host Eff.
Local Open Scope eff_scope.

(** [metadata?: { executionCount?: number; lastExecuted?: Date }]; a
    date is its time value. *)
Record CellInfo := {
  executionCount : option Z;
  lastExecuted : option Z;
}.

(** The [NotebookCell] of the panel. *)
Record NotebookCell := {
  id : string;
  type : CellKind;
  language : string;
  content : string;
  output : option string;
  isExecuting : option bool;
  metadata : option CellInfo;
}.

(** The state the cell operations read and set. *)
Record Panel := {
  cells : list NotebookCell;
  activeCell : option string;
  showLanguageMenu : option string;
}.

(** The cell that [addCell] and [insertCellAfter] create; [now] is the
    value of [Date.now()]. *)
Definition newCell (now : Z) (type : CellKind) (language : string) : NotebookCell :=
  {| id := pretty now;
     type := type;
     language := language;
     content := "";
     output := None;
     isExecuting := None;
     metadata := match type with
                 | kind_code => Some {| executionCount := Some 0; lastExecuted := None |}
                 | kind_markdown => None
                 end |}.

(** [addCell] *)
Definition addCell (now : Z) (type : CellKind) (language : string) (p : Panel) : Panel :=
  {| cells := cells p ++ [newCell now type language];
     activeCell := Some (pretty now);
     showLanguageMenu := showLanguageMenu p |}.

(** [cells.findIndex(c => c.id === afterId)]; [None] stands for -1. *)
Fixpoint findIndex (wanted : string) (l : list NotebookCell) : option nat :=
  match l with
  | [] => None
  | c :: rest => if String.eqb (id c) wanted then Some 0%nat
                 else S <$> findIndex wanted rest
  end.

(** [newCells.splice(position, 0, cell)] *)
Definition splice_in (position : nat) (cell : NotebookCell) (l : list NotebookCell)
  : list NotebookCell :=
  take position l ++ cell :: drop position l.

(** [insertCellAfter]: the new cell goes to position [index + 1]. *)
Definition insertCellAfter (now : Z) (afterId : string) (type : CellKind)
    (language : string) (p : Panel) : Panel :=
  {| cells := splice_in (match findIndex afterId (cells p) with
                         | Some index => S index
                         | None => 0%nat
                         end)
                        (newCell now type language) (cells p);
     activeCell := Some (pretty now);
     showLanguageMenu := showLanguageMenu p |}.

(** [updateCell] *)
Definition updateCell (wanted : string) (text : string) (p : Panel) : Panel :=
  {| cells := map (fun cell =>
                     if String.eqb (id cell) wanted
                     then {| id := id cell; type := type cell; language := language cell;
                             content := text; output := output cell;
                             isExecuting := isExecuting cell; metadata := metadata cell |}
                     else cell) (cells p);
     activeCell := activeCell p;
     showLanguageMenu := showLanguageMenu p |}.

(** [changeCellLanguage] *)
Definition changeCellLanguage (wanted : string) (lang : string) (p : Panel) : Panel :=
  {| cells := map (fun cell =>
                     if String.eqb (id cell) wanted
                     then {| id := id cell; type := type cell; language := lang;
                             content := content cell; output := output cell;
                             isExecuting := isExecuting cell; metadata := metadata cell |}
                     else cell) (cells p);
     activeCell := activeCell p;
     showLanguageMenu := None |}.

(** [deleteCell] *)
Definition deleteCell (wanted : string) (p : Panel) : Panel :=
  {| cells := List.filter (fun cell => negb (String.eqb (id cell) wanted)) (cells p);
     activeCell := activeCell p;
     showLanguageMenu := showLanguageMenu p |}.

(** A template literal prints a missing value as [undefined]. *)
Definition interpolated (o : option string) : string :=
  default "undefined" o.

(** What an array element becomes inside [join]: a string is itself, an
    array its elements joined by commas, a missing value nothing. *)
Definition joined_element (o : option StringOrLines) : string :=
  match o with
  | Some (Str s) => s
  | Some (Lines l) => join "," l
  | None => ""
  end.

Section Execute.
(** [JSON.stringify(o.data, null, 2)] for a [data] object. *)
Variable JSON_stringify_data : OutputData -> string.

(** The text [executeCell] shows for one output. *)
Definition output_text (o : NotebookOutput) : string :=
  match output_type o with
  | stream => joined_element (text o)
  | execute_result | display_data =>
      match data o with
      | Some d => if sol_truthy (text_plain d) then joined_element (text_plain d)
                  else JSON_stringify_data d
      | None => ""
      end
  | error =>
      interpolated (ename o) +:+ ": " +:+ interpolated (evalue o) +:+ LF
      +:+ interpolated (join LF <$> traceback o)
  end.

(** The update of the cells named [wanted] when the call has returned. *)
Definition finished (wanted : string) (text : string) (count : Z) (now : Z)
    (l : list NotebookCell) : list NotebookCell :=
  map (fun c =>
         if String.eqb (id c) wanted
         then {| id := id c; type := type c; language := language c;
                 content := content c; output := Some text;
                 isExecuting := Some false;
                 metadata := Some {| executionCount := Some count;
                                     lastExecuted := Some now |} |}
         else c) l.

(** The update of the cells named [wanted] in the handler.  The text
    is built inside the update function, once for each such cell: it
    reads [error.message || String(error)] of what was caught, and the
    update throws when that read throws. *)
Fixpoint failed (wanted : string) (err : Thrown) (count : Z) (now : Z)
    (l : list NotebookCell) : outcome Thrown (list NotebookCell) :=
  match l with
  | [] => Normal []
  | c :: rest =>
      and_then
        (if String.eqb (id c) wanted
         then and_then (message_or_String err) (fun text =>
              Normal {| id := id c; type := type c; language := language c;
                        content := content c;
                        output := Some ("Execution Error: " +:+ text);
                        isExecuting := Some false;
                        metadata := Some {| executionCount := Some count;
                                            lastExecuted := Some now |} |})
         else Normal c) (fun c' =>
      and_then (failed wanted err count now rest) (fun rest' =>
      Normal (c' :: rest')))
  end.

(** The cell list of the panel, replaced by [f] of it:
    [setCells(prev => f(prev))]. *)
Definition setCells (f : list NotebookCell -> list NotebookCell)
  : M (Panel * MultiLanguageExecutionService.State) unit :=
  modify (fun s => ({| cells := f (cells (fst s));
                       activeCell := activeCell (fst s);
                       showLanguageMenu := showLanguageMenu (fst s) |}, snd s)).

(** [setCells(prev => f(prev))] for an update function that can throw.
    When it throws, the cells stay as they are; the throw comes up
    where the update function is run, and here it ends the run. *)
Definition setCells_with (f : list NotebookCell -> outcome Thrown (list NotebookCell))
  : M (Panel * MultiLanguageExecutionService.State) unit :=
  let! prev := gets (fun s => cells (fst s)) in
  let! next := await (f prev) in
  setCells (fun _ => next).

(** A call of [multiLanguageExecutionService.executeCode]. *)
Definition multiLanguageExecutionService_executeCode
    (env : Env) (language code : string)
  : M (Panel * MultiLanguageExecutionService.State) CellExecutionResult :=
  zoom snd (fun st s => (fst s, st))
       (MultiLanguageExecutionService.executeCode env language code no_options).

(** [executeCell].  [snapshot] is the cell list of the render the
    function was created in, which it searches for the cell; the
    updates apply to the current cells of the panel.  The update of
    the handler reads [error.message || String(error)] of what the
    dispatcher throws, for each cell with the id; when that read
    throws, the cells stay marked as executing. *)
Definition executeCell (env : Env) (now : Z) (snapshot : list NotebookCell)
    (wanted : string) : M (Panel * MultiLanguageExecutionService.State) unit :=
  match List.find (fun c => String.eqb (id c) wanted) snapshot with
  | None => ret tt
  | Some cell =>
      match type cell with
      | kind_markdown => ret tt
      | kind_code =>
          setCells (map (fun c =>
                           if String.eqb (id c) wanted
                           then {| id := id c; type := type c; language := language c;
                                   content := content c; output := output c;
                                   isExecuting := Some true; metadata := metadata c |}
                           else c));;
          let executionCount :=
            default 0 (m ← metadata cell; executionCount m) + 1 in
          let lang := if String.eqb (language cell) "vnc" then "navlambda"
                      else language cell in
          try_catch
            (let! result := multiLanguageExecutionService_executeCode
                              env lang (content cell) in
             let shown := join LF (map output_text (outputs result)) in
             setCells (finished wanted
                         (or_else shown (if success result then "✓ Executed successfully"
                                         else "Execution failed"))
                         (if res_execution_count result =? 0 then executionCount
                          else res_execution_count result)
                         now))
            (fun err => setCells_with (failed wanted err executionCount now))
      end
  end.

(** [executeAllCells]: the code cells of the snapshot, in order; [world]
    and [clock] give the world and the time of the call for the cell at
    each position.  A run of [executeCell] that ends by a throw ends
    the loop. *)
Fixpoint executeAll (world : nat -> Env) (clock : nat -> Z)
    (snapshot todo : list NotebookCell) (position : nat)
  : M (Panel * MultiLanguageExecutionService.State) unit :=
  match todo with
  | [] => ret tt
  | cell :: rest =>
      match type cell with
      | kind_code =>
          executeCell (world position) (clock position) snapshot (id cell);;
          executeAll world clock snapshot rest (S position)
      | kind_markdown => executeAll world clock snapshot rest (S position)
      end
  end.

Definition executeAllCells (world : nat -> Env) (clock : nat -> Z)
  : M (Panel * MultiLanguageExecutionService.State) unit :=
  fun s => executeAll world clock (cells (fst s)) (cells (fst s)) 0%nat s.
End Execute.

End NotebookPanel.

(** ** Concrete documents, cells and worlds used by the examples *)
Module Examples.
Import Js JupyterNotebookService Host.

(** A parsed document with [nbformat: 3] and no [cells] property. *)
Definition version3_without_cells : RawNotebook :=
  {| raw_cells := None; raw_metadata := None;
     raw_nbformat := Some (JNum 3); raw_nbformat_minor := Some 0 |}.

(** A code cell persisted with its source as three fragments. *)
Definition three_fragment_cell : NotebookCell :=
  {| cell_type := code; execution_count := None; cell_id := Some "c1";
     cell_metadata := Some empty_metadata;
     source := Some (Lines ["import os" +:+ LF; "x = 1" +:+ LF; "print(x)"]);
     cell_outputs := Some [] |}.

Definition three_fragment_document : RawNotebook :=
  {| raw_cells := Some (CellsArray [Some three_fragment_cell]);
     raw_metadata := None;
     raw_nbformat := Some (JNum 4); raw_nbformat_minor := Some 4 |}.

(** A document whose [cells] property is a string, with [nbformat: 3]. *)
Definition version3_cells_string : RawNotebook :=
  {| raw_cells := Some (CellsString "none"); raw_metadata := None;
     raw_nbformat := Some (JNum 3); raw_nbformat_minor := None |}.


(** A document with an empty [cells] array and [nbformat: 3]. *)
Definition version3_document : RawNotebook :=
  {| raw_cells := Some (CellsArray []); raw_metadata := None;
     raw_nbformat := Some (JNum 3); raw_nbformat_minor := Some 0 |}.

(** An in-memory Python code cell with a two-line source. *)
Definition two_line_cell : Cell :=
  {| id := "c1"; type := kind_code; language := "python";
     content := "x = 1" +:+ LF +:+ "print(x)";
     executionCount := Some 1;
     cellOutputs := Some [];
     cellMetadata := Some empty_metadata |}.


(** A world with no host engine, no interpreter and no Python API:
    every backend ends in its simulated answer; [eval] runs quietly. *)
Definition offline : Env :=
  {| tauri := false;
     pyodide_loads := false;
     pyodide_run := fun _ => RunThrows (new_Error "interpreter missing") None;
     tauri_python := fun _ => None;
     api_python := fun _ => None;
     match_print := fun _ => None;
     replace_print := fun m => m;
     invoke_execute_sql := fun _ => Throw (of_Error (new_Error "no host engine"));
     invoke_compile_rust := fun _ => Throw (of_Error (new_Error "no host engine"));
     invoke_execute_rust := fun _ => Throw (of_Error (new_Error "no host engine"));
     invoke_execute_r := fun _ => Throw (of_Error (new_Error "no host engine"));
     invoke_run_live_preview := fun _ => Throw (of_Error (new_Error "no host engine"));
     JSON_parse := fun _ => Throw (new_Error "Unexpected token");
     JSON_stringify := fun _ => "";
     eval := fun _ => script [] None |}.

(** The same world, where the evaluated JavaScript throws. *)
Definition eval_throws : Env :=
  {| tauri := false;
     pyodide_loads := false;
     pyodide_run := pyodide_run offline;
     tauri_python := fun _ => None;
     api_python := fun _ => None;
     match_print := fun _ => None;
     replace_print := fun m => m;
     invoke_execute_sql := invoke_execute_sql offline;
     invoke_compile_rust := invoke_compile_rust offline;
     invoke_execute_rust := invoke_execute_rust offline;
     invoke_execute_r := invoke_execute_r offline;
     invoke_run_live_preview := invoke_run_live_preview offline;
     JSON_parse := JSON_parse offline;
     JSON_stringify := fun _ => "";
     eval := fun _ => script [] (Some (of_Error (new_Error "x is not defined"))) |}.

(** One call in the offline world. *)
Definition offline_call (language code : string)
  : MultiLanguageExecutionService.Call :=
  {| MultiLanguageExecutionService.call_env := offline;
     MultiLanguageExecutionService.call_language := language;
     MultiLanguageExecutionService.call_code := code;
     MultiLanguageExecutionService.call_options := no_options |}.

(** A document with two cells that carry no id. *)
Definition two_anonymous_cells : JupyterNotebook :=
  {| cells := [ {| cell_type := raw; execution_count := None; cell_id := None;
                   cell_metadata := None; source := Some (Str "notes");
                   cell_outputs := None |};
                {| cell_type := code; execution_count := Some 3; cell_id := Some "";
                   cell_metadata := None; source := Some (Lines ["a"; "b"]);
                   cell_outputs := None |} ];
     metadata := None; nbformat := JNum 4; nbformat_minor := None |}.

(** A one-line Rust cell tagged through its metadata, and a markdown cell. *)
Definition rust_cell : Cell :=
  {| id := "r1"; type := kind_code; language := "rust";
     content := "fn main() {}"; executionCount := Some 2;
     cellOutputs := Some [];
     cellMetadata := Some {| md_language := Some "rust"; md_rest := [] |} |}.

Definition text_cell : Cell :=
  {| id := "m1"; type := kind_markdown; language := "python";
     content := "# Title"; executionCount := None;
     cellOutputs := Some [];
     cellMetadata := Some empty_metadata |}.

(** A result set of 150 rows with the columns [id] and [name]. *)
Definition rows150 : list Row :=
  replicate 150 [("id", SqlNum 7); ("name", SqlText "ada")].

(** A result set of two rows; the second has no value for [name]. *)
Definition two_rows : list Row :=
  [ [("id", SqlNum 1); ("name", SqlText "ada")];
    [("id", SqlNum 2); ("name", SqlNull)] ].

(** A world with a host engine whose Rust commands answer: compiling
    succeeds, running reports an error. *)
Definition rust_engine : Env :=
  {| tauri := true;
     pyodide_loads := false;
     pyodide_run := pyodide_run offline;
     tauri_python := fun _ => None;
     api_python := fun _ => None;
     match_print := fun _ => None;
     replace_print := fun m => m;
     invoke_execute_sql := invoke_execute_sql offline;
     invoke_compile_rust :=
       fun _ => Normal {| reply_success := true; reply_output := Some "wasm built";
                          reply_error := None |};
     invoke_execute_rust :=
       fun _ => Normal {| reply_success := false; reply_output := None;
                          reply_error := Some "panicked at main.rs:1" |};
     invoke_execute_r := invoke_execute_r offline;
     invoke_run_live_preview := invoke_run_live_preview offline;
     JSON_parse := JSON_parse offline;
     JSON_stringify := fun _ => "";
     eval := fun _ => script ["1 2"; "done"] None |}.

(** The same engine, where running the Rust program succeeds. *)
Definition rust_engine_running : Env :=
  {| tauri := true;
     pyodide_loads := false;
     pyodide_run := pyodide_run offline;
     tauri_python := fun _ => None;
     api_python := fun _ => None;
     match_print := fun _ => None;
     replace_print := fun m => m;
     invoke_execute_sql := invoke_execute_sql offline;
     invoke_compile_rust := invoke_compile_rust rust_engine;
     invoke_execute_rust :=
       fun _ => Normal {| reply_success := true; reply_output := Some "hello";
                          reply_error := None |};
     invoke_execute_r := invoke_execute_r offline;
     invoke_run_live_preview := invoke_run_live_preview offline;
     JSON_parse := JSON_parse offline;
     JSON_stringify := fun _ => "";
     eval := eval rust_engine |}.

Definition compile_only : ExecutionOptions :=
  {| timeout := None; captureOutput := None; workingDirectory := None;
     environment := []; compileOnly := true |}.

(** A world without host engine in which the interpreter loads; running
    the source raises, and the Python traceback can be read. *)
Definition pyodide_raises : Env :=
  {| tauri := false;
     pyodide_loads := true;
     pyodide_run :=
       fun _ => RunThrows (new_Error "PythonError")
                          (Some ("Traceback (most recent call last):"
                                 +:+ LF +:+ "ZeroDivisionError: division by zero"));
     tauri_python := fun _ => None;
     api_python := fun _ => None;
     match_print := fun _ => None;
     replace_print := fun m => m;
     invoke_execute_sql := invoke_execute_sql offline;
     invoke_compile_rust := invoke_compile_rust offline;
     invoke_execute_rust := invoke_execute_rust offline;
     invoke_execute_r := invoke_execute_r offline;
     invoke_run_live_preview := invoke_run_live_preview offline;
     JSON_parse := JSON_parse offline;
     JSON_stringify := fun _ => "";
     eval := eval offline |}.

(** A world whose Python API answers with a result of its own. *)
Definition python_api : Env :=
  {| tauri := false;
     pyodide_loads := false;
     pyodide_run := pyodide_run offline;
     tauri_python := fun _ => None;
     api_python :=
       fun _ => Some {| success := true;
                        outputs := [stream_output stdout "42"];
                        res_execution_count := 17;
                        res_error := None |};
     match_print := fun _ => None;
     replace_print := fun m => m;
     invoke_execute_sql := invoke_execute_sql offline;
     invoke_compile_rust := invoke_compile_rust offline;
     invoke_execute_rust := invoke_execute_rust offline;
     invoke_execute_r := invoke_execute_r offline;
     invoke_run_live_preview := invoke_run_live_preview offline;
     JSON_parse := JSON_parse offline;
     JSON_stringify := fun _ => "";
     eval := eval offline |}.

(** A panel with a markdown cell and two code cells, one of them in a
    language the dispatcher has no backend for. *)
Definition panel_cell (name : string) (kind : CellKind) (lang text : string)
  : NotebookPanel.NotebookCell :=
  {| NotebookPanel.id := name; NotebookPanel.type := kind;
     NotebookPanel.language := lang; NotebookPanel.content := text;
     NotebookPanel.output := None; NotebookPanel.isExecuting := None;
     NotebookPanel.metadata :=
       match kind with
       | kind_code => Some {| NotebookPanel.executionCount := Some 0;
                              NotebookPanel.lastExecuted := None |}
       | kind_markdown => None
       end |}.

Definition three_cell_panel : NotebookPanel.Panel :=
  {| NotebookPanel.cells :=
       [ panel_cell "1" kind_markdown "vnc" "# Notes";
         panel_cell "2" kind_code "vnc" "route A -> B";
         panel_cell "3" kind_code "bash" "ls" ];
     NotebookPanel.activeCell := None;
     NotebookPanel.showLanguageMenu := None |}.

(** A world whose host engine answers an SQL query with two rows. *)
Definition sql_engine : Env :=
  {| tauri := true;
     pyodide_loads := false;
     pyodide_run := pyodide_run offline;
     tauri_python := fun _ => None;
     api_python := fun _ => None;
     match_print := fun _ => None;
     replace_print := fun m => m;
     invoke_execute_sql :=
       fun _ => Normal {| sql_success := true; sql_rows := Some two_rows;
                          sql_error := None |};
     invoke_compile_rust := invoke_compile_rust offline;
     invoke_execute_rust := invoke_execute_rust offline;
     invoke_execute_r := invoke_execute_r offline;
     invoke_run_live_preview := invoke_run_live_preview offline;
     JSON_parse := JSON_parse offline;
     JSON_stringify := fun _ => "";
     eval := eval offline |}.

(** A world in which the evaluated JavaScript throws an object whose
    [message] property is an accessor that throws [null]. *)
Definition message_getter_throws : Env :=
  {| tauri := false;
     pyodide_loads := false;
     pyodide_run := pyodide_run offline;
     tauri_python := fun _ => None;
     api_python := fun _ => None;
     match_print := fun _ => None;
     replace_print := fun m => m;
     invoke_execute_sql := invoke_execute_sql offline;
     invoke_compile_rust := invoke_compile_rust offline;
     invoke_execute_rust := invoke_execute_rust offline;
     invoke_execute_r := invoke_execute_r offline;
     invoke_run_live_preview := invoke_run_live_preview offline;
     JSON_parse := JSON_parse offline;
     JSON_stringify := fun _ => "";
     eval := fun _ => script [] (Some (Value (Throw Null) (Normal "[object Object]")
                                             (Normal None))) |}.


End Examples.

(** ** Notions used to state the properties *)
Module Props.
Import Js JupyterNotebookService Host.

(** The string without its line feeds. *)
Fixpoint remove_lf (s : string) : string :=
  match s with
  | EmptyString => EmptyString
  | String c r => if Ascii.eqb c "010"%char then remove_lf r else String c (remove_lf r)
  end.

(** The string holds no line feed. *)
Fixpoint single_line (s : string) : bool :=
  match s with
  | EmptyString => true
  | String c r => negb (Ascii.eqb c "010"%char) && single_line r
  end.

(** No key of the rows holds a line feed, and no value does when it is
    converted to a string. *)
Definition value_single_line (v : SqlValue) : bool :=
  single_line (value_String v).

Definition row_single_line (row : Row) : bool :=
  forallb (fun kv => single_line (fst kv) && value_single_line (snd kv)) row.

Definition rows_single_line (rows : list Row) : bool :=
  forallb row_single_line rows.

(** The frame of the HTML table, as the template literal of
    [formatSQLTableHTML] writes it, around a header row, the row
    elements and a note. *)
Definition html_table (headerRow : string) (dataRows : list string) (note : string)
  : string :=
  LF +:+ "      <table style=" +:+ DQ
  +:+ "border-collapse: collapse; width: 100%; font-family: monospace; font-size: 12px;"
  +:+ DQ +:+ ">" +:+ LF
  +:+ "        <thead>" +:+ headerRow +:+ "</thead>" +:+ LF
  +:+ "        <tbody>" +:+ join "" dataRows +:+ "</tbody>" +:+ LF
  +:+ "      </table>" +:+ LF
  +:+ "      " +:+ note +:+ LF
  +:+ "    ".

(** A notebook as the value a JSON parser hands to [parseNotebook]. *)
Definition as_parsed (nb : JupyterNotebook) : RawNotebook :=
  {| raw_cells := Some (CellsArray (Some <$> cells nb));
     raw_metadata := metadata nb;
     raw_nbformat := Some (nbformat nb);
     raw_nbformat_minor := nbformat_minor nb |}.

(** Writing a cell list with the default metadata and reading it back. *)
Definition roundtrip (cs : list Cell) : list Cell :=
  notebookToCells (cellsToNotebook cs None).

(** The cells the round trip gives back unchanged: a non-empty id, a
    source without line feed, outputs and metadata present, the tag
    that [detectLanguage] finds (the [language] entry of the metadata,
    or else [python], the language of the default document metadata),
    and for a markdown cell no execution count and no output. *)
Definition survives_roundtrip (c : Cell) : Prop :=
  id c <> ""
  /\ single_line (content c) = true
  /\ (exists outs, cellOutputs c = Some outs
                   /\ (type c = kind_markdown -> outs = []))
  /\ (type c = kind_markdown -> executionCount c = None)
  /\ exists md, cellMetadata c = Some md
                /\ language c = if opt_truthy (md_language md)
                                then default "" (md_language md)
                                else "python".

(** What the round trip makes of the cell at position [index]. *)
Definition roundtrip_cell (index : nat) (c : Cell) : Cell :=
  let md := default empty_metadata (cellMetadata c) in
  {| id := or_else (id c) ("cell-" +:+ pretty index);
     type := type c;
     language := if opt_truthy (md_language md)
                 then default "" (md_language md) else "python";
     content := remove_lf (content c);
     executionCount := match type c with
                       | kind_code => executionCount c
                       | kind_markdown => None
                       end;
     cellOutputs := Some match type c with
                         | kind_code => default [] (cellOutputs c)
                         | kind_markdown => []
                         end;
     cellMetadata := Some md |}.

(** The awaited reply of the host engine is a rejection, or a reply
    that does not satisfy [ok]. *)
Definition reply_fails {A} (ok : A -> bool) (c : outcome Thrown A) : bool :=
  match c with
  | Normal a => negb (ok a)
  | Throw _ => true
  end.

(** The command that the backend of [tag] sends to the host engine for
    this source and these options does not give a usable answer. *)
Definition engine_fails (env : Env) (tag code : string) (options : ExecutionOptions)
  : bool :=
  if String.eqb tag "sql"
  then reply_fails (fun r => sql_success r && bool_decide (is_Some (sql_rows r)))
                   (invoke_execute_sql env code)
  else if String.eqb tag "rust"
  then if compileOnly options
       then reply_fails reply_success (invoke_compile_rust env code)
       else reply_fails reply_success (invoke_execute_rust env code)
  else if String.eqb tag "r"
  then reply_fails reply_success (invoke_execute_r env code)
  else if String.eqb tag "navlambda" || String.eqb tag "vnc"
  then reply_fails (fun _ => true) (invoke_run_live_preview env code)
  else false.

(** An output of kind [error]. *)
Definition is_error_output (o : NotebookOutput) : bool :=
  match output_type o with
  | error => true
  | _ => false
  end.

(** The outputs of a result hold at least one output of kind [error]. *)
Definition has_error_output (r : CellExecutionResult) : bool :=
  existsb is_error_output (outputs r).

(** A result fails exactly when it lists an error output, and carries
    the [error] property only when it fails. *)
Definition consistent (r : CellExecutionResult) : Prop :=
  (success r = false <-> has_error_output r = true)
  /\ (is_Some (res_error r) -> success r = false).

(** A backend that returns a successful result without touching the
    store, stamped with one more than the counter of [tag]. *)
Definition succeeds_for (tag : string)
    (m : MultiLanguageExecutionService.S CellExecutionResult) : Prop :=
  forall st, exists r,
    m st = (Normal r, st)
    /\ res_execution_count r = MultiLanguageExecutionService.counter tag st + 1
    /\ success r = true
    /\ has_error_output r = false
    /\ res_error r = None.

(** The tag whose counter the backend of a tag reads when it stamps
    its result: [executeNavLambda] reads the counter of [navlambda]
    for both of its tags, every other backend the counter of its tag. *)
Definition stamping_tag (language : string) : string :=
  if String.eqb language "vnc" then "navlambda" else language.

(** The tags with a backend inside the multi-language service. *)
Definition local_tags : list string :=
  ["sql"; "rust"; "r"; "navlambda"; "vnc"; "javascript"; "typescript"].

(** The number of calls with the tag among the calls made before. *)
Definition calls_before (tag : string) (before : list MultiLanguageExecutionService.Call)
  : Z :=
  Z.of_nat (List.length
              (filter (fun c => MultiLanguageExecutionService.call_language c = tag)
                      before)).

(** The stamp of a call on a service that has served the calls [before]
    since it was created: Python results count the Python calls, the
    results of an unknown tag count the calls with that tag, the
    backends inside the multi-language service are one ahead, and [vnc]
    counts the [navlambda] calls. *)
Definition expected_stamp (before : list MultiLanguageExecutionService.Call)
    (tag : string) : Z :=
  if String.eqb tag "python" then calls_before "python" before + 1
  else if String.eqb tag "vnc" then calls_before "navlambda" before + 1
  else if bool_decide (tag ∈ local_tags) then calls_before tag before + 2
  else calls_before tag before + 1.

(** The row without the entries whose key is not among [keys]. *)
Definition restrict_row (keys : list string) (row : list (string * SqlValue))
  : list (string * SqlValue) :=
  filter (fun kv => fst kv ∈ keys) row.

(** The tag [executeCell] hands to the dispatcher for a cell. *)
Definition dispatched_tag (c : NotebookPanel.NotebookCell) : string :=
  if String.eqb (NotebookPanel.language c) "vnc" then "navlambda"
  else NotebookPanel.language c.

(** The code cells among [l] that are dispatched with the tag. *)
Definition code_cells_for (tag : string) (l : list NotebookPanel.NotebookCell)
  : list NotebookPanel.NotebookCell :=
  List.filter (fun c => match NotebookPanel.type c with
                        | kind_code => String.eqb (dispatched_tag c) tag
                        | kind_markdown => false
                        end) l.

(** The values that [String] turns into the empty string: the empty
    string, the empty array, and an array whose one element is [null]
    or again such a value. *)
Inductive empty_text : SqlValue -> Prop :=
| empty_string : empty_text (SqlText "")
| empty_array : empty_text (SqlArray [])
| array_of_null : empty_text (SqlArray [SqlNull])
| array_of_empty (v : SqlValue) : empty_text v -> empty_text (SqlArray [v]).

(** The cell is not marked as executing. *)
Definition idle (c : NotebookPanel.NotebookCell) : Prop :=
  NotebookPanel.isExecuting c <> Some true.

(** The cells of the panel with every cell named [wanted] marked as
    executing. *)
Definition marked (wanted : string) (l : list NotebookPanel.NotebookCell)
  : list NotebookPanel.NotebookCell :=
  map (fun c =>
         if String.eqb (NotebookPanel.id c) wanted
         then {| NotebookPanel.id := NotebookPanel.id c;
                 NotebookPanel.type := NotebookPanel.type c;
                 NotebookPanel.language := NotebookPanel.language c;
                 NotebookPanel.content := NotebookPanel.content c;
                 NotebookPanel.output := NotebookPanel.output c;
                 NotebookPanel.isExecuting := Some true;
                 NotebookPanel.metadata := NotebookPanel.metadata c |}
         else c) l.

(** The panel with another cell list. *)
Definition with_cells (p : NotebookPanel.Panel) (l : list NotebookPanel.NotebookCell)
  : NotebookPanel.Panel :=
  {| NotebookPanel.cells := l;
     NotebookPanel.activeCell := NotebookPanel.activeCell p;
     NotebookPanel.showLanguageMenu := NotebookPanel.showLanguageMenu p |}.

(** The tags whose backend evaluates the source with [eval]. *)
Definition evaluated_tag (tag : string) : bool :=
  String.eqb tag "javascript" || String.eqb tag "typescript".

(** The source is an ordinary script in this world: evaluated on any
    store it leaves the service objects and the [outputs] array of the
    call as they are, and what it throws, if it throws, is a value
    whose message, text and stack can be read, such as an error
    object; it may log lines. *)
Definition ordinary (env : Env) (code : string) : Prop :=
  forall st,
    services (eval env code st) = st
    /\ pushed (eval env code st) = []
    /\ forall v, thrown (eval env code st) = Some v -> exists e, v = of_Error e.

(** A call that, when its tag is an evaluated one, runs an ordinary
    script. *)
Definition ordinary_call (c : MultiLanguageExecutionService.Call) : Prop :=
  evaluated_tag (MultiLanguageExecutionService.call_language c) = true ->
  ordinary (MultiLanguageExecutionService.call_env c)
           (MultiLanguageExecutionService.call_code c).

End Props.

(** * Properties *)

Import Js JupyterNotebookService Host Eff.

(** ** Strings *)

(** Joining with the empty separator is plain concatenation. *)
Lemma join_empty_separator (l : list string) :
  join "" l = foldr String.append "" l.
Proof.
  unfold join. induction l as [|a l IH]; [reflexivity|].
  destruct l as [|b l].
  - cbn. clear IH. induction a as [|c a IHa]; [reflexivity|].
    change (String c a = String c (a +:+ "")). now rewrite <- IHa.
  - change (String.concat "" (a :: b :: l)) with (a +:+ "" +:+ String.concat "" (b :: l)).
    rewrite IH. reflexivity.
Qed.

(** ** Loading a document *)

Lemma parse_wraps_body (parse : string -> completion ParsedJson)
    (less : string -> Z -> bool) (text : string) e :
  parseNotebook_body parse less text = Throw e ->
  parseNotebook parse less text
  = Throw (new_Error ("Failed to parse notebook: " +:+ message e)).
Proof. intros H. unfold parseNotebook. rewrite H. reflexivity. Qed.

(** An array of cell objects is normalized cell by cell. *)
Lemma normalize_cells_objects (cs : list NotebookCell) :
  normalize_cells (Some <$> cs) = Normal (map normalized cs).
Proof.
  induction cs as [|c cs IH]; [reflexivity|].
  cbn [fmap list_fmap normalize_cells]. cbn [fmap] in IH. now rewrite IH.
Qed.



(** C9.  On load, a source persisted as a sequence of fragments becomes
    the single string that is the concatenation of the fragments, with
    nothing inserted between them, and a source persisted as a string is
    kept as it is: an accepted document (its [cells] an array of cell
    objects, its [nbformat] a number that is at least 4) is returned
    with exactly its cells, each source replaced that way;
    [normalizeSource] computes the same string. *)
Theorem parseNotebook_normalizes_sources
    (parse : string -> completion ParsedJson) (less : string -> Z -> bool)
    (text : string) (d : RawNotebook) (cs : list NotebookCell) (v : Z) :
  parse text = Normal (ParsedValue d) ->
  raw_cells d = Some (CellsArray (Some <$> cs)) ->
  raw_nbformat d = Some (JNum v) ->
  4 <= v ->
  exists nb,
    parseNotebook parse less text = Normal nb
    /\ List.length (cells nb) = List.length cs
    /\ (forall i c, cs !! i = Some c ->
          exists c', cells nb !! i = Some c'
            /\ cell_type c' = cell_type c
            /\ cell_id c' = cell_id c
            /\ execution_count c' = execution_count c
            /\ cell_outputs c' = cell_outputs c
            /\ (forall l, source c = Some (Lines l) ->
                  source c' = Some (Str (foldr String.append "" l))
                  /\ normalizeSource (Lines l) = foldr String.append "" l)
            /\ (forall s, source c = Some (Str s) ->
                  source c' = Some (Str s) /\ normalizeSource (Str s) = s)).
Proof.
  intros Hparse Hcells Hv Hge.
  eexists. split.
  { unfold parseNotebook, parseNotebook_body.
    rewrite Hparse, Hcells, Hv, normalize_cells_objects.
    cbn [JSON_truthy less_than].
    replace (v =? 0) with false by lia.
    replace (v <? 4) with false by lia.
    reflexivity. }
  cbn [cells]. split; [apply length_map|].
  intros i c Hi.
  eexists. split.
  { rewrite list_lookup_fmap, Hi. reflexivity. }
  cbn. repeat (split; [reflexivity|]). split.
  - intros l Hl. rewrite Hl. cbn. now rewrite join_empty_separator.
  - intros s Hs. rewrite Hs. cbn. unfold or_else. now destruct s.
Qed.

(** The three-fragment cell loads as one string, the fragments end to end. *)
Lemma parseNotebook_normalizes_sources_witness :
  exists nb,
    parseNotebook (fun _ => Normal (ParsedValue Examples.three_fragment_document))
                  (fun _ _ => false) "notebook.ipynb" = Normal nb
    /\ map source (cells nb)
       = [Some (Str ("import os" +:+ LF +:+ "x = 1" +:+ LF +:+ "print(x)"))].
Proof.
  destruct (parseNotebook_normalizes_sources
              (fun _ => Normal (ParsedValue Examples.three_fragment_document))
              (fun _ _ => false)
              "notebook.ipynb" Examples.three_fragment_document
              [Examples.three_fragment_cell] 4
              eq_refl eq_refl eq_refl ltac:(lia))
    as (nb & Hnb & Hlen & Hcells).
  exists nb. split; [exact Hnb|].
  destruct (Hcells 0%nat Examples.three_fragment_cell eq_refl)
    as (c' & Hc' & _ & _ & _ & _ & Hlines & _).
  destruct (Hlines _ eq_refl) as [Hsrc _].
  destruct (cells nb) as [|c0 [|c1 rest]]; try discriminate Hlen.
  injection Hc' as ->. cbn. rewrite Hsrc. reflexivity.
Defined.

(** A document whose [cells] property is missing is rejected with the
    missing-cells message although its [nbformat] is 3: the version is
    looked at only after the cells. *)
Lemma version3_without_cells_is_malformed :
  raw_nbformat Examples.version3_without_cells = Some (JNum 3)
  /\ (forall less,
        parseNotebook (fun _ => Normal (ParsedValue Examples.version3_without_cells))
                      less "notebook.ipynb"
        = Throw MalformedDocument)
  /\ (forall less,
        parseNotebook (fun _ => Normal (ParsedValue Examples.version3_without_cells))
                      less "notebook.ipynb"
        <> Throw UnsupportedVersion).
Proof.
  split; [reflexivity|]. split; [reflexivity|]. intros less. discriminate.
Qed.

(** C6 (amended).  [parseNotebook] throws the missing-cells error for
    every parsed value whose [cells] property is absent or is no array,
    whatever its [nbformat]; and for every parsed value whose [cells]
    property is an array it throws the unsupported-version error when
    [nbformat] is absent or a number less than 4. *)
Theorem parseNotebook_rejects
    (parse : string -> completion ParsedJson) (less : string -> Z -> bool)
    (text : string) (d : RawNotebook) :
  parse text = Normal (ParsedValue d) ->
  ((forall cs, raw_cells d <> Some (CellsArray cs)) ->
     parseNotebook parse less text = Throw MalformedDocument)
  /\ (forall cs, raw_cells d = Some (CellsArray cs) ->
        (raw_nbformat d = None \/ exists v, raw_nbformat d = Some (JNum v) /\ v < 4) ->
        parseNotebook parse less text = Throw UnsupportedVersion).
Proof.
  intros Hparse. split.
  - intros Hcells.
    apply (parse_wraps_body parse less text
             (new_Error "Invalid notebook format: missing cells array")).
    unfold parseNotebook_body. rewrite Hparse.
    destruct (raw_cells d) as [[cs| | | | |]|]; try reflexivity.
    now destruct (Hcells cs).
  - intros cs Hcells Hversion.
    apply (parse_wraps_body parse less text
             (new_Error "Unsupported notebook format version")).
    unfold parseNotebook_body. rewrite Hparse, Hcells.
    destruct Hversion as [-> | (v & -> & Hlt)]; [reflexivity|].
    cbn [JSON_truthy less_than].
    destruct (negb (v =? 0)); [|reflexivity].
    now replace (v <? 4) with true by lia.
Qed.

(** A document without [cells] and a document with [nbformat: 3]. *)
Lemma parseNotebook_rejects_witness :
  parseNotebook (fun _ => Normal (ParsedValue Examples.version3_cells_string))
                (fun _ _ => false) "notebook.ipynb" = Throw MalformedDocument
  /\ parseNotebook (fun _ => Normal (ParsedValue Examples.version3_document))
                   (fun _ _ => false) "notebook.ipynb" = Throw UnsupportedVersion.
Proof.
  split.
  - apply (proj1 (parseNotebook_rejects
                    (fun _ => Normal (ParsedValue Examples.version3_cells_string))
                    (fun _ _ => false)
                    "notebook.ipynb" Examples.version3_cells_string eq_refl)).
    intros cs. cbn. discriminate.
  - apply (proj2 (parseNotebook_rejects
                    (fun _ => Normal (ParsedValue Examples.version3_document))
                    (fun _ _ => false)
                    "notebook.ipynb" Examples.version3_document eq_refl) []).
    + reflexivity.
    + right. exists 3. split; [reflexivity | lia].
Defined.

(** ** Choosing the rendering of an output *)



(** ** From cells to a document and back *)

Import Props.

(** Splitting at the line feeds and joining the pieces with nothing in
    between removes the line feeds. *)
Lemma join_split_lines (s : string) :
  join "" (split_lines s) = remove_lf s.
Proof.
  rewrite join_empty_separator. unfold split_lines.
  induction s as [|c s IH]; [reflexivity|].
  cbn [split remove_lf]. destruct (Ascii.eqb c "010"%char).
  - cbn [foldr]. rewrite IH. reflexivity.
  - destruct (split "010"%char s) as [|h t].
    + cbn [foldr] in *. rewrite <- IH. reflexivity.
    + cbn [foldr] in *. rewrite <- IH. reflexivity.
Qed.

(** What a cell becomes when the list it belongs to is written with
    [cellsToNotebook] and read back with [notebookToCells]: its source
    comes back without its line feeds. *)
Lemma cells_roundtrip_content (cs : list Cell) (md : option NotebookMetadata)
    (i : nat) (c : Cell) :
  cs !! i = Some c ->
  exists c',
    notebookToCells (cellsToNotebook cs md) !! i = Some c'
    /\ content c' = remove_lf (content c)
    /\ type c' = type c.
Proof.
  intros Hi. unfold notebookToCells, cellsToNotebook. cbn [cells].
  rewrite list_lookup_imap, list_lookup_fmap, Hi. cbn.
  eexists. split; [reflexivity|]. cbn. split.
  - apply join_split_lines.
  - now destruct (type c).
Qed.

(** Nor is the language tag of a cell written by [cellsToNotebook]:
    a Rust cell without a [language] entry in its metadata comes back
    tagged with the language of the document, [python]. *)
Example cells_roundtrip_forgets_language :
  language <$> notebookToCells
                 (cellsToNotebook
                    [ {| id := "c1"; type := kind_code; language := "rust";
                         content := "fn main() {}"; executionCount := None;
                         cellOutputs := Some [];
                         cellMetadata := Some empty_metadata |} ] None)
  = ["python"].
Proof. reflexivity. Qed.

(** C3.  The round trip does not give the cell list back: the code cell
    with the two-line source [x = 1] / [print(x)] returns with the
    source [x = 1print(x)], everything else unchanged. *)
Theorem cells_roundtrip_drops_line_breaks :
  notebookToCells (cellsToNotebook [Examples.two_line_cell] None)
  = [ {| id := "c1"; type := kind_code; language := "python";
         content := "x = 1print(x)";
         executionCount := Some 1;
         cellOutputs := Some [];
         cellMetadata := Some empty_metadata |} ]
  /\ notebookToCells (cellsToNotebook [Examples.two_line_cell] None)
     <> [Examples.two_line_cell].
Proof.
  split; [reflexivity|].
  intros H.
  assert (Hc : content <$> notebookToCells (cellsToNotebook [Examples.two_line_cell] None)
               = content <$> [Examples.two_line_cell]) by now rewrite H.
  vm_compute in Hc. discriminate Hc.
Qed.

(** ** The backends *)

Import MultiLanguageExecutionService.

(** Membership in a list of tags written out. *)
Ltac tag_listed :=
  repeat first [apply list_elem_of_here | apply list_elem_of_further].

(** Unfolding of the monad of the services. *)
Ltac eff_unfold :=
  cbv [bind ret throw try_catch gets modify await zoom attempt_tauri text_reply].

Lemma executeSQL_succeeds env code options :
  succeeds_for "sql" (executeSQL env code options).
Proof.
  intros st. unfold executeSQL. eff_unfold.
  destruct (tauri env); [|eexists; repeat split; cbn; now destruct (starts_with_select code)].
  destruct (invoke_execute_sql env code) as [[[] [rows|] err]|e];
    eexists; repeat split; cbn; now destruct (starts_with_select code).
Qed.

Lemma executeRust_succeeds env code options :
  succeeds_for "rust" (executeRust env code options).
Proof.
  intros st. unfold executeRust. eff_unfold.
  destruct (tauri env); [|eexists; repeat split; reflexivity].
  destruct (compileOnly options).
  - destruct (invoke_compile_rust env code) as [[[] out err]|e];
      eexists; repeat split; reflexivity.
  - destruct (invoke_execute_rust env code) as [[[] out err]|e];
      eexists; repeat split; reflexivity.
Qed.

Lemma executeR_succeeds env code options :
  succeeds_for "r" (executeR env code options).
Proof.
  intros st. unfold executeR. eff_unfold.
  destruct (tauri env); [|eexists; repeat split; reflexivity].
  destruct (invoke_execute_r env code) as [[[] out err]|e];
    eexists; repeat split; reflexivity.
Qed.

Lemma executeNavLambda_succeeds env code options :
  succeeds_for "navlambda" (executeNavLambda env code options).
Proof.
  intros st. unfold executeNavLambda. eff_unfold.
  destruct (tauri env); [|eexists; repeat split; reflexivity].
  destruct (invoke_run_live_preview env code) as [result|e];
    [|eexists; repeat split; reflexivity].
  destruct (JSON_parse env result) as [parsed|e];
    eexists; repeat split; reflexivity.
Qed.

(** ** Reading a caught value *)

(** Every read of an error object succeeds. *)
Lemma message_or_String_of_Error (e : Error) :
  message_or_String (of_Error e) = Normal (or_else (message e) (to_string e)).
Proof. unfold message_or_String, or_else. cbn. now destruct (truthy (message e)). Qed.

Lemma stack_or_String_of_Error (e : Error) :
  stack_or_String (of_Error e) = Normal (opt_or_else (stack e) (to_string e)).
Proof.
  unfold stack_or_String. cbn. destruct (stack e) as [s|]; [|reflexivity].
  cbn. unfold or_else. now destruct (truthy s).
Qed.

Lemma read_message_and_String_of_Error (e : Error) :
  read_message_and_String (of_Error e)
  = Normal {| message := message e; to_string := to_string e; stack := None |}.
Proof. reflexivity. Qed.

(** A read of [null] or [undefined] throws a [TypeError], an error
    object. *)
Lemma read_message_nullish :
  read_message Null = Throw (of_Error (property_TypeError "null" "message"))
  /\ read_message Undefined
     = Throw (of_Error (property_TypeError "undefined" "message")).
Proof. split; reflexivity. Qed.

(** The JavaScript backend on an ordinary script returns, possibly a
    failure; the failure has an error output and no [error] property. *)
Lemma executeJavaScript_returns env code language options st :
  ordinary env code ->
  exists r,
    executeJavaScript env code language options st = (Normal r, st)
    /\ res_execution_count r = counter language st + 1
    /\ res_error r = None
    /\ success r = negb (has_error_output r)
    /\ (success r = false <-> is_Some (thrown (eval env code st))).
Proof.
  intros Hord. destruct (Hord st) as (Hst & Hpushed & Hthrown).
  unfold executeJavaScript, evaluate. eff_unfold. rewrite Hst.
  destruct (thrown (eval env code st)) as [v|].
  - destruct (Hthrown v eq_refl) as [e ->].
    rewrite message_or_String_of_Error, stack_or_String_of_Error.
    eexists. repeat split; try reflexivity. intros _. now eexists.
  - rewrite Hpushed. eexists. repeat split; try reflexivity.
    + cbn. now destruct (consoleLogs (eval env code st)).
    + intros H. discriminate H.
    + intros [x Hx]. discriminate Hx.
Qed.

(** ** The Python backend *)

Lemma pyodide_outputs_no_error count out err fig res :
  existsb is_error_output
    (PythonExecutionService.pyodide_outputs count out err fig res) = false.
Proof.
  unfold PythonExecutionService.pyodide_outputs.
  destruct (truthy out), (truthy err), fig as [img|], res as [repr|]; cbn;
    repeat match goal with
           | |- context [if ?b then _ else _] => destruct b; cbn
           end; reflexivity.
Qed.

Lemma succeeds_consistent (r : CellExecutionResult) :
  success r = true -> has_error_output r = false -> res_error r = None ->
  consistent r.
Proof.
  intros Hs He Hn. unfold consistent. rewrite Hs, He, Hn.
  split; [split; discriminate|]. intros [x Hx]. discriminate Hx.
Qed.

Lemma stamp_consistent count (r : CellExecutionResult) :
  consistent r -> consistent (PythonExecutionService.stamp count r).
Proof. intros H. exact H. Qed.

Lemma simulateExecution_succeeds env code pst :
  exists r,
    PythonExecutionService.simulateExecution env code pst = (Normal r, pst)
    /\ res_execution_count r = PythonExecutionService.executionCount pst
    /\ consistent r.
Proof.
  unfold PythonExecutionService.simulateExecution. eff_unfold.
  eexists. split; [reflexivity|]. split; [reflexivity|].
  apply succeeds_consistent; try reflexivity.
  unfold has_error_output. cbn [outputs].
  match goal with
  | |- existsb _ (match ?l with [] => _ | _ :: _ => _ end) = false =>
      assert (Hl : existsb is_error_output l = false);
      [|destruct l; [reflexivity|exact Hl]]
  end.
  rewrite existsb_app. apply orb_false_intro.
  - destruct (match_print env code) as [ms|]; [|reflexivity].
    induction ms as [|m ms IH]; [reflexivity|exact IH].
  - now destruct (includes code "import matplotlib" || includes code "import plt").
Qed.

Lemma pyodide_failure_consistent count err pyError :
  consistent (PythonExecutionService.pyodide_failure count err pyError).
Proof.
  unfold consistent. cbn. split; [tauto|reflexivity].
Qed.

(** The Python backend returns; it advances its own counter by one and
    stamps the result with the new value, also on a result handed back
    by an external engine. *)
Lemma python_executeCode_returns env code options pst :
  exists r pst',
    PythonExecutionService.executeCode env code options pst = (Normal r, pst')
    /\ PythonExecutionService.executionCount pst'
       = PythonExecutionService.executionCount pst + 1
    /\ res_execution_count r = PythonExecutionService.executionCount pst + 1
    /\ ((forall r0, tauri_python env code = Some r0 -> consistent r0) ->
        (forall r0, api_python env code = Some r0 -> consistent r0) ->
        consistent r).
Proof.
  unfold PythonExecutionService.executeCode, PythonExecutionService.tryInitializePyodide,
    PythonExecutionService.initializePyodide, PythonExecutionService.executeWithPyodide,
    PythonExecutionService.executeWithBackend, PythonExecutionService.executeWithTauri,
    PythonExecutionService.executeWithAPI.
  destruct pst as [n loaded]. eff_unfold. cbn.
  destruct loaded; cbn.
  - destruct (pyodide_run env code) as [out err fig res|err pyError] eqn:Hr;
      do 2 eexists; (do 3 (split; [reflexivity|])); intros _ _.
    + apply succeeds_consistent; try reflexivity. apply pyodide_outputs_no_error.
    + apply pyodide_failure_consistent.
  - destruct (pyodide_loads env); cbn.
    + destruct (pyodide_run env code) as [out err fig res|err pyError] eqn:Hr;
        do 2 eexists; (do 3 (split; [reflexivity|])); intros _ _.
      * apply succeeds_consistent; try reflexivity. apply pyodide_outputs_no_error.
      * apply pyodide_failure_consistent.
    + set (pst1 := {| PythonExecutionService.executionCount := n + 1;
                      PythonExecutionService.pyodide := false |}).
      destruct (simulateExecution_succeeds env code pst1) as (rs & Hsim & Hcount & Hcons).
      destruct (tauri env); cbn.
      * destruct (tauri_python env code) as [r0|] eqn:Ht.
        -- do 2 eexists. do 3 (split; [reflexivity|]).
           intros Hext _. apply stamp_consistent, Hext. reflexivity.
        -- rewrite Hsim. exists rs, pst1. do 3 (split; [easy|]). auto.
      * destruct (api_python env code) as [r0|] eqn:Ha.
        -- do 2 eexists. do 3 (split; [reflexivity|]).
           intros _ Hext. apply stamp_consistent, Hext. reflexivity.
        -- rewrite Hsim. exists rs, pst1. do 3 (split; [easy|]). auto.
Qed.

(** ** The dispatcher *)

Lemma counter_set_counter_eq language count st :
  counter language (set_counter language count st) = count.
Proof. unfold counter, set_counter. cbn. now rewrite lookup_insert_eq. Qed.

Lemma counter_set_counter_ne language other count st :
  language <> other ->
  counter other (set_counter language count st) = counter other st.
Proof. intros Hne. unfold counter, set_counter. cbn. now rewrite lookup_insert_ne. Qed.

Section OverBackends.
Variable run_python run_sql run_rust run_r run_navlambda
  : string -> ExecutionOptions -> S CellExecutionResult.
Variable run_javascript
  : string -> string -> ExecutionOptions -> S CellExecutionResult.

Let dispatch := executeCode_over run_python run_sql run_rust run_r run_navlambda
                                 run_javascript.
Let chosen := select run_python run_sql run_rust run_r run_navlambda run_javascript.

(** [executeCode] advances the counter of the tag, runs the selected
    backend on the updated store, and turns a thrown value whose
    message and text can be read into a failure stamped with the new
    counter value; when a read throws, the call throws that. *)
Lemma executeCode_over_eq language code options st :
  dispatch language code options st
  = match chosen language code options
            (set_counter language (counter language st + 1) st) with
    | (Normal r, st') => (Normal r, st')
    | (Throw e, st') =>
        (match read_message_and_String e with
         | Normal seen =>
             Normal (failure_with_error "ExecutionError" seen (counter language st + 1))
         | Throw w => Throw w
         end, st')
    end.
Proof.
  unfold dispatch, chosen, executeCode_over. eff_unfold.
  destruct (select _ _ _ _ _ _ language code options _) as [[r|e] st']; [reflexivity|].
  now destruct (read_message_and_String e).
Qed.

(** The cases of the [switch]. *)
Lemma select_python code options : chosen "python" code options = run_python code options.
Proof. reflexivity. Qed.
Lemma select_sql code options : chosen "sql" code options = run_sql code options.
Proof. reflexivity. Qed.
Lemma select_rust code options : chosen "rust" code options = run_rust code options.
Proof. reflexivity. Qed.
Lemma select_r code options : chosen "r" code options = run_r code options.
Proof. reflexivity. Qed.
Lemma select_navlambda code options :
  chosen "navlambda" code options = run_navlambda code options.
Proof. reflexivity. Qed.
Lemma select_vnc code options : chosen "vnc" code options = run_navlambda code options.
Proof. reflexivity. Qed.
Lemma select_javascript code options :
  chosen "javascript" code options = run_javascript code "javascript" options.
Proof. reflexivity. Qed.
Lemma select_typescript code options :
  chosen "typescript" code options = run_javascript code "typescript" options.
Proof. reflexivity. Qed.

(** A tag outside [SupportedLanguage] selects no backend: the [switch]
    throws. *)
Lemma select_unsupported language code options st :
  language ∉ SupportedLanguage ->
  chosen language code options st
  = (Throw (of_Error (new_Error ("Unsupported language: " +:+ language))), st).
Proof.
  intros Hnot. unfold chosen, select, SupportedLanguage in *.
  repeat match goal with
         | |- context [String.eqb language ?t] =>
             destruct (String.eqb_spec language t) as [->|?];
             [exfalso; apply Hnot; tag_listed|]
         end.
  reflexivity.
Qed.

(** So the call ends in the handler, on the store with the counter of
    the tag advanced. *)
Lemma unsupported_tag_store language code options st :
  language ∉ SupportedLanguage ->
  exists r,
    dispatch language code options st
    = (Normal r, set_counter language (counter language st + 1) st).
Proof.
  intros Hnot. eexists.
  rewrite executeCode_over_eq, select_unsupported by exact Hnot. reflexivity.
Qed.
End OverBackends.

(** C4.  [executeCode] can throw.  In a world where the evaluated
    source throws an object whose [message] property is an accessor
    that throws [null], the handler of [executeJavaScript] throws
    [null] when it reads [error.message]; the handler of [executeCode]
    catches that and reads [error.message] of [null], which throws a
    [TypeError]; so the call on a fresh service ends by throwing that
    [TypeError], with no result, the counter of the tag advanced. *)
Theorem executeCode_throws_on_unreadable_error :
  executeJavaScript Examples.message_getter_throws
    "throw { get message() { throw null } }" "javascript" no_options
    (set_counter "javascript" 1 initial)
  = (Throw Null, set_counter "javascript" 1 initial)
  /\ executeCode Examples.message_getter_throws "javascript"
       "throw { get message() { throw null } }" no_options initial
     = (Throw (of_Error (property_TypeError "null" "message")),
        set_counter "javascript" 1 initial)
  /\ forall r st',
       executeCode Examples.message_getter_throws "javascript"
         "throw { get message() { throw null } }" no_options initial
       <> (Normal r, st').
Proof.
  split; [reflexivity|]. split; [reflexivity|].
  intros r st' H. discriminate H.
Qed.

(** A tag outside the supported set is not rejected before the counter
    is touched, and the call does not throw: in the offline world the
    tag [cobol] on a fresh service returns an ordinary failure of kind
    [ExecutionError], and the counter of [cobol] has gone from 0 to 1. *)
Lemma unsupported_language_advances_counter :
  exists r st',
    executeCode Examples.offline "cobol" "DISPLAY 1." no_options initial
    = (Normal r, st')
    /\ outputs r = [error_output "ExecutionError" "Unsupported language: cobol"
                                 ["Error: Unsupported language: cobol"]]
    /\ counter "cobol" initial = 0
    /\ counter "cobol" st' = 1.
Proof.
  eexists _, (set_counter "cobol" 1 initial).
  split; [reflexivity|]. split; [reflexivity|]. split; [reflexivity|].
  apply counter_set_counter_eq.
Qed.

(** C5 (amended).  For a tag outside the supported set no backend runs,
    whatever the backends are: [executeCode] advances the counter of
    that tag by one and returns the failure built by its handler from
    the error [Unsupported language: <tag>], of kind [ExecutionError],
    with the [error] property, stamped with the advanced counter; no
    other counter changes. *)
Theorem executeCode_unsupported_language
    (run_python run_sql run_rust run_r run_navlambda
       : string -> ExecutionOptions -> S CellExecutionResult)
    (run_javascript : string -> string -> ExecutionOptions -> S CellExecutionResult)
    (language code : string) (options : ExecutionOptions) (st : State) :
  language ∉ SupportedLanguage ->
  executeCode_over run_python run_sql run_rust run_r run_navlambda run_javascript
                   language code options st
  = (Normal (failure_with_error "ExecutionError"
               (new_Error ("Unsupported language: " +:+ language))
               (counter language st + 1)),
     set_counter language (counter language st + 1) st)
  /\ counter language (set_counter language (counter language st + 1) st)
     = counter language st + 1
  /\ (forall other, other <> language ->
        counter other (set_counter language (counter language st + 1) st)
        = counter other st).
Proof.
  intros Hnot. split; [|split].
  - rewrite executeCode_over_eq, select_unsupported by exact Hnot. reflexivity.
  - apply counter_set_counter_eq.
  - intros other Hne. apply counter_set_counter_ne. congruence.
Qed.

(** The tag [cobol] on a fresh service. *)
Lemma executeCode_unsupported_language_witness :
  executeCode Examples.offline "cobol" "DISPLAY 1." no_options initial
  = (Normal (failure_with_error "ExecutionError"
               (new_Error "Unsupported language: cobol") 1),
     set_counter "cobol" 1 initial).
Proof.
  refine (proj1 (executeCode_unsupported_language
                   (pythonExecutionService_executeCode Examples.offline)
                   (executeSQL Examples.offline) (executeRust Examples.offline)
                   (executeR Examples.offline) (executeNavLambda Examples.offline)
                   (executeJavaScript Examples.offline)
                   "cobol" "DISPLAY 1." no_options initial _)).
  unfold SupportedLanguage. intros H.
  repeat (apply elem_of_cons in H; destruct H as [H|H]; [discriminate H|]).
  inversion H.
Defined.

(** The Python tag: the result is stamped by the Python service with its
    own counter, which the call advances by one. *)
Lemma executeCode_python env code options st :
  exists r pst',
    executeCode env "python" code options st
    = (Normal r, {| executionCounts := <["python" := counter "python" st + 1]>
                                         (executionCounts st);
                    python := pst' |})
    /\ res_execution_count r = PythonExecutionService.executionCount (python st) + 1
    /\ PythonExecutionService.executionCount pst'
       = PythonExecutionService.executionCount (python st) + 1
    /\ ((forall r0, tauri_python env code = Some r0 -> consistent r0) ->
        (forall r0, api_python env code = Some r0 -> consistent r0) ->
        consistent r).
Proof.
  destruct (python_executeCode_returns env code options (python st))
    as (r & pst' & Hrun & Hstate & Hcount & Hcons).
  exists r, pst'. split; [|auto].
  unfold executeCode. rewrite executeCode_over_eq, select_python.
  unfold pythonExecutionService_executeCode, zoom. cbn [python set_counter].
  rewrite Hrun. reflexivity.
Qed.

Lemma evaluated_tag_cases tag :
  evaluated_tag tag = true <-> tag = "javascript" \/ tag = "typescript".
Proof.
  unfold evaluated_tag. rewrite orb_true_iff, !String.eqb_eq. reflexivity.
Qed.

(** The other supported tags, the two evaluated ones on an ordinary
    script: the store changes by the counter of the tag only, and the
    result is stamped with one more than the counter the backend reads
    after that change. *)
Lemma executeCode_local env language code options st :
  language ∈ local_tags ->
  (evaluated_tag language = true -> ordinary env code) ->
  exists r,
    executeCode env language code options st
    = (Normal r, set_counter language (counter language st + 1) st)
    /\ res_execution_count r
       = counter (stamping_tag language)
                 (set_counter language (counter language st + 1) st) + 1
    /\ res_error r = None
    /\ success r = negb (has_error_output r)
    /\ (success r = false ->
          (language = "javascript" \/ language = "typescript")
          /\ is_Some (thrown (eval env code
                                   (set_counter language (counter language st + 1) st)))).
Proof.
  intros Hin Hord. unfold local_tags in Hin.
  set (st1 := set_counter language (counter language st + 1) st).
  assert (Hok : forall tag m,
             succeeds_for tag m -> tag = stamping_tag language ->
             exists r, m st1 = (Normal r, st1)
                       /\ res_execution_count r = counter (stamping_tag language) st1 + 1
                       /\ res_error r = None
                       /\ success r = negb (has_error_output r)
                       /\ (success r = false ->
                             (language = "javascript" \/ language = "typescript")
                             /\ is_Some (thrown (eval env code st1)))).
  { intros tag m Hm ->. destruct (Hm st1) as (r & Hrun & Hc & Hs & He & Hn).
    exists r. rewrite Hs, He. do 4 (split; [auto|]). intros H. discriminate H. }
  assert (Hjs : language = "javascript" \/ language = "typescript" ->
             exists r, executeJavaScript env code language options st1 = (Normal r, st1)
                       /\ res_execution_count r = counter (stamping_tag language) st1 + 1
                       /\ res_error r = None
                       /\ success r = negb (has_error_output r)
                       /\ (success r = false ->
                             (language = "javascript" \/ language = "typescript")
                             /\ is_Some (thrown (eval env code st1)))).
  { intros Hl.
    destruct (executeJavaScript_returns env code language options st1
                (Hord (proj2 (evaluated_tag_cases language) Hl)))
      as (r & Hrun & Hc & Hn & Hs & Ht).
    exists r. split; [exact Hrun|]. split.
    { rewrite Hc. now destruct Hl as [-> | ->]. }
    do 2 (split; [assumption|]). intros Hf. split; [exact Hl | now apply Ht]. }
  unfold executeCode. rewrite executeCode_over_eq. fold st1.
  repeat (apply elem_of_cons in Hin; destruct Hin as [Hin|Hin]);
    [| | | | | | | now apply elem_of_nil in Hin].
  - destruct (Hok "sql" (executeSQL env code options)
                  (executeSQL_succeeds env code options)) as (r & Hrun & H);
      [now subst|].
    exists r. split; [|exact H]. subst language. now rewrite select_sql, Hrun.
  - destruct (Hok "rust" (executeRust env code options)
                  (executeRust_succeeds env code options)) as (r & Hrun & H);
      [now subst|].
    exists r. split; [|exact H]. subst language. now rewrite select_rust, Hrun.
  - destruct (Hok "r" (executeR env code options)
                  (executeR_succeeds env code options)) as (r & Hrun & H);
      [now subst|].
    exists r. split; [|exact H]. subst language. now rewrite select_r, Hrun.
  - destruct (Hok "navlambda" (executeNavLambda env code options)
                  (executeNavLambda_succeeds env code options)) as (r & Hrun & H);
      [now subst|].
    exists r. split; [|exact H]. subst language. now rewrite select_navlambda, Hrun.
  - destruct (Hok "navlambda" (executeNavLambda env code options)
                  (executeNavLambda_succeeds env code options)) as (r & Hrun & H);
      [now subst|].
    exists r. split; [|exact H]. subst language. now rewrite select_vnc, Hrun.
  - destruct (Hjs (or_introl Hin)) as (r & Hrun & H).
    exists r. split; [|exact H]. subst language. now rewrite select_javascript, Hrun.
  - destruct (Hjs (or_intror Hin)) as (r & Hrun & H).
    exists r. split; [|exact H]. subst language. now rewrite select_typescript, Hrun.
Qed.

(** The tags with a backend that tries the host engine run no [eval]. *)
Lemma engine_tag_not_evaluated tag :
  tag ∈ ["sql"; "rust"; "r"; "navlambda"; "vnc"] -> evaluated_tag tag = false.
Proof.
  intros Hin.
  repeat (apply elem_of_cons in Hin; destruct Hin as [-> | Hin]; [reflexivity|]).
  now apply elem_of_nil in Hin.
Qed.

(** ** Counters *)

Lemma supported_cases (language : string) :
  language = "python" \/ language ∈ local_tags \/ language ∉ SupportedLanguage.
Proof.
  destruct (decide (language ∈ SupportedLanguage)) as [Hin|Hnot]; [|auto].
  unfold SupportedLanguage in Hin. apply elem_of_cons in Hin.
  destruct Hin as [->|Hin]; auto.
Qed.

(** Every call, of an evaluated tag on an ordinary script, returns,
    advances the counter of its tag by one and leaves every other
    counter as it was. *)
Lemma executeCode_counters env language code options st :
  (evaluated_tag language = true -> ordinary env code) ->
  exists r st',
    executeCode env language code options st = (Normal r, st')
    /\ counter language st' = counter language st + 1
    /\ (forall other, other <> language -> counter other st' = counter other st).
Proof.
  intros Hord.
  destruct (supported_cases language) as [-> | [Hloc | Hnot]].
  - destruct (executeCode_python env code options st) as (r & pst' & Hrun & _).
    do 2 eexists. split; [exact Hrun|]. unfold counter. cbn. split.
    + now rewrite lookup_insert_eq.
    + intros other Hne. now rewrite lookup_insert_ne.
  - destruct (executeCode_local env language code options st Hloc Hord) as (r & Hrun & _).
    do 2 eexists. split; [exact Hrun|]. split.
    + apply counter_set_counter_eq.
    + intros other Hne. apply counter_set_counter_ne. congruence.
  - unfold executeCode.
    destruct (unsupported_tag_store
                (pythonExecutionService_executeCode env) (executeSQL env)
                (executeRust env) (executeR env) (executeNavLambda env)
                (executeJavaScript env) language code options st Hnot) as [r Hrun].
    do 2 eexists. split; [exact Hrun|]. split.
    + apply counter_set_counter_eq.
    + intros other Hne. apply counter_set_counter_ne. congruence.
Qed.

Lemma run_length calls st : List.length (fst (run calls st)) = List.length calls.
Proof.
  revert st. induction calls as [|c calls IH]; intros st; [reflexivity|].
  cbn [run].
  destruct (executeCode _ _ _ _ st) as [r st1].
  specialize (IH st1). destruct (run calls st1) as [rs st2]. cbn in *. now rewrite IH.
Qed.

(** [n] calls with one tag advance the counter of that tag by [n] and
    change no other counter. *)
Lemma run_counters tag calls st :
  Forall (fun c => call_language c = tag) calls ->
  Forall ordinary_call calls ->
  counter tag (snd (run calls st)) = counter tag st + Z.of_nat (List.length calls)
  /\ (forall other, other <> tag ->
        counter other (snd (run calls st)) = counter other st).
Proof.
  intros Hall Hord. revert st.
  induction Hall as [|c calls Hc Hall IH]; intros st.
  - cbn. split; [lia|reflexivity].
  - cbn [run]. apply Forall_cons in Hord as [Hc_ord Hord].
    destruct (executeCode_counters (call_env c) (call_language c) (call_code c)
                (call_options c) st Hc_ord) as (r & st1 & Hrun & Hself & Hother).
    rewrite Hrun. destruct (IH Hord st1) as [IHself IHother].
    destruct (run calls st1) as [rs st2]. cbn [snd] in *.
    rewrite Hc in *. split.
    + rewrite IHself, Hself. cbn [List.length]. lia.
    + intros other Hne. rewrite IHother, Hother by exact Hne. reflexivity.
Qed.

(** C1.  On a fresh service, in every world: a Python call, then a Rust
    call, then a second Python call all return; the Python results are
    stamped 1 and 2, and the Rust result is stamped 2 although it is the
    first Rust call and the Rust counter stands at 1 afterwards.  The
    dispatcher has already stored the advanced counter when [executeRust]
    reads it and adds one again. *)
Theorem first_rust_call_is_stamped_two
    (env1 env2 env3 : Env) (code1 code2 code3 : string)
    (options1 options2 options3 : ExecutionOptions) :
  exists r1 r2 r3 st',
    run [ {| call_env := env1; call_language := "python";
             call_code := code1; call_options := options1 |};
          {| call_env := env2; call_language := "rust";
             call_code := code2; call_options := options2 |};
          {| call_env := env3; call_language := "python";
             call_code := code3; call_options := options3 |} ] initial
    = ([Normal r1; Normal r2; Normal r3], st')
    /\ res_execution_count r1 = 1
    /\ res_execution_count r2 = 2
    /\ res_execution_count r3 = 2
    /\ counter "python" st' = 2
    /\ counter "rust" st' = 1.
Proof.
  destruct (executeCode_python env1 code1 options1 initial)
    as (r1 & pst1 & Hrun1 & Hcount1 & Hpy1 & _).
  set (st1 := {| executionCounts := <["python" := counter "python" initial + 1]>
                                      (executionCounts initial);
                 python := pst1 |}) in *.
  assert (Hrust_in : "rust" ∈ local_tags) by (unfold local_tags; tag_listed).
  destruct (executeCode_local env2 "rust" code2 options2 st1 Hrust_in)
    as (r2 & Hrun2 & Hcount2 & _); [intros H; discriminate H|].
  set (st2 := set_counter "rust" (counter "rust" st1 + 1) st1) in *.
  destruct (executeCode_python env3 code3 options3 st2)
    as (r3 & pst3 & Hrun3 & Hcount3 & _).
  exists r1, r2, r3. eexists.
  cbn [run call_env call_language call_code call_options].
  rewrite Hrun1. fold st1. rewrite Hrun2. fold st2. rewrite Hrun3.
  split; [reflexivity|].
  assert (Hrust1 : counter "rust" st1 = 0) by reflexivity.
  assert (Hpython2 : counter "python" st2 = 1) by reflexivity.
  split; [rewrite Hcount1; reflexivity|].
  split.
  { rewrite Hcount2. change (stamping_tag "rust") with "rust".
    unfold st2. rewrite counter_set_counter_eq, Hrust1. reflexivity. }
  split.
  { rewrite Hcount3. change (python st2) with pst1. rewrite Hpy1. reflexivity. }
  split; reflexivity.
Qed.

(** C10.  A call with the tag [navlambda] or [vnc] returns a result
    stamped with one more than the counter of [navlambda] as the call
    leaves it, while the only counter the call changes is the one of
    its own tag, advanced by one.  So in a sequence of calls that all
    use the tag [vnc], every call returns and every result carries the
    same stamp: the counter of [navlambda] before the sequence, plus
    one. *)
Theorem vnc_calls_are_stamped_from_navlambda :
  (forall env tag code options st,
      tag = "navlambda" \/ tag = "vnc" ->
      exists r st',
        executeCode env tag code options st = (Normal r, st')
        /\ res_execution_count r = counter "navlambda" st' + 1
        /\ counter tag st' = counter tag st + 1
        /\ (forall other, other <> tag -> counter other st' = counter other st))
  /\ (forall calls st,
        Forall (fun c => call_language c = "vnc") calls ->
        List.length (fst (run calls st)) = List.length calls
        /\ Forall (fun c => exists r,
                     c = Normal r
                     /\ res_execution_count r = counter "navlambda" st + 1)
                  (fst (run calls st))).
Proof.
  assert (Hone : forall env tag code options st,
             tag = "navlambda" \/ tag = "vnc" ->
             exists r st',
               executeCode env tag code options st = (Normal r, st')
               /\ res_execution_count r = counter "navlambda" st' + 1
               /\ counter tag st' = counter tag st + 1
               /\ (forall other, other <> tag -> counter other st' = counter other st)).
  { intros env tag code options st Htag.
    assert (Hin : tag ∈ local_tags)
      by (unfold local_tags; destruct Htag as [-> | ->]; tag_listed).
    destruct (executeCode_local env tag code options st Hin) as (r & Hrun & Hcount & _);
      [destruct Htag as [-> | ->]; intros H; discriminate H|].
    exists r. eexists. split; [exact Hrun|]. split; [|split].
    - rewrite Hcount. now destruct Htag as [-> | ->].
    - apply counter_set_counter_eq.
    - intros other Hne. apply counter_set_counter_ne. congruence. }
  split; [exact Hone|].
  intros calls st Hall. split; [apply run_length|].
  revert st. induction Hall as [|c calls Hc Hall IH]; intros st.
  - constructor.
  - cbn [run]. rewrite Hc.
    destruct (Hone (call_env c) "vnc" (call_code c) (call_options c) st
                   (or_intror eq_refl))
      as (r & st1 & Hrun & Hcount & _ & Hother).
    rewrite Hrun. specialize (IH st1).
    destruct (run calls st1) as [rs st2]. cbn [fst] in *.
    assert (Hnav : counter "navlambda" st1 = counter "navlambda" st)
      by (apply Hother; discriminate).
    constructor.
    + exists r. split; [reflexivity|]. now rewrite Hcount, Hnav.
    + rewrite <- Hnav. exact IH.
Qed.

(** Three [vnc] calls on a fresh service, offline: each is stamped 1. *)
Lemma vnc_calls_are_stamped_from_navlambda_witness :
  Forall (fun c => exists r, c = Normal r /\ res_execution_count r = 1)
         (fst (run [Examples.offline_call "vnc" "a"; Examples.offline_call "vnc" "b";
                    Examples.offline_call "vnc" "c"] initial)).
Proof.
  apply (proj2 vnc_calls_are_stamped_from_navlambda
           [Examples.offline_call "vnc" "a"; Examples.offline_call "vnc" "b";
            Examples.offline_call "vnc" "c"] initial).
  repeat constructor.
Defined.

(** ** Shape of the results *)

(** C2.  In a world where the evaluated JavaScript throws, the result
    of a [javascript] call on a fresh service has [success] false and
    an error output, but no [error] property: failure and presence of
    the [error] property are not equivalent.  The handler of
    [executeCode] and the Python service build their failures with the
    property; the handler of [executeJavaScript] leaves it out. *)
Theorem javascript_failure_lacks_error_property :
  exists r st',
    executeCode Examples.eval_throws "javascript" "x" no_options initial
    = (Normal r, st')
    /\ success r = false
    /\ has_error_output r = true
    /\ res_error r = None
    /\ ~ (success r = false <-> is_Some (res_error r)).
Proof.
  do 2 eexists. split; [reflexivity|].
  do 3 (split; [reflexivity|]).
  cbn. intros [H _]. destruct (H eq_refl) as [x Hx]. discriminate Hx.
Qed.

(** What does hold of every result.  Every call, of an evaluated tag
    on an ordinary script, returns a result that fails exactly when its
    outputs hold an error output, and that carries the [error] property
    only when it fails; for a result that the Python service passes on
    from an external engine this holds when it holds for the reply of
    the engine.  The [error] property is never set by the backends of
    the multi-language service itself, and always set for a tag outside
    the supported set. *)
Lemma executeCode_result_consistent env language code options st :
  (forall r0, tauri_python env code = Some r0 -> consistent r0) ->
  (forall r0, api_python env code = Some r0 -> consistent r0) ->
  (evaluated_tag language = true -> ordinary env code) ->
  exists r st',
    executeCode env language code options st = (Normal r, st')
    /\ (success r = false <-> has_error_output r = true)
    /\ (is_Some (res_error r) -> success r = false)
    /\ (language ∈ local_tags -> res_error r = None)
    /\ (language ∉ SupportedLanguage -> is_Some (res_error r)).
Proof.
  intros Htauri Hapi Hord.
  destruct (supported_cases language) as [-> | [Hloc | Hnot]].
  - destruct (executeCode_python env code options st) as (r & pst' & Hrun & _ & _ & Hcons).
    destruct (Hcons Htauri Hapi) as [Hiff Herr].
    do 2 eexists. split; [exact Hrun|]. do 2 (split; [assumption|]). split.
    + unfold local_tags. intros Hin.
      repeat (apply elem_of_cons in Hin; destruct Hin as [Hin|Hin]; [discriminate Hin|]).
      now apply elem_of_nil in Hin.
    + intros Hn. exfalso. apply Hn. unfold SupportedLanguage. tag_listed.
  - destruct (executeCode_local env language code options st Hloc Hord)
      as (r & Hrun & _ & Hnone & Hs & _).
    do 2 eexists. split; [exact Hrun|]. rewrite Hs, Hnone. split; [|split; [|split]].
    + now destruct (has_error_output r).
    + intros [x Hx]. discriminate Hx.
    + reflexivity.
    + intros Hn. exfalso. apply Hn. now apply list_elem_of_further.
  - unfold executeCode. do 2 eexists.
    rewrite executeCode_over_eq, select_unsupported by exact Hnot.
    split; [reflexivity|]. cbn. split; [tauto|]. split; [reflexivity|]. split.
    + intros Hin. exfalso. apply Hnot. now apply list_elem_of_further.
    + intros _. eexists. reflexivity.
Qed.

(** The failing JavaScript call: an error output and [success] false. *)
Example executeCode_result_consistent_javascript :
  exists r st',
    executeCode Examples.eval_throws "javascript" "x" no_options initial
    = (Normal r, st')
    /\ (success r = false <-> has_error_output r = true)
    /\ res_error r = None.
Proof.
  destruct (executeCode_result_consistent Examples.eval_throws "javascript" "x"
              no_options initial)
    as (r & st' & Hrun & Hiff & _ & Hloc & _).
  - intros r0 H. discriminate H.
  - intros r0 H. discriminate H.
  - intros _ st0. split; [reflexivity|]. split; [reflexivity|].
    intros v [= <-]. now eexists.
  - exists r, st'. split; [exact Hrun|]. split; [exact Hiff|].
    apply Hloc. unfold local_tags. tag_listed.
Defined.

(** ** The tabular formatter *)

Lemma append_cons c (a b : string) : String c a +:+ b = String c (a +:+ b).
Proof. reflexivity. Qed.

Lemma append_empty (b : string) : "" +:+ b = b.
Proof. reflexivity. Qed.

Lemma append_assoc (a b c : string) : (a +:+ b) +:+ c = a +:+ (b +:+ c).
Proof.
  induction a as [|x a IH]; [reflexivity|].
  now rewrite !append_cons, IH.
Qed.

Lemma join_cons_cons sep (a b : string) l :
  join sep (a :: b :: l) = a +:+ sep +:+ join sep (b :: l).
Proof. reflexivity. Qed.

Lemma single_line_append (a b : string) :
  single_line (a +:+ b) = single_line a && single_line b.
Proof.
  induction a as [|c a IH]; [reflexivity|].
  rewrite append_cons. cbn [single_line]. rewrite IH. now rewrite andb_assoc.
Qed.

Lemma single_line_join sep (l : list string) :
  single_line sep = true ->
  forallb single_line l = true ->
  single_line (join sep l) = true.
Proof.
  intros Hsep. induction l as [|a l IH]; [reflexivity|].
  cbn [forallb]. intros [Ha Hl]%andb_true_iff.
  destruct l as [|b l]; [exact Ha|].
  rewrite join_cons_cons, !single_line_append, Ha, Hsep. now apply IH.
Qed.

(** A string without line feed is one line. *)
Lemma split_lines_single (s : string) :
  single_line s = true -> split_lines s = [s].
Proof.
  unfold split_lines. induction s as [|c s IH]; [reflexivity|].
  cbn [single_line split]. intros [Hc Hs]%andb_true_iff.
  apply negb_true_iff in Hc. rewrite Hc, (IH Hs). reflexivity.
Qed.

(** A line feed after a string without line feed ends the first line. *)
Lemma split_lines_append (a b : string) :
  single_line a = true ->
  split_lines (a +:+ LF +:+ b) = a :: split_lines b.
Proof.
  unfold split_lines. induction a as [|c a IH].
  - intros _. reflexivity.
  - cbn [single_line]. intros [Hc Ha]%andb_true_iff.
    apply negb_true_iff in Hc.
    rewrite append_cons. cbn [split]. rewrite Hc, (IH Ha). reflexivity.
Qed.

(** Lines joined with line feeds split back into the same lines. *)
Lemma split_lines_join (l : list string) :
  l <> [] ->
  forallb single_line l = true ->
  split_lines (join LF l) = l.
Proof.
  induction l as [|a l IH]; [congruence|]. intros _.
  cbn [forallb]. intros [Ha Hl]%andb_true_iff.
  destruct l as [|b l].
  - now apply split_lines_single.
  - rewrite join_cons_cons, split_lines_append by exact Ha.
    f_equal. now apply IH.
Qed.

Lemma join_snoc (l : list string) (t : string) :
  l <> [] -> join LF (l ++ [t]) = join LF l +:+ LF +:+ t.
Proof.
  induction l as [|a l IH]; [congruence|]. intros _.
  destruct l as [|b l]; [reflexivity|].
  change ((a :: b :: l) ++ [t])%list with (a :: b :: (l ++ [t]))%list.
  rewrite !join_cons_cons.
  change (b :: (l ++ [t]))%list with ((b :: l) ++ [t])%list.
  rewrite IH by congruence. now rewrite !append_assoc.
Qed.

(** Decimal numerals hold no line feed. *)
Lemma pretty_N_go_single_line (x : N) (s : string) :
  single_line s = true -> single_line (pretty_N_go x s) = true.
Proof.
  revert s. induction (N.lt_wf_0 x) as [x _ IH]. intros s Hs.
  destruct (N.eq_dec x 0) as [->|Hpos].
  - now rewrite pretty_N_go_0.
  - rewrite pretty_N_go_step by lia. apply IH.
    + apply N.div_lt; lia.
    + cbn [single_line]. rewrite Hs, andb_true_r.
      unfold pretty_N_char. now repeat case_match.
Qed.

Lemma pretty_N_single_line (x : N) : single_line (pretty x) = true.
Proof.
  unfold pretty, pretty_N. destruct (decide (x = 0%N)); [reflexivity|].
  now apply pretty_N_go_single_line.
Qed.

Lemma pretty_nat_single_line (n : nat) : single_line (pretty n) = true.
Proof. apply pretty_N_single_line. Qed.

Lemma cell_text_single_line (row : Row) (key : string) :
  row_single_line row = true ->
  single_line (cell_text (row_get row key)) = true.
Proof.
  unfold row_single_line. induction row as [|[k v] row IH]; [reflexivity|].
  cbn [forallb row_get fst snd].
  intros [[_ Hv]%andb_true_iff Hrow]%andb_true_iff.
  destruct (String.eqb k key); [|now apply IH].
  unfold cell_text. destruct (value_truthy v); [exact Hv|reflexivity].
Qed.

Lemma keys_single_line (rows : list Row) :
  rows_single_line rows = true ->
  forallb single_line (keys_of rows) = true.
Proof.
  destruct rows as [|row rows]; [reflexivity|].
  cbn [rows_single_line forallb keys_of]. intros [Hrow _]%andb_true_iff.
  unfold row_single_line in Hrow.
  induction row as [|[k v] row IH]; [reflexivity|].
  cbn [forallb map fst snd] in *.
  apply andb_true_iff in Hrow as [[Hk _]%andb_true_iff Hrow].
  now rewrite Hk, IH.
Qed.

Lemma table_lines_single_line (rows : list Row) :
  rows_single_line rows = true ->
  forallb single_line (sql_header rows :: sql_separator rows :: sql_dataRows rows) = true.
Proof.
  intros Hrows. pose proof (keys_single_line rows Hrows) as Hkeys.
  cbn [forallb]. apply andb_true_iff. split; [|apply andb_true_iff; split].
  - now apply single_line_join.
  - apply single_line_join; [reflexivity|].
    clear. induction (keys_of rows) as [|k ks IH]; [reflexivity|exact IH].
  - unfold sql_dataRows. apply forallb_forall. intros line Hline.
    apply in_map_iff in Hline as (row & <- & Hrow).
    apply single_line_join; [reflexivity|].
    assert (Hrow_ok : row_single_line row = true).
    { unfold rows_single_line in Hrows.
      apply (proj1 (forallb_forall _ _) Hrows).
      apply list_elem_of_In. apply list_elem_of_In in Hrow.
      eapply subseteq_take, Hrow. }
    clear Hkeys. induction (keys_of rows) as [|k ks IH]; [reflexivity|].
    cbn [map forallb]. now rewrite cell_text_single_line, IH.
Qed.

Lemma dataRows_length (rows : list Row) :
  List.length (sql_dataRows rows) = Nat.min 100 (List.length rows)
  /\ List.length (html_dataRows rows) = Nat.min 100 (List.length rows).
Proof.
  unfold sql_dataRows, html_dataRows.
  now rewrite !length_map, !length_take.
Qed.

(** C8.  The formatter answers an empty row list with the literal
    no-rows message, as text and as HTML.  For a non-empty list both
    tables show the first 100 rows at most, each shown row being the
    input row at the same position, and both append the note about the
    [n - 100] further rows exactly when there are more than 100: the
    HTML table is the fixed frame around the header row, the elements
    of the shown rows and the note, the text table the header, the
    separator and the lines of the shown rows joined by line feeds,
    followed by the note.  Rows past the 100th change neither table
    but by their number.  When no key and no value holds a line feed,
    the lines of the text table are the header, the separator, one
    line per shown row, and the note when there is one; for 150 rows
    these are 100 data lines followed by the line [... (50 more rows)],
    and the HTML table holds 100 row elements and the note for 50
    rows. *)
Theorem formatSQLTable_caps_rows :
  formatSQLTable [] = "No rows returned"
  /\ formatSQLTableHTML [] = "<div>No rows returned</div>"
  /\ (forall rows : list Row,
        rows <> [] ->
        List.length (sql_dataRows rows) = Nat.min 100 (List.length rows)
        /\ List.length (html_dataRows rows) = Nat.min 100 (List.length rows)
        /\ (forall i row, (i < 100)%nat -> rows !! i = Some row ->
              sql_dataRows rows !! i
              = Some (join " | " (map (fun key => cell_text (row_get row key))
                                      (keys_of rows)))
              /\ html_dataRows rows !! i
                 = Some ("<tr>"
                         +:+ join "" (map (fun k => "<td>" +:+ cell_text (row_get row k)
                                                    +:+ "</td>") (keys_of rows))
                         +:+ "</tr>"))
        /\ formatSQLTableHTML rows
           = html_table (html_headerRow rows) (html_dataRows rows)
               (if (100 <? List.length rows)%nat
                then "<div>... (" +:+ pretty (List.length rows - 100)%nat
                     +:+ " more rows)</div>"
                else "")
        /\ ((List.length rows <= 100)%nat ->
              formatSQLTable rows
              = join LF (sql_header rows :: sql_separator rows :: sql_dataRows rows)
              /\ html_trailer rows = "")
        /\ ((100 < List.length rows)%nat ->
              formatSQLTable rows
              = join LF (sql_header rows :: sql_separator rows :: sql_dataRows rows)
                +:+ LF +:+ "... (" +:+ pretty (List.length rows - 100)%nat +:+ " more rows)"
              /\ html_trailer rows
                 = "<div>... (" +:+ pretty (List.length rows - 100)%nat
                   +:+ " more rows)</div>")
        /\ (rows_single_line rows = true ->
              split_lines (formatSQLTable rows)
              = (sql_header rows :: sql_separator rows :: sql_dataRows rows
                 ++ (if (100 <? List.length rows)%nat
                     then ["... (" +:+ pretty (List.length rows - 100)%nat
                           +:+ " more rows)"]
                     else []))%list))
  /\ (forall rows rows' : list Row,
        take 100 rows = take 100 rows' ->
        List.length rows = List.length rows' ->
        formatSQLTable rows = formatSQLTable rows'
        /\ formatSQLTableHTML rows = formatSQLTableHTML rows')
  /\ (forall rows : list Row,
        List.length rows = 150%nat ->
        rows_single_line rows = true ->
        List.length (sql_dataRows rows) = 100%nat
        /\ split_lines (formatSQLTable rows)
           = (sql_header rows :: sql_separator rows :: sql_dataRows rows
              ++ ["... (50 more rows)"])%list
        /\ List.length (html_dataRows rows) = 100%nat
        /\ formatSQLTableHTML rows
           = html_table (html_headerRow rows) (html_dataRows rows)
                        "<div>... (50 more rows)</div>").
Proof.
  assert (Hlines : forall rows : list Row,
             rows <> [] -> rows_single_line rows = true ->
             split_lines (formatSQLTable rows)
             = (sql_header rows :: sql_separator rows :: sql_dataRows rows
                ++ (if (100 <? List.length rows)%nat
                    then ["... (" +:+ pretty (List.length rows - 100)%nat
                          +:+ " more rows)"]
                    else []))%list).
  { intros rows Hne Hrows.
    pose proof (table_lines_single_line rows Hrows) as Htable.
    destruct rows as [|row rows]; [congruence|].
    unfold formatSQLTable, sql_trailer.
    destruct (100 <? List.length (row :: rows))%nat.
    - set (table := sql_header (row :: rows) :: sql_separator (row :: rows)
                      :: sql_dataRows (row :: rows)) in *.
      set (note := "... (" +:+ pretty (List.length (row :: rows) - 100)%nat
                   +:+ " more rows)").
      change (join LF table +:+ LF +:+ "... ("
              +:+ pretty (List.length (row :: rows) - 100)%nat +:+ " more rows)")
        with (join LF table +:+ LF +:+ note).
      rewrite <- join_snoc by (unfold table; congruence).
      rewrite split_lines_join.
      + reflexivity.
      + unfold table. cbn. congruence.
      + rewrite forallb_app, Htable. cbn [forallb andb]. rewrite andb_true_r.
        unfold note. rewrite !single_line_append, pretty_nat_single_line. reflexivity.
    - rewrite app_nil_r.
      replace (join LF (sql_header (row :: rows) :: sql_separator (row :: rows)
                          :: sql_dataRows (row :: rows)) +:+ "")
        with (join LF (sql_header (row :: rows) :: sql_separator (row :: rows)
                         :: sql_dataRows (row :: rows))).
      + apply split_lines_join; [congruence|exact Htable].
      + generalize (join LF (sql_header (row :: rows) :: sql_separator (row :: rows)
                               :: sql_dataRows (row :: rows))).
        intros s. induction s as [|c s IH]; [reflexivity|].
        now rewrite append_cons, <- IH. }
  assert (Hframe : forall rows : list Row,
             rows <> [] ->
             formatSQLTableHTML rows
             = html_table (html_headerRow rows) (html_dataRows rows)
                 (if (100 <? List.length rows)%nat
                  then "<div>... (" +:+ pretty (List.length rows - 100)%nat
                       +:+ " more rows)</div>"
                  else "")).
  { intros [|row rows] Hne; [congruence|reflexivity]. }
  split; [reflexivity|]. split; [reflexivity|]. split; [|split].
  - intros rows Hne. destruct (dataRows_length rows) as [Hsql Hhtml].
    split; [exact Hsql|]. split; [exact Hhtml|]. split; [|split; [|split; [|split]]].
    + intros i row Hi Hrow. unfold sql_dataRows, html_dataRows.
      rewrite !list_lookup_fmap, !lookup_take_lt, Hrow by exact Hi.
      split; reflexivity.
    + now apply Hframe.
    + intros Hle. destruct rows as [|row rows]; [congruence|].
      unfold formatSQLTable, sql_trailer, html_trailer.
      replace (100 <? List.length (row :: rows))%nat with false
        by (symmetry; apply Nat.ltb_ge; exact Hle).
      split; [|reflexivity].
      generalize (join LF (sql_header (row :: rows) :: sql_separator (row :: rows)
                             :: sql_dataRows (row :: rows))).
      intros s. induction s as [|c s IH]; [reflexivity|].
      now rewrite append_cons, IH.
    + intros Hlt. destruct rows as [|row rows]; [congruence|].
      unfold formatSQLTable, sql_trailer, html_trailer.
      replace (100 <? List.length (row :: rows))%nat with true
        by (symmetry; apply Nat.ltb_lt; exact Hlt).
      split; reflexivity.
    + intros Hrows. now apply Hlines.
  - intros rows rows' Htake Hlen.
    destruct rows as [|row rows], rows' as [|row' rows']; try discriminate Hlen;
      [split; reflexivity|].
    assert (Hrow : row = row') by (cbn in Htake; now injection Htake).
    subst row'.
    assert (Hsql : sql_dataRows (row :: rows) = sql_dataRows (row :: rows'))
      by (unfold sql_dataRows; now rewrite Htake).
    assert (Hhtml : html_dataRows (row :: rows) = html_dataRows (row :: rows'))
      by (unfold html_dataRows; now rewrite Htake).
    unfold formatSQLTable, formatSQLTableHTML, sql_trailer, html_trailer.
    rewrite Hsql, Hhtml, Hlen. split; reflexivity.
  - intros rows Hlen Hrows. destruct (dataRows_length rows) as [Hsql Hhtml].
    assert (Hne : rows <> []) by (intros ->; discriminate Hlen).
    split; [rewrite Hsql, Hlen; reflexivity|]. split.
    { rewrite Hlines by assumption. rewrite Hlen. reflexivity. }
    split; [rewrite Hhtml, Hlen; reflexivity|].
    rewrite Hframe by exact Hne. rewrite Hlen. reflexivity.
Qed.

(** The text table of two rows. *)
Example formatSQLTable_two_rows :
  formatSQLTable Examples.two_rows
  = "id | name" +:+ LF +:+ "--- | ---" +:+ LF +:+ "1 | ada" +:+ LF +:+ "2 | ".
Proof. reflexivity. Qed.

(** 150 rows: 100 data lines between the two heading lines and the
    note, and 100 row elements and the note in the HTML table. *)
Lemma formatSQLTable_caps_rows_witness :
  List.length (sql_dataRows Examples.rows150) = 100%nat
  /\ split_lines (formatSQLTable Examples.rows150)
     = (sql_header Examples.rows150 :: sql_separator Examples.rows150
        :: sql_dataRows Examples.rows150 ++ ["... (50 more rows)"])%list
  /\ List.length (html_dataRows Examples.rows150) = 100%nat
  /\ formatSQLTableHTML Examples.rows150
     = html_table (html_headerRow Examples.rows150) (html_dataRows Examples.rows150)
                  "<div>... (50 more rows)</div>".
Proof.
  apply (proj2 (proj2 (proj2 (proj2 formatSQLTable_caps_rows))) Examples.rows150).
  - reflexivity.
  - reflexivity.
Defined.


(** * Further properties of the services *)

(** ** Loading and converting documents *)

Lemma prefix_append (p s : string) : String.prefix p (p +:+ s) = true.
Proof.
  induction p as [|c p IH]; [now destruct s|].
  rewrite append_cons. cbn [String.prefix].
  destruct (ascii_dec c c) as [_|Hne]; [exact IH|congruence].
Qed.



(** X2.  Whatever makes [parseNotebook] fail, the error it throws is a
    plain [Error] whose message is [Failed to parse notebook: ]
    followed by the message of the cause: a syntax error of the JSON
    parser is reported with the parser's message, and the JSON text
    [null] is rejected too. *)
Theorem parseNotebook_wraps_errors
    (parse : string -> completion ParsedJson) (less : string -> Z -> bool)
    (text : string) :
  (forall e, parseNotebook parse less text = Throw e ->
     String.prefix "Failed to parse notebook: " (message e) = true
     /\ to_string e = "Error: " +:+ message e
     /\ stack e = None)
  /\ (forall cause, parse text = Throw cause ->
        parseNotebook parse less text
        = Throw (new_Error ("Failed to parse notebook: " +:+ message cause)))
  /\ (parse text = Normal ParsedNull ->
        exists e, parseNotebook parse less text = Throw e).
Proof.
  split; [|split].
  - intros e. unfold parseNotebook.
    destruct (parseNotebook_body parse less text) as [nb|cause]; [discriminate|].
    intros [= <-]. cbn [message to_string stack new_Error].
    split; [apply prefix_append|]. split; reflexivity.
  - intros cause Hcause. unfold parseNotebook, parseNotebook_body.
    now rewrite Hcause.
  - intros Hnull. unfold parseNotebook, parseNotebook_body. rewrite Hnull.
    eexists. reflexivity.
Qed.

Lemma parseNotebook_wraps_errors_witness :
  parseNotebook (fun _ => Throw (new_Error "Unexpected end of JSON input"))
                (fun _ _ => false) "{"
  = Throw (new_Error "Failed to parse notebook: Unexpected end of JSON input").
Proof.
  apply (proj1 (proj2 (parseNotebook_wraps_errors
                         (fun _ => Throw (new_Error "Unexpected end of JSON input"))
                         (fun _ _ => false) "{"))
               (new_Error "Unexpected end of JSON input")).
  reflexivity.
Defined.

Lemma source_text_normalized (src : option StringOrLines) :
  source_text (Some (Str (source_text src))) = source_text src.
Proof. cbn. unfold or_else. now destruct (source_text src). Qed.

(** X3.  Loading a document whose [nbformat] is a number of at least 4
    and converting the loaded notebook gives the same cells as
    converting the document as it was persisted: the normalisation of
    the sources in [parseNotebook] changes nothing that
    [notebookToCells] sees. *)
Theorem parse_then_convert
    (parse : string -> completion ParsedJson) (less : string -> Z -> bool)
    (text : string) (nb0 : JupyterNotebook) (v : Z) :
  parse text = Normal (ParsedValue (as_parsed nb0)) ->
  nbformat nb0 = JNum v ->
  4 <= v ->
  exists nb,
    parseNotebook parse less text = Normal nb
    /\ notebookToCells nb = notebookToCells nb0.
Proof.
  intros Hparse Hv Hge. eexists. split.
  - unfold parseNotebook, parseNotebook_body. rewrite Hparse.
    cbn [as_parsed raw_cells raw_nbformat]. rewrite normalize_cells_objects, Hv.
    cbn [JSON_truthy less_than].
    replace (v =? 0) with false by lia.
    replace (v <? 4) with false by lia.
    reflexivity.
  - unfold notebookToCells. cbn [cells].
    change (map normalized (cells nb0)) with (normalized <$> cells nb0).
    rewrite imap_fmap.
    apply imap_ext. intros i c _. unfold detectLanguage. cbn -[source_text].
    rewrite source_text_normalized. reflexivity.
Qed.

Lemma parse_then_convert_witness :
  exists nb,
    parseNotebook
      (fun _ => Normal (ParsedValue (as_parsed (cellsToNotebook [Examples.two_line_cell] None))))
      (fun _ _ => false) "saved.ipynb" = Normal nb
    /\ notebookToCells nb
       = notebookToCells (cellsToNotebook [Examples.two_line_cell] None).
Proof.
  apply (parse_then_convert
           (fun _ => Normal (ParsedValue (as_parsed (cellsToNotebook [Examples.two_line_cell] None))))
           (fun _ _ => false)
           "saved.ipynb" (cellsToNotebook [Examples.two_line_cell] None) 4 eq_refl eq_refl).
  lia.
Defined.

Lemma cell_prefix_injective (a b : string) :
  "cell-" +:+ a = "cell-" +:+ b -> a = b.
Proof. intros H. now injection H. Qed.

Lemma or_else_truthy_default (s d : string) :
  truthy d = true -> truthy (or_else s d) = true.
Proof. intros Hd. unfold or_else. now destruct s. Qed.

(** X4.  [notebookToCells] keeps the number and the order of the cells;
    a cell keeps its id when it has a non-empty one and is otherwise
    named [cell-] followed by its position; only a cell of type [code]
    becomes a code cell.  When no cell of the document has an id, the
    ids given are pairwise different. *)
Theorem notebookToCells_ids (nb : JupyterNotebook) :
  List.length (notebookToCells nb) = List.length (cells nb)
  /\ (forall i c, cells nb !! i = Some c ->
        exists c', notebookToCells nb !! i = Some c'
          /\ (forall s, cell_id c = Some s -> s <> "" -> id c' = s)
          /\ (opt_truthy (cell_id c) = false -> id c' = "cell-" +:+ pretty i)
          /\ (type c' = kind_code <-> cell_type c = code))
  /\ (Forall (fun c => opt_truthy (cell_id c) = false) (cells nb) ->
        NoDup (id <$> notebookToCells nb)).
Proof.
  split; [apply length_imap|]. split.
  - intros i c Hi. unfold notebookToCells.
    rewrite list_lookup_imap, Hi. cbn [fmap option_fmap option_map].
    eexists. split; [reflexivity|]. cbn [id type]. split; [|split].
    + intros s -> Hs. cbn. unfold or_else. destruct s; [contradiction|reflexivity].
    + destruct (cell_id c) as [s|]; cbn; [|reflexivity].
      unfold or_else. now intros ->.
    + destruct (cell_type c); split; intros H; (reflexivity || discriminate H).
  - intros Hall. apply NoDup_alt. intros i j x Hi Hj.
    rewrite list_lookup_fmap in Hi, Hj. unfold notebookToCells in Hi, Hj.
    rewrite list_lookup_imap in Hi, Hj.
    destruct (cells nb !! i) as [ci|] eqn:Hci; [|discriminate Hi].
    destruct (cells nb !! j) as [cj|] eqn:Hcj; [|discriminate Hj].
    pose proof (proj1 (Forall_lookup _ _) Hall i ci Hci) as Hfi.
    pose proof (proj1 (Forall_lookup _ _) Hall j cj Hcj) as Hfj.
    cbn in Hi, Hj, Hfi, Hfj.
    assert (Hid : forall (c : NotebookCell) (k : nat),
               opt_truthy (cell_id c) = false ->
               opt_or_else (cell_id c) ("cell-" +:+ pretty k) = "cell-" +:+ pretty k).
    { intros c k Hc. destruct (cell_id c) as [s|]; [|reflexivity].
      cbn in *. unfold or_else. now rewrite Hc. }
    rewrite Hid in Hi, Hj by assumption.
    injection Hi as Hi. injection Hj as Hj. rewrite <- Hj in Hi.
    apply cell_prefix_injective in Hi. now apply (inj pretty) in Hi.
Qed.

Lemma notebookToCells_ids_witness :
  NoDup (id <$> notebookToCells Examples.two_anonymous_cells).
Proof.
  apply (proj2 (proj2 (notebookToCells_ids Examples.two_anonymous_cells))).
  repeat constructor.
Defined.

(** X5.  The language [detectLanguage] gives a cell is never the empty
    string.  A non-empty [language] entry in the metadata of the cell
    wins over everything in the document metadata; without it the
    language of the kernelspec is taken, then the name in
    [language_info], each when non-empty; and with none of them a code
    cell is [python] and every other cell [markdown]. *)
Theorem detectLanguage_precedence (cell : NotebookCell) (nb : JupyterNotebook) :
  detectLanguage cell nb <> ""
  /\ (forall md l, cell_metadata cell = Some md -> md_language md = Some l ->
        l <> "" -> detectLanguage cell nb = l)
  /\ (opt_truthy (md ← cell_metadata cell; md_language md) = false ->
        (forall m ks, metadata nb = Some m -> kernelspec m = Some ks ->
           ks_language ks <> "" -> detectLanguage cell nb = ks_language ks)
        /\ (opt_truthy (m ← metadata nb; ks_language <$> kernelspec m) = false ->
              (forall m li, metadata nb = Some m -> language_info m = Some li ->
                 li_name li <> "" -> detectLanguage cell nb = li_name li)
              /\ (opt_truthy (m ← metadata nb; li_name <$> language_info m) = false ->
                    detectLanguage cell nb
                    = match cell_type cell with
                      | code => "python"
                      | _ => "markdown"
                      end))).
Proof.
  assert (Hopt : forall o : option string,
             opt_truthy o = true -> default "" o <> "").
  { intros [s|]; cbn; [|discriminate]. now destruct s. }
  split; [|split].
  - unfold detectLanguage.
    destruct (opt_truthy (md ← cell_metadata cell; md_language md)) eqn:H1;
      [now apply Hopt|].
    destruct (opt_truthy (m ← metadata nb; ks_language <$> kernelspec m)) eqn:H2;
      [now apply Hopt|].
    destruct (opt_truthy (m ← metadata nb; li_name <$> language_info m)) eqn:H3;
      [now apply Hopt|].
    now destruct (cell_type cell).
  - intros md l Hmd Hl Hne. unfold detectLanguage. rewrite Hmd. cbn. rewrite Hl. cbn.
    destruct l; [contradiction|reflexivity].
  - intros H1. unfold detectLanguage. rewrite H1. split.
    + intros m ks Hm Hks Hne. rewrite Hm. cbn. rewrite Hks. cbn.
      destruct (ks_language ks); [contradiction|reflexivity].
    + intros H2. rewrite H2. split.
      * intros m li Hm Hli Hne. rewrite Hm. cbn. rewrite Hli. cbn.
        destruct (li_name li); [contradiction|reflexivity].
      * intros H3. rewrite H3. reflexivity.
Qed.

Lemma detectLanguage_precedence_witness :
  detectLanguage
    {| cell_type := code; execution_count := None; cell_id := Some "c1";
       cell_metadata := Some {| md_language := Some "rust"; md_rest := [] |};
       source := Some (Str "fn main() {}"); cell_outputs := None |}
    (createEmptyNotebook 0 "r")
  = "rust".
Proof.
  apply (proj1 (proj2 (detectLanguage_precedence _ (createEmptyNotebook 0 "r")))
               {| md_language := Some "rust"; md_rest := [] |} "rust");
    [reflexivity|reflexivity|discriminate].
Defined.

(** ** The round trip through a document, cell by cell *)

Lemma remove_lf_single_line (s : string) : single_line (remove_lf s) = true.
Proof.
  induction s as [|c s IH]; [reflexivity|].
  cbn [remove_lf]. destruct (Ascii.eqb c "010"%char) eqn:Hc; [exact IH|].
  cbn [single_line]. now rewrite Hc, IH.
Qed.

Lemma remove_lf_of_single_line (s : string) :
  single_line s = true -> remove_lf s = s.
Proof.
  induction s as [|c s IH]; [reflexivity|].
  cbn [single_line remove_lf]. intros [Hc Hs]%andb_true_iff.
  apply negb_true_iff in Hc. now rewrite Hc, IH.
Qed.

Lemma roundtrip_cellwise (cs : list Cell) :
  roundtrip cs = imap roundtrip_cell cs.
Proof.
  unfold roundtrip, notebookToCells, cellsToNotebook. cbn [cells].
  rewrite imap_fmap. apply imap_ext. intros i c _.
  unfold roundtrip_cell, detectLanguage.
  cbn -[split_lines pretty]. rewrite join_split_lines.
  destruct (type c); cbn;
    destruct (opt_truthy (md_language (default empty_metadata (cellMetadata c))));
    reflexivity.
Qed.

Lemma roundtrip_cell_idempotent (i : nat) (c : Cell) :
  roundtrip_cell i (roundtrip_cell i c) = roundtrip_cell i c.
Proof.
  unfold roundtrip_cell. cbn -[pretty].
  rewrite (remove_lf_of_single_line _ (remove_lf_single_line (content c))).
  assert (Hid : or_else (or_else (id c) ("cell-" +:+ pretty i)) ("cell-" +:+ pretty i)
                = or_else (id c) ("cell-" +:+ pretty i)).
  { unfold or_else. destruct (id c); cbn; [|reflexivity].
    now destruct (truthy ("cell-" +:+ pretty i)). }
  rewrite Hid. now destruct (type c).
Qed.

(** X6.  What the round trip through [cellsToNotebook] and
    [notebookToCells] does to each cell of any list: the list keeps its
    length; the source comes back without its line feeds; the kind is
    kept, and so is a non-empty id; a code cell keeps its execution
    count and its outputs; a markdown cell comes back without execution
    count and with an empty output list. *)
Theorem roundtrip_cell_by_cell (cs : list Cell) :
  List.length (roundtrip cs) = List.length cs
  /\ (forall i c, cs !! i = Some c ->
        exists c', roundtrip cs !! i = Some c'
          /\ content c' = remove_lf (content c)
          /\ single_line (content c') = true
          /\ type c' = type c
          /\ (id c <> "" -> id c' = id c)
          /\ (type c = kind_code ->
                executionCount c' = executionCount c
                /\ forall outs, cellOutputs c = Some outs -> cellOutputs c' = Some outs)
          /\ (type c = kind_markdown ->
                executionCount c' = None /\ cellOutputs c' = Some [])).
Proof.
  rewrite roundtrip_cellwise. split; [apply length_imap|].
  intros i c Hi. rewrite list_lookup_imap, Hi. cbn [fmap option_fmap option_map].
  eexists. split; [reflexivity|]. unfold roundtrip_cell. cbn -[pretty].
  split; [reflexivity|]. split; [apply remove_lf_single_line|].
  split; [reflexivity|]. split; [|split].
  - intros Hid. unfold or_else. destruct (id c); [contradiction|reflexivity].
  - intros ->. split; [reflexivity|]. now intros outs ->.
  - intros ->. split; reflexivity.
Qed.

Lemma roundtrip_cell_by_cell_witness :
  exists c', roundtrip [Examples.two_line_cell] !! 0%nat = Some c'
             /\ content c' = "x = 1print(x)".
Proof.
  destruct (proj2 (roundtrip_cell_by_cell [Examples.two_line_cell])
                  0%nat Examples.two_line_cell eq_refl)
    as (c' & Hc' & Hcontent & _).
  exists c'. split; [exact Hc'|]. rewrite Hcontent. reflexivity.
Defined.

(** X7.  The round trip gives a cell list back unchanged exactly when
    every cell has a non-empty id, a one-line source, outputs and
    metadata, the language tag that [detectLanguage] derives from the
    metadata, and, when markdown, neither execution count nor outputs. *)
Theorem roundtrip_identity (cs : list Cell) :
  roundtrip cs = cs <-> Forall survives_roundtrip cs.
Proof.
  rewrite roundtrip_cellwise. split.
  - intros Heq. apply Forall_lookup. intros i c Hi.
    assert (Hc : roundtrip_cell i c = c).
    { pose proof (f_equal (fun l => l !! i) Heq) as Hl. cbn in Hl.
      rewrite list_lookup_imap, Hi in Hl. now injection Hl. }
    destruct c as [cid ctype clang ccontent ccount couts cmeta].
    unfold roundtrip_cell in Hc. cbn -[pretty] in Hc.
    injection Hc as Hid Hlang Hcontent Hcount Houts Hmeta.
    unfold survives_roundtrip. cbn. split; [|split; [|split; [|split]]].
    + intros ->. cbn in Hid. discriminate Hid.
    + rewrite <- Hcontent. apply remove_lf_single_line.
    + rewrite <- Houts. eexists. split; [reflexivity|]. now intros ->.
    + intros ->. now rewrite <- Hcount.
    + rewrite <- Hmeta. eexists. split; [reflexivity|]. cbn. now rewrite Hlang.
  - intros Hall. apply list_eq. intros i. rewrite list_lookup_imap.
    destruct (cs !! i) as [c|] eqn:Hi; [|reflexivity].
    cbn [fmap option_fmap option_map]. f_equal.
    destruct (proj1 (Forall_lookup _ _) Hall i c Hi)
      as (Hid & Hline & (outs & Houts & Hmd_outs) & Hmd_count & (md & Hmd & Hlang)).
    destruct c as [cid ctype clang ccontent ccount couts cmeta].
    cbn in *. subst couts cmeta. unfold roundtrip_cell. cbn -[pretty].
    rewrite (remove_lf_of_single_line _ Hline), <- Hlang.
    unfold or_else. destruct cid; [contradiction|]. cbn.
    destruct ctype; [reflexivity|].
    now rewrite (Hmd_count eq_refl), (Hmd_outs eq_refl).
Qed.

Lemma roundtrip_identity_witness :
  roundtrip [Examples.rust_cell; Examples.text_cell]
  = [Examples.rust_cell; Examples.text_cell].
Proof.
  apply (proj2 (roundtrip_identity [Examples.rust_cell; Examples.text_cell])).
  repeat constructor; try discriminate; cbn.
  - exists []. split; [reflexivity|]. reflexivity.
  - eexists. split; reflexivity.
  - exists []. split; reflexivity.
  - eexists. split; reflexivity.
Defined.

(** X8.  A second round trip changes nothing: whatever the first one
    loses or fills in (line feeds, missing ids, the language tag,
    outputs and counts of markdown cells), its result is a list the
    round trip gives back as it is. *)
Theorem roundtrip_idempotent (cs : list Cell) :
  roundtrip (roundtrip cs) = roundtrip cs.
Proof.
  rewrite !roundtrip_cellwise.
  apply list_eq. intros i. rewrite !list_lookup_imap.
  destruct (cs !! i) as [c|]; [|reflexivity].
  cbn [fmap option_fmap option_map]. now rewrite roundtrip_cell_idempotent.
Qed.

(** ** Rendering errors; the empty notebook *)

(** X9.  An output of kind [error] is always rendered as an error,
    whatever else it carries, and its text is built line by line: when
    the name, the message and the traceback entries hold no line feed,
    the lines of the text are the name ([Error] when missing or
    empty), the message (empty when missing) and then the traceback
    entries in order. *)
Theorem formatOutput_error_lines (o : NotebookOutput) :
  output_type o = error ->
  fmt_type (formatOutput o) = fmt_error
  /\ mimeType (formatOutput o) = None
  /\ (single_line (default "" (ename o)) = true ->
      single_line (default "" (evalue o)) = true ->
      forallb single_line (default [] (traceback o)) = true ->
      split_lines (fmt_content (formatOutput o))
      = opt_or_else (ename o) "Error"
          :: opt_or_else (evalue o) "" :: default [] (traceback o)).
Proof.
  intros Hkind. unfold formatOutput. rewrite Hkind. cbn [fmt_type mimeType fmt_content].
  split; [reflexivity|]. split; [reflexivity|].
  intros Hname Hvalue Htrace.
  change ([opt_or_else (ename o) "Error"; opt_or_else (evalue o) ""]
            ++ default [] (traceback o))%list
    with (opt_or_else (ename o) "Error"
            :: opt_or_else (evalue o) "" :: default [] (traceback o)).
  apply split_lines_join; [congruence|].
  cbn [forallb]. rewrite Htrace, andb_true_r. apply andb_true_iff. split.
  - destruct (ename o) as [s|]; [|reflexivity]. cbn in *.
    unfold or_else. now destruct s.
  - destruct (evalue o) as [s|]; [|reflexivity]. cbn in *.
    unfold or_else. now destruct s.
Qed.

(** The failure of the dispatcher for an unknown tag, rendered. *)
Lemma formatOutput_error_lines_witness :
  split_lines
    (fmt_content
       (formatOutput (error_output "ExecutionError" "Unsupported language: cobol"
                                   ["Error: Unsupported language: cobol"])))
  = ["ExecutionError"; "Unsupported language: cobol";
     "Error: Unsupported language: cobol"].
Proof.
  apply (proj2 (proj2 (formatOutput_error_lines
                         (error_output "ExecutionError" "Unsupported language: cobol"
                                       ["Error: Unsupported language: cobol"])
                         eq_refl)));
    reflexivity.
Defined.

(** X10.  The notebook of [createEmptyNotebook] passes the validation
    of [parseNotebook] and is loaded exactly as it was created; it
    converts to one markdown cell named after the creation time, whose
    language is the language asked for, or [markdown] when that is the
    empty string. *)
Theorem createEmptyNotebook_loads
    (parse : string -> completion ParsedJson) (less : string -> Z -> bool)
    (text : string) (now : Z) (lang : string) :
  parse text = Normal (ParsedValue (as_parsed (createEmptyNotebook now lang))) ->
  parseNotebook parse less text = Normal (createEmptyNotebook now lang)
  /\ notebookToCells (createEmptyNotebook now lang)
     = [ {| id := "cell-" +:+ pretty now;
            type := kind_markdown;
            language := if truthy lang then lang else "markdown";
            content := "# New Notebook" +:+ LF +:+ LF +:+ "Start writing your code here...";
            executionCount := None;
            cellOutputs := Some [];
            cellMetadata := Some empty_metadata |} ].
Proof.
  intros Hparse. split.
  - unfold parseNotebook, parseNotebook_body. rewrite Hparse. reflexivity.
  - unfold notebookToCells, createEmptyNotebook, detectLanguage.
    cbn -[pretty String.append]. destruct lang; reflexivity.
Qed.

Lemma createEmptyNotebook_loads_witness :
  parseNotebook
    (fun _ => Normal (ParsedValue (as_parsed (createEmptyNotebook 1700000000000 "python"))))
    (fun _ _ => false) "new.ipynb"
  = Normal (createEmptyNotebook 1700000000000 "python").
Proof.
  apply (proj1 (createEmptyNotebook_loads
                  (fun _ => Normal (ParsedValue
                                      (as_parsed (createEmptyNotebook 1700000000000 "python"))))
                  (fun _ _ => false)
                  "new.ipynb" 1700000000000 "python" eq_refl)).
Defined.

(** ** The handler of the dispatcher *)



(** ** Counters of the dispatcher *)

(** X11.  In a sequence of calls with any mix of tags, in any worlds,
    in which the sources handed to [javascript] and [typescript] are
    ordinary scripts, every call returns, and afterwards
    [getExecutionCount] gives for each tag its value before the
    sequence plus the number of calls made with exactly that tag. *)
Theorem getExecutionCount_after_run (calls : list Call) (st : State) (tag : string) :
  Forall ordinary_call calls ->
  Forall (fun c => exists r, c = Normal r) (fst (run calls st))
  /\ getExecutionCount tag (snd (run calls st))
     = (Normal (counter tag st
                + Z.of_nat (List.length
                              (filter (fun c => call_language c = tag) calls))),
        snd (run calls st)).
Proof.
  unfold getExecutionCount, gets. intros Hord.
  revert st. induction Hord as [|c calls Hc Hord IH]; intros st.
  - cbn. split; [constructor|]. now rewrite Z.add_0_r.
  - cbn [run].
    destruct (executeCode_counters (call_env c) (call_language c) (call_code c)
                (call_options c) st Hc) as (r & st1 & Hrun & Hself & Hother).
    rewrite Hrun. destruct (IH st1) as [IHres IHcount].
    destruct (run calls st1) as [rs st2]. cbn [fst snd] in *.
    split; [constructor; [now exists r|exact IHres]|].
    injection IHcount as IHcount. f_equal. f_equal. rewrite IHcount.
    rewrite filter_cons. destruct (decide (call_language c = tag)) as [Heq|Hne].
    + rewrite <- Heq, Hself. cbn [List.length]. rewrite Heq. lia.
    + rewrite (Hother tag) by congruence. reflexivity.
Qed.

(** In the offline world every source is an ordinary script. *)
Lemma offline_ordinary code : ordinary Examples.offline code.
Proof.
  intros st. split; [reflexivity|]. split; [reflexivity|].
  intros v H. discriminate H.
Qed.

Lemma offline_calls_ordinary (calls : list (string * string)) :
  Forall ordinary_call (map (fun c => Examples.offline_call (fst c) (snd c)) calls).
Proof.
  induction calls as [|c calls IH]; constructor; [|exact IH].
  intros _. apply offline_ordinary.
Qed.

(** Two JavaScript calls among four calls. *)
Lemma getExecutionCount_after_run_witness :
  getExecutionCount "javascript"
    (snd (run [Examples.offline_call "python" "a"; Examples.offline_call "javascript" "b";
               Examples.offline_call "sql" "c"; Examples.offline_call "javascript" "d"]
              initial))
  = (Normal 2,
     snd (run [Examples.offline_call "python" "a"; Examples.offline_call "javascript" "b";
               Examples.offline_call "sql" "c"; Examples.offline_call "javascript" "d"]
              initial)).
Proof.
  apply (proj2 (getExecutionCount_after_run
                  [Examples.offline_call "python" "a"; Examples.offline_call "javascript" "b";
                   Examples.offline_call "sql" "c"; Examples.offline_call "javascript" "d"]
                  initial "javascript"
                  (offline_calls_ordinary
                     [("python", "a"); ("javascript", "b"); ("sql", "c");
                      ("javascript", "d")]))).
Defined.

(** X12.  [resetExecutionCount] with a non-empty tag sets the counter of
    that tag to 0 and leaves the others; without a tag, or with the
    empty tag, it sets every counter to 0.  It never reaches the
    counter of the Python service: after a reset of everything the next
    Python call makes [getExecutionCount] of [python] 1, but its result
    is stamped with the count of the Python service, which went on. *)
Theorem resetExecutionCount_effect (st : State) :
  (forall tag, tag <> "" ->
     exists st', resetExecutionCount (Some tag) st = (Normal tt, st')
       /\ counter tag st' = 0
       /\ (forall other, other <> tag -> counter other st' = counter other st)
       /\ python st' = python st)
  /\ (forall arg, arg = None \/ arg = Some "" ->
        exists st', resetExecutionCount arg st = (Normal tt, st')
          /\ (forall tag, counter tag st' = 0)
          /\ python st' = python st
          /\ forall env code options,
               exists r st'',
                 executeCode env "python" code options st' = (Normal r, st'')
                 /\ counter "python" st'' = 1
                 /\ res_execution_count r
                    = PythonExecutionService.executionCount (python st) + 1).
Proof.
  split.
  - intros tag Hne. unfold resetExecutionCount. cbn.
    destruct tag; [contradiction|]. cbn. eexists. split; [reflexivity|].
    split; [apply counter_set_counter_eq|]. split; [|reflexivity].
    intros other Ho. apply counter_set_counter_ne. congruence.
  - intros arg Harg.
    exists {| executionCounts := ∅; python := python st |}.
    split; [now destruct Harg as [-> | ->]|].
    split; [reflexivity|]. split; [reflexivity|].
    intros env code options.
    destruct (executeCode_python env code options
                {| executionCounts := ∅; python := python st |})
      as (r & pst' & Hrun & Hcount & _).
    do 2 eexists. split; [exact Hrun|]. split; [|exact Hcount].
    unfold counter. cbn. now rewrite lookup_insert_eq.
Qed.

Lemma resetExecutionCount_effect_witness :
  exists st', resetExecutionCount (Some "sql") (set_counter "sql" 5 initial)
              = (Normal tt, st')
              /\ counter "sql" st' = 0.
Proof.
  destruct (proj1 (resetExecutionCount_effect (set_counter "sql" 5 initial)) "sql")
    as (st' & Hrun & Hzero & _); [discriminate|].
  now exists st'.
Defined.

(** ** What the backends answer *)

(** X13.  A call with the tag [sql], [rust], [r], [navlambda] or [vnc]
    never reports a failure, whatever the host engine does: the result
    has [success] true, no error output and no [error] property. *)
Theorem engine_backed_tags_always_succeed env tag code options st :
  tag ∈ ["sql"; "rust"; "r"; "navlambda"; "vnc"] ->
  exists r st',
    executeCode env tag code options st = (Normal r, st')
    /\ success r = true
    /\ has_error_output r = false
    /\ res_error r = None.
Proof.
  intros Hin.
  assert (Hlocal : tag ∈ local_tags).
  { unfold local_tags.
    repeat (apply elem_of_cons in Hin; destruct Hin as [-> | Hin]; [tag_listed|]).
    now apply elem_of_nil in Hin. }
  pose proof (engine_tag_not_evaluated tag Hin) as Hengine.
  destruct (executeCode_local env tag code options st Hlocal)
    as (r & Hrun & _ & Hnone & Hs & Hjs);
    [intros H; rewrite Hengine in H; discriminate H|].
  exists r. eexists. split; [exact Hrun|].
  assert (Hsuccess : success r = true).
  { destruct (success r) eqn:Hsr; [reflexivity|].
    destruct (Hjs eq_refl) as [[-> | ->] _];
      repeat (apply elem_of_cons in Hin; destruct Hin as [Hin|Hin]; [discriminate Hin|]);
      now apply elem_of_nil in Hin. }
  split; [exact Hsuccess|]. split; [|exact Hnone].
  rewrite Hsuccess in Hs. now destruct (has_error_output r).
Qed.

Lemma engine_backed_tags_always_succeed_witness :
  exists r st',
    executeCode Examples.offline "sql" "DROP TABLE t" no_options initial = (Normal r, st')
    /\ success r = true.
Proof.
  destruct (engine_backed_tags_always_succeed Examples.offline "sql" "DROP TABLE t"
              no_options initial) as (r & st' & Hrun & Hs & _); [tag_listed|].
  now exists r, st'.
Defined.

Lemma executeCode_select_eq env env' tag code options st :
  (forall st1,
      select (pythonExecutionService_executeCode env) (executeSQL env) (executeRust env)
             (executeR env) (executeNavLambda env) (executeJavaScript env)
             tag code options st1
      = select (pythonExecutionService_executeCode env') (executeSQL env')
               (executeRust env') (executeR env') (executeNavLambda env')
               (executeJavaScript env') tag code options st1) ->
  executeCode env tag code options st = executeCode env' tag code options st.
Proof.
  intros Hsel. unfold executeCode. rewrite !executeCode_over_eq. now rewrite Hsel.
Qed.

(** X14.  For the tags [sql], [rust], [r], [navlambda] and [vnc] a host
    engine that fails is not told apart from no host engine: when the
    command is rejected, or its reply reports no success (for SQL: no
    success or no rows), the call returns exactly what it returns in a
    world without host engine, the simulated answer; the error text of
    the engine is dropped. *)
Theorem failing_engine_is_no_engine env env' tag code options st :
  tag ∈ ["sql"; "rust"; "r"; "navlambda"; "vnc"] ->
  tauri env' = false ->
  tauri env = false \/ engine_fails env tag code options = true ->
  executeCode env tag code options st = executeCode env' tag code options st.
Proof.
  intros Hin Hoff Hfail. apply executeCode_select_eq. intros st1.
  unfold engine_fails in Hfail.
  repeat (apply elem_of_cons in Hin; destruct Hin as [-> | Hin]);
    [| | | | |now apply elem_of_nil in Hin]; cbn in Hfail.
  - rewrite !select_sql. unfold executeSQL. eff_unfold. rewrite Hoff.
    destruct (tauri env); [|reflexivity].
    destruct Hfail as [Hfail|Hfail]; [discriminate Hfail|].
    destruct (invoke_execute_sql env code) as [[[] [rows|] err]|e];
      try reflexivity; discriminate Hfail.
  - rewrite !select_rust. unfold executeRust. eff_unfold. rewrite Hoff.
    destruct (tauri env); [|reflexivity].
    destruct Hfail as [Hfail|Hfail]; [discriminate Hfail|].
    destruct (compileOnly options).
    + destruct (invoke_compile_rust env code) as [[[] out err]|e];
        try reflexivity; discriminate Hfail.
    + destruct (invoke_execute_rust env code) as [[[] out err]|e];
        try reflexivity; discriminate Hfail.
  - rewrite !select_r. unfold executeR. eff_unfold. rewrite Hoff.
    destruct (tauri env); [|reflexivity].
    destruct Hfail as [Hfail|Hfail]; [discriminate Hfail|].
    destruct (invoke_execute_r env code) as [[[] out err]|e];
      try reflexivity; discriminate Hfail.
  - rewrite !select_navlambda. unfold executeNavLambda. eff_unfold. rewrite Hoff.
    destruct (tauri env); [|reflexivity].
    destruct Hfail as [Hfail|Hfail]; [discriminate Hfail|].
    destruct (invoke_run_live_preview env code) as [result|e];
      [discriminate Hfail|reflexivity].
  - rewrite !select_vnc. unfold executeNavLambda. eff_unfold. rewrite Hoff.
    destruct (tauri env); [|reflexivity].
    destruct Hfail as [Hfail|Hfail]; [discriminate Hfail|].
    destruct (invoke_run_live_preview env code) as [result|e];
      [discriminate Hfail|reflexivity].
Qed.

(** The engine reports a panic of the Rust program: the cell shows the
    simulated run. *)
Lemma failing_engine_is_no_engine_witness :
  executeCode Examples.rust_engine "rust" "fn main() { panic!() }" no_options initial
  = executeCode Examples.offline "rust" "fn main() { panic!() }" no_options initial.
Proof.
  apply failing_engine_is_no_engine; [tag_listed|reflexivity|].
  right. reflexivity.
Defined.

(** X15.  A Rust call talks to the host engine through one command
    only: with [compileOnly] the reply of [execute_rust] has no
    influence on the result, and without it the reply of
    [compile_rust] has none.  Two worlds that agree on the presence of
    the engine and on the reply of the command chosen give the same
    result and the same store. *)
Theorem rust_uses_one_command env env' code options st :
  tauri env = tauri env' ->
  (if compileOnly options
   then invoke_compile_rust env code = invoke_compile_rust env' code
   else invoke_execute_rust env code = invoke_execute_rust env' code) ->
  executeCode env "rust" code options st = executeCode env' "rust" code options st.
Proof.
  intros Htauri Hreply. apply executeCode_select_eq. intros st1.
  rewrite !select_rust. unfold executeRust. eff_unfold. rewrite <- Htauri.
  destruct (tauri env); [|reflexivity].
  destruct (compileOnly options); now rewrite Hreply.
Qed.

(** With [compileOnly] it makes no difference whether running the
    program would fail or succeed. *)
Lemma rust_uses_one_command_witness :
  executeCode Examples.rust_engine "rust" "fn main() {}" Examples.compile_only initial
  = executeCode Examples.rust_engine_running "rust" "fn main() {}"
                Examples.compile_only initial.
Proof.
  apply rust_uses_one_command; reflexivity.
Defined.





(** ** The stamp of each call of a sequence *)

(** One call, of an evaluated tag on an ordinary script: its stamp and
    what it leaves in the two counters it can touch, in terms of the
    store before the call. *)
Lemma executeCode_stamp env tag code options st :
  (evaluated_tag tag = true -> ordinary env code) ->
  exists r st',
    executeCode env tag code options st = (Normal r, st')
    /\ counter tag st' = counter tag st + 1
    /\ (forall other, other <> tag -> counter other st' = counter other st)
    /\ PythonExecutionService.executionCount (python st')
       = PythonExecutionService.executionCount (python st)
         + (if String.eqb tag "python" then 1 else 0)
    /\ res_execution_count r
       = if String.eqb tag "python"
         then PythonExecutionService.executionCount (python st) + 1
         else if String.eqb tag "vnc" then counter "navlambda" st + 1
         else if bool_decide (tag ∈ local_tags) then counter tag st + 2
         else counter tag st + 1.
Proof.
  intros Hord.
  destruct (supported_cases tag) as [-> | [Hloc | Hnot]].
  - destruct (executeCode_python env code options st)
      as (r & pst' & Hrun & Hcount & Hpy & _).
    do 2 eexists. split; [exact Hrun|]. cbn [python String.eqb Ascii.eqb Bool.eqb].
    unfold counter. cbn [executionCounts]. split; [now rewrite lookup_insert_eq|].
    split; [intros other Hne; now rewrite lookup_insert_ne|].
    split; [exact Hpy|exact Hcount].
  - destruct (executeCode_local env tag code options st Hloc Hord)
      as (r & Hrun & Hcount & _).
    do 2 eexists. split; [exact Hrun|].
    split; [apply counter_set_counter_eq|].
    split; [intros other Hne; apply counter_set_counter_ne; congruence|].
    rewrite Hcount. rewrite bool_decide_true by exact Hloc.
    unfold local_tags in Hloc.
    repeat (apply elem_of_cons in Hloc; destruct Hloc as [-> | Hloc]);
      [| | | | | | |now apply elem_of_nil in Hloc];
      cbn [String.eqb Ascii.eqb Bool.eqb python set_counter];
      (split; [lia|]); unfold stamping_tag; cbn [String.eqb Ascii.eqb Bool.eqb];
      try (rewrite counter_set_counter_eq; lia).
    rewrite counter_set_counter_ne by discriminate. reflexivity.
  - assert (Hpy : String.eqb tag "python" = false).
    { apply String.eqb_neq. intros ->. apply Hnot. unfold SupportedLanguage. tag_listed. }
    assert (Hvnc : String.eqb tag "vnc" = false).
    { apply String.eqb_neq. intros ->. apply Hnot. unfold SupportedLanguage. tag_listed. }
    assert (Hloc : bool_decide (tag ∈ local_tags) = false).
    { apply bool_decide_eq_false. intros Hin. apply Hnot. now apply list_elem_of_further. }
    rewrite Hpy, Hvnc, Hloc. unfold executeCode. do 2 eexists.
    rewrite executeCode_over_eq, select_unsupported by exact Hnot.
    split; [reflexivity|]. split; [apply counter_set_counter_eq|].
    split; [intros other Hne; apply counter_set_counter_ne; congruence|].
    split; [cbn; lia|reflexivity].
Qed.

Lemma calls_before_cons tag (c : Call) (before : list Call) :
  calls_before tag (c :: before)
  = (if String.eqb (call_language c) tag then 1 else 0) + calls_before tag before.
Proof.
  unfold calls_before. rewrite filter_cons.
  destruct (String.eqb_spec (call_language c) tag) as [Heq|Hne].
  - rewrite decide_True by exact Heq. cbn [List.length]. lia.
  - rewrite decide_False by exact Hne. lia.
Qed.

(** The stamp of the call at position [i] of a sequence started on any
    store. *)
Lemma run_stamp_from (calls : list Call) (st : State) (i : nat) (c : Call) :
  Forall ordinary_call calls ->
  calls !! i = Some c ->
  exists r,
    fst (run calls st) !! i = Some (Normal r)
    /\ res_execution_count r
       = let tag := call_language c in
         let before := take i calls in
         if String.eqb tag "python"
         then PythonExecutionService.executionCount (python st)
              + calls_before "python" before + 1
         else if String.eqb tag "vnc"
         then counter "navlambda" st + calls_before "navlambda" before + 1
         else if bool_decide (tag ∈ local_tags)
         then counter tag st + calls_before tag before + 2
         else counter tag st + calls_before tag before + 1.
Proof.
  intros Hord. revert st i.
  induction Hord as [|c0 calls Hc0 Hord IH]; intros st i Hi; [discriminate Hi|].
  cbn [run].
  destruct (executeCode_stamp (call_env c0) (call_language c0) (call_code c0)
              (call_options c0) st Hc0)
    as (r0 & st1 & Hrun & Hself & Hother & Hpy & Hstamp).
  rewrite Hrun.
  destruct i as [|i].
  - injection Hi as <-. destruct (run calls st1) as [rs st2]. cbn [fst lookup].
    exists r0. split; [reflexivity|]. rewrite Hstamp. cbn [take].
    unfold calls_before. cbn.
    repeat match goal with |- context [if ?b then _ else _] => destruct b end; lia.
  - cbn in Hi. destruct (IH st1 i Hi) as (r & Hr & Hcount).
    destruct (run calls st1) as [rs st2]. cbn [fst] in *.
    exists r. split; [exact Hr|]. rewrite Hcount. cbn zeta. cbn [take].
    rewrite !calls_before_cons.
    assert (Hcounter : forall t, counter t st1
                                 = counter t st
                                   + (if String.eqb (call_language c0) t then 1 else 0)).
    { intros t. destruct (String.eqb_spec (call_language c0) t) as [<-|Hne].
      - exact Hself.
      - rewrite (Hother t) by congruence. lia. }
    rewrite Hpy, !Hcounter.
    repeat match goal with |- context [if ?b then _ else _] => destruct b end; lia.
Qed.

(** X17.  On a service that starts fresh, in a sequence of calls in
    which the sources handed to [javascript] and [typescript] are
    ordinary scripts, every call returns and its stamp is fixed by the
    tags of the calls before it, whatever the worlds: the n-th Python
    call is stamped n, the n-th call of a tag with a backend inside the
    multi-language service ([sql], [rust], [r], [navlambda],
    [javascript], [typescript]) is stamped n + 1, a [vnc] call is
    stamped one more than the number of [navlambda] calls before it,
    and the n-th call with an unknown tag is stamped n. *)
Theorem stamps_of_a_run (calls : list Call) (i : nat) (c : Call) :
  Forall ordinary_call calls ->
  calls !! i = Some c ->
  exists r,
    fst (run calls initial) !! i = Some (Normal r)
    /\ res_execution_count r = expected_stamp (take i calls) (call_language c).
Proof.
  intros Hord Hi.
  destruct (run_stamp_from calls initial i c Hord Hi) as (r & Hr & Hcount).
  exists r. split; [exact Hr|]. rewrite Hcount. unfold expected_stamp. cbn zeta.
  change (PythonExecutionService.executionCount (python initial)) with 0.
  assert (Hzero : forall t, counter t initial = 0) by reflexivity.
  rewrite !Hzero.
  repeat match goal with |- context [if ?b then _ else _] => destruct b end; lia.
Qed.

(** Python, JavaScript, JavaScript, Python offline: the stamps are 1,
    2, 3, 2. *)
Lemma stamps_of_a_run_witness :
  exists r,
    fst (run [Examples.offline_call "python" "a"; Examples.offline_call "javascript" "b";
              Examples.offline_call "javascript" "c"; Examples.offline_call "python" "d"]
             initial) !! 2%nat = Some (Normal r)
    /\ res_execution_count r = 3.
Proof.
  apply (stamps_of_a_run
           [Examples.offline_call "python" "a"; Examples.offline_call "javascript" "b";
            Examples.offline_call "javascript" "c"; Examples.offline_call "python" "d"]
           2%nat (Examples.offline_call "javascript" "c")
           (offline_calls_ordinary
              [("python", "a"); ("javascript", "b"); ("javascript", "c");
               ("python", "d")])).
  reflexivity.
Defined.

(** ** The Python service *)

(** X18.  When the interpreter is not available and an external engine
    (the host engine when there is one, the HTTP API otherwise) answers
    with a result, the Python service hands that result on with its
    [success] flag, its outputs and its [error] untouched, and replaces
    its [execution_count] by the service's own advanced count. *)
Theorem python_external_result_is_restamped env code options pst r0 :
  PythonExecutionService.pyodide pst = false ->
  pyodide_loads env = false ->
  (if tauri env then tauri_python env code else api_python env code) = Some r0 ->
  PythonExecutionService.executeCode env code options pst
  = (Normal {| success := success r0;
               outputs := outputs r0;
               res_execution_count := PythonExecutionService.executionCount pst + 1;
               res_error := res_error r0 |},
     {| PythonExecutionService.executionCount
          := PythonExecutionService.executionCount pst + 1;
        PythonExecutionService.pyodide := false |}).
Proof.
  intros Hnot Hloads Hreply. destruct pst as [n loaded]. cbn in Hnot. subst loaded.
  unfold PythonExecutionService.executeCode, PythonExecutionService.tryInitializePyodide,
    PythonExecutionService.initializePyodide, PythonExecutionService.executeWithBackend,
    PythonExecutionService.executeWithTauri, PythonExecutionService.executeWithAPI.
  eff_unfold. cbn. rewrite Hloads. cbn.
  destruct (tauri env); cbn; now rewrite Hreply.
Qed.

Lemma python_external_result_is_restamped_witness :
  exists st',
    PythonExecutionService.executeCode Examples.python_api "6 * 7" no_options
      PythonExecutionService.initial
    = (Normal {| success := true; outputs := [stream_output stdout "42"];
                 res_execution_count := 1; res_error := None |}, st').
Proof.
  eexists.
  apply (python_external_result_is_restamped Examples.python_api "6 * 7" no_options
           PythonExecutionService.initial
           {| success := true; outputs := [stream_output stdout "42"];
              res_execution_count := 17; res_error := None |});
    reflexivity.
Defined.

Lemma simulateExecution_outputs env code pst r :
  PythonExecutionService.simulateExecution env code pst = (Normal r, pst) ->
  success r = true
  /\ res_error r = None
  /\ outputs r <> []
  /\ (forall printMatches, match_print env code = Some printMatches ->
        printMatches <> [] ->
        take (List.length printMatches) (outputs r)
        = map (fun m => stream_output stdout (replace_print env m +:+ LF))
              printMatches).
Proof.
  unfold PythonExecutionService.simulateExecution. eff_unfold.
  intros [= <-]. cbn [success res_error outputs].
  split; [reflexivity|]. split; [reflexivity|]. split.
  - now destruct (_ ++ _)%list.
  - intros ms Hms Hne. rewrite Hms.
    destruct ms as [|m ms]; [congruence|]. cbn [map app].
    rewrite <- (length_map (fun m0 => stream_output stdout (replace_print env m0 +:+ LF))
                           (m :: ms)).
    cbn [map List.length take]. f_equal. apply take_app_length.
Qed.

(** X19.  With no interpreter and no external engine answering, a
    Python call never fails and never comes back empty: the result of
    the simulation has [success] true, no [error], at least one output
    and no error output, and when the source holds calls of [print] it
    starts with one [stdout] stream per call, in order. *)
Theorem python_simulation_always_answers env code options pst :
  PythonExecutionService.pyodide pst = false ->
  pyodide_loads env = false ->
  (if tauri env then tauri_python env code else api_python env code) = None ->
  exists r,
    PythonExecutionService.executeCode env code options pst
    = (Normal r, {| PythonExecutionService.executionCount
                      := PythonExecutionService.executionCount pst + 1;
                    PythonExecutionService.pyodide := false |})
    /\ success r = true
    /\ res_error r = None
    /\ outputs r <> []
    /\ has_error_output r = false
    /\ res_execution_count r = PythonExecutionService.executionCount pst + 1
    /\ (forall printMatches, match_print env code = Some printMatches ->
          printMatches <> [] ->
          take (List.length printMatches) (outputs r)
          = map (fun m => stream_output stdout (replace_print env m +:+ LF))
                printMatches).
Proof.
  intros Hnot Hloads Hreply. destruct pst as [n loaded]. cbn in Hnot. subst loaded.
  set (pst1 := {| PythonExecutionService.executionCount := n + 1;
                  PythonExecutionService.pyodide := false |}).
  destruct (simulateExecution_succeeds env code pst1) as (r & Hsim & Hcount & Hcons).
  exists r.
  assert (Hrun : PythonExecutionService.executeCode env code options
                   {| PythonExecutionService.executionCount := n;
                      PythonExecutionService.pyodide := false |}
                 = (Normal r, pst1)).
  { unfold PythonExecutionService.executeCode, PythonExecutionService.tryInitializePyodide,
      PythonExecutionService.initializePyodide, PythonExecutionService.executeWithBackend,
      PythonExecutionService.executeWithTauri, PythonExecutionService.executeWithAPI.
    eff_unfold. cbn. rewrite Hloads. cbn.
    destruct (tauri env); cbn; rewrite Hreply; fold pst1; now rewrite Hsim. }
  split; [exact Hrun|].
  destruct (simulateExecution_outputs env code pst1 r Hsim)
    as (Hsuccess & Herror & Hout & Hprints).
  split; [exact Hsuccess|]. split; [exact Herror|]. split; [exact Hout|].
  split.
  { destruct Hcons as [Hiff _]. destruct (has_error_output r); [|reflexivity].
    rewrite (proj2 Hiff eq_refl) in Hsuccess. discriminate Hsuccess. }
  split; [exact Hcount|exact Hprints].
Qed.

Lemma python_simulation_always_answers_witness :
  exists r st',
    PythonExecutionService.executeCode Examples.offline "1 + 1" no_options
      PythonExecutionService.initial = (Normal r, st')
    /\ success r = true /\ outputs r <> [].
Proof.
  destruct (python_simulation_always_answers Examples.offline "1 + 1" no_options
              PythonExecutionService.initial eq_refl eq_refl eq_refl)
    as (r & Hrun & Hs & _ & Hout & _).
  exists r. eexists. split; [exact Hrun|]. split; assumption.
Defined.

Lemma split_lines_not_nil (s : string) : split_lines s <> [].
Proof.
  unfold split_lines. destruct s as [|c s]; [discriminate|].
  cbn [split]. destruct (Ascii.eqb c "010"%char); [discriminate|].
  now destruct (split "010"%char s).
Qed.

(** X20.  When the interpreter is there (loaded before, or loading now)
    and running the source throws, the Python call returns a failure
    whose [error] property and single error output carry the same name
    [Error], the same value and the same traceback, and the traceback
    is never empty.  When the Python traceback text can be read and is
    not empty, the traceback is that text split into lines and the
    value is its first line (or the text of the thrown error when the
    first line is empty); otherwise the value is the text of the thrown
    error. *)
Theorem python_failure_matches_error env code options pst err pyError :
  PythonExecutionService.pyodide pst = true \/ pyodide_loads env = true ->
  pyodide_run env code = RunThrows err pyError ->
  exists value trace,
    PythonExecutionService.executeCode env code options pst
    = (Normal {| success := false;
                 outputs := [error_output "Error" value trace];
                 res_execution_count := PythonExecutionService.executionCount pst + 1;
                 res_error := Some {| err_ename := "Error"; err_evalue := value;
                                      err_traceback := trace |} |},
       {| PythonExecutionService.executionCount
            := PythonExecutionService.executionCount pst + 1;
          PythonExecutionService.pyodide := true |})
    /\ trace <> []
    /\ (forall p, pyError = Some p -> p <> "" ->
          trace = split_lines p
          /\ value = or_else (hd "" (split_lines p)) (to_string err))
    /\ (pyError = None \/ pyError = Some "" -> value = to_string err).
Proof.
  intros Havailable Hrun. destruct pst as [n loaded].
  assert (Hexec : PythonExecutionService.executeCode env code options
                    {| PythonExecutionService.executionCount := n;
                       PythonExecutionService.pyodide := loaded |}
                  = (Normal (PythonExecutionService.pyodide_failure (n + 1) err pyError),
                     {| PythonExecutionService.executionCount := n + 1;
                        PythonExecutionService.pyodide := true |})).
  { unfold PythonExecutionService.executeCode, PythonExecutionService.tryInitializePyodide,
      PythonExecutionService.initializePyodide, PythonExecutionService.executeWithPyodide.
    eff_unfold. cbn. destruct loaded; cbn.
    - now rewrite Hrun.
    - destruct Havailable as [Hl|Hl]; [discriminate Hl|]. rewrite Hl. cbn.
      now rewrite Hrun. }
  rewrite Hexec. unfold PythonExecutionService.pyodide_failure.
  cbn [PythonExecutionService.executionCount].
  do 2 eexists. split; [reflexivity|].
  destruct pyError as [p|].
  - destruct p as [|c p].
    + cbn. split; [discriminate|]. split; [intros p [= <-] Hp; contradiction|reflexivity].
    + cbn [truthy fst snd]. split; [|split].
      * pose proof (split_lines_not_nil (String c p)) as Hne.
        now destruct (split_lines (String c p)).
      * intros q [= <-] _. split; [|reflexivity].
        pose proof (split_lines_not_nil (String c p)) as Hne.
        now destruct (split_lines (String c p)).
      * intros [H|H]; discriminate H.
  - cbn [fst snd]. split; [|split].
    + destruct (stack err) as [st|]; [|discriminate].
      destruct (truthy st); [|discriminate].
      pose proof (split_lines_not_nil st) as Hne. now destruct (split_lines st).
    + intros p H. discriminate H.
    + reflexivity.
Qed.

(** A division by zero: the value shown is the first line of the
    traceback text, its heading. *)
Lemma python_failure_matches_error_witness :
  exists st',
    PythonExecutionService.executeCode Examples.pyodide_raises "1 / 0" no_options
      PythonExecutionService.initial
    = (Normal {| success := false;
                 outputs := [error_output "Error" "Traceback (most recent call last):"
                               ["Traceback (most recent call last):";
                                "ZeroDivisionError: division by zero"]];
                 res_execution_count := 1;
                 res_error := Some {| err_ename := "Error";
                                      err_evalue := "Traceback (most recent call last):";
                                      err_traceback :=
                                        ["Traceback (most recent call last):";
                                         "ZeroDivisionError: division by zero"] |} |},
       st').
Proof.
  destruct (python_failure_matches_error Examples.pyodide_raises "1 / 0" no_options
              PythonExecutionService.initial (new_Error "PythonError")
              (Some ("Traceback (most recent call last):"
                     +:+ LF +:+ "ZeroDivisionError: division by zero"))
              (or_intror eq_refl) eq_refl)
    as (value & trace & Hrun & _ & Htext & _).
  destruct (Htext _ eq_refl) as [-> ->]; [discriminate|].
  eexists. exact Hrun.
Defined.

(** X21.  The interpreter is initialised at most once: a call on a
    service whose interpreter is loaded keeps it loaded and depends on
    the world only through what the interpreter does with the source,
    so neither a new loading attempt nor the host engine nor the HTTP
    API plays a part; and a call during which loading succeeds leaves
    the interpreter loaded. *)
Theorem python_interpreter_is_kept env code options pst :
  (PythonExecutionService.pyodide pst = true \/ pyodide_loads env = true ->
     PythonExecutionService.pyodide
       (snd (PythonExecutionService.executeCode env code options pst)) = true)
  /\ (PythonExecutionService.pyodide pst = true ->
        forall env', pyodide_run env' code = pyodide_run env code ->
          PythonExecutionService.executeCode env' code options pst
          = PythonExecutionService.executeCode env code options pst).
Proof.
  destruct pst as [n loaded].
  unfold PythonExecutionService.executeCode, PythonExecutionService.tryInitializePyodide,
    PythonExecutionService.initializePyodide, PythonExecutionService.executeWithPyodide.
  eff_unfold. cbn. split.
  - intros Havailable. destruct loaded; cbn.
    + now destruct (pyodide_run env code).
    + destruct Havailable as [Hl|Hl]; [discriminate Hl|]. rewrite Hl. cbn.
      now destruct (pyodide_run env code).
  - intros -> env' Hsame. cbn. now rewrite Hsame.
Qed.

Lemma python_interpreter_is_kept_witness :
  PythonExecutionService.pyodide
    (snd (PythonExecutionService.executeCode Examples.pyodide_raises "1 / 0" no_options
            PythonExecutionService.initial)) = true.
Proof.
  apply (proj1 (python_interpreter_is_kept Examples.pyodide_raises "1 / 0" no_options
                  PythonExecutionService.initial)).
  right. reflexivity.
Defined.

(** ** More on the tabular formatter *)

Lemma row_get_restrict (keys : list string) (row : Row) (k : string) :
  k ∈ keys -> row_get (restrict_row keys row) k = row_get row k.
Proof.
  intros Hk. unfold restrict_row. induction row as [|[k0 v] row IH]; [reflexivity|].
  rewrite filter_cons. cbn [fst]. destruct (decide (k0 ∈ keys)) as [Hin|Hnot].
  - cbn [row_get]. now rewrite IH.
  - cbn [row_get]. destruct (String.eqb_spec k0 k) as [->|_]; [contradiction|exact IH].
Qed.

Lemma cells_of_restricted_row (keys : list string) (row : Row) :
  map (fun key => cell_text (row_get (restrict_row keys row) key)) keys
  = map (fun key => cell_text (row_get row key)) keys.
Proof.
  apply map_ext_in. intros k Hk. rewrite row_get_restrict; [reflexivity|].
  now apply list_elem_of_In.
Qed.

(** X22.  Only the columns of the first row are shown: the text table
    and the HTML table stay the same when every entry whose key does
    not occur in the first row is removed from the later rows. *)
Theorem tables_show_first_row_columns (first : Row) (rest : list Row) :
  formatSQLTable (first :: map (restrict_row (map fst first)) rest)
  = formatSQLTable (first :: rest)
  /\ formatSQLTableHTML (first :: map (restrict_row (map fst first)) rest)
     = formatSQLTableHTML (first :: rest).
Proof.
  set (keys := map fst first).
  assert (Htext : sql_dataRows (first :: map (restrict_row keys) rest)
                  = sql_dataRows (first :: rest)).
  { unfold sql_dataRows. cbn [keys_of take]. fold keys. cbn [map]. f_equal.
    change (map (restrict_row keys) rest) with (restrict_row keys <$> rest).
    rewrite <- fmap_take. change (restrict_row keys <$> take 99 rest)
      with (map (restrict_row keys) (take 99 rest)).
    rewrite map_map. apply map_ext. intros row.
    now rewrite cells_of_restricted_row. }
  assert (Hhtml : html_dataRows (first :: map (restrict_row keys) rest)
                  = html_dataRows (first :: rest)).
  { unfold html_dataRows. cbn [keys_of take]. fold keys. cbn [map]. f_equal.
    change (map (restrict_row keys) rest) with (restrict_row keys <$> rest).
    rewrite <- fmap_take. change (restrict_row keys <$> take 99 rest)
      with (map (restrict_row keys) (take 99 rest)).
    rewrite map_map. apply map_ext. intros row. f_equal. f_equal. f_equal.
    apply map_ext_in. intros k Hk. rewrite row_get_restrict; [reflexivity|].
    now apply list_elem_of_In. }
  unfold formatSQLTable, formatSQLTableHTML, sql_trailer, html_trailer.
  rewrite Htext, Hhtml. cbn [List.length]. rewrite length_map.
  split; reflexivity.
Qed.

Lemma pretty_N_go_length (x : N) (s : string) :
  (String.length s <= String.length (pretty_N_go x s))%nat.
Proof.
  revert s. induction (N.lt_wf_0 x) as [x _ IH]. intros s.
  destruct (N.eq_dec x 0) as [->|Hpos].
  - now rewrite pretty_N_go_0.
  - rewrite pretty_N_go_step by lia.
    etransitivity; [|apply IH; apply N.div_lt; lia]. cbn. lia.
Qed.

Lemma pretty_positive_not_empty (p : positive) : pretty (N.pos p) <> "".
Proof.
  unfold pretty, pretty_N. rewrite decide_False by discriminate.
  rewrite pretty_N_go_step by lia. intros Hempty.
  pose proof (pretty_N_go_length (N.pos p `div` 10)
                (String (pretty_N_char (N.pos p `mod` 10)) "")) as Hlen.
  rewrite Hempty in Hlen. cbn in Hlen. lia.
Qed.

Lemma pretty_Z_not_empty (z : Z) : pretty z <> "".
Proof.
  destruct z as [|p|p]; [discriminate| |].
  - apply (pretty_positive_not_empty p).
  - change (pretty (Z.neg p)) with ("-" +:+ pretty (N.pos p)). discriminate.
Qed.

Lemma append_empty_inv (a b : string) : a +:+ b = "" -> a = "" /\ b = "".
Proof.
  destruct a as [|c a]; [rewrite append_empty; now intros ->|].
  rewrite append_cons. discriminate.
Qed.

(** The values whose text is empty. *)
Lemma value_String_empty (v : SqlValue) : value_String v = "" <-> empty_text v.
Proof.
  split.
  - revert v. fix IH 1. intros [|[]|z|s|l]; try discriminate.
    + intros H. now destruct (pretty_Z_not_empty z).
    + cbn. intros ->. constructor.
    + destruct l as [|x [|y l]].
      * intros _. constructor.
      * cbn [value_String map]. change (join "," [?a]) with a.
        intros H.
        assert (Hx : x = SqlNull \/ value_String x = "") by (destruct x; auto).
        destruct Hx as [-> | Hx]; [constructor|apply array_of_empty, IH, Hx].
      * cbn [value_String map]. rewrite join_cons_cons.
        intros H. apply append_empty_inv in H as [_ H]. discriminate H.
  - induction 1 as [| | |x _ IH]; try reflexivity.
    cbn [value_String map]. change (join "," [?a]) with a.
    destruct x; try exact IH. discriminate IH.
Qed.

(** X23.  A cell of the table is empty exactly when the row has no
    value under the key, or the value is null, false, the number 0 or
    the empty string (a zero is not shown as [0]), or the value is an
    array that [String] turns into the empty string: the empty array,
    or an array whose one element is null, the empty string or again
    such an array. *)
Theorem cell_text_empty_iff (v : option SqlValue) :
  cell_text v = ""
  <-> v = None \/ v = Some SqlNull \/ v = Some (SqlBool false)
      \/ v = Some (SqlNum 0) \/ v = Some (SqlText "")
      \/ exists l, v = Some (SqlArray l) /\ empty_text (SqlArray l).
Proof.
  split.
  - destruct v as [x|]; [|auto]. unfold cell_text.
    destruct x as [|[]|z|s|l]; cbn [value_truthy]; auto 6; try discriminate.
    + destruct (Z.eqb_spec z 0) as [->|Hz]; cbn [negb]; [auto 6|].
      intros H. now destruct (pretty_Z_not_empty z).
    + destruct s; [auto 6|discriminate].
    + intros H. do 5 right. exists l. split; [reflexivity|].
      now apply value_String_empty.
  - intros [-> | [-> | [-> | [-> | [-> | (l & -> & Hl)]]]]]; try reflexivity.
    unfold cell_text. cbn [value_truthy]. now apply value_String_empty.
Qed.

(** ** The cell list of the panel *)

(** From here on [S] is the successor of [nat] again. *)
Local Abbreviation S := Datatypes.S (only parsing).

Lemma findIndex_Some (wanted : string) (l : list NotebookPanel.NotebookCell) (i : nat) :
  NotebookPanel.findIndex wanted l = Some i ->
  exists c, l !! i = Some c
            /\ NotebookPanel.id c = wanted
            /\ forall j c', (j < i)%nat -> l !! j = Some c' -> NotebookPanel.id c' <> wanted.
Proof.
  revert i. induction l as [|c l IH]; intros i; [discriminate|].
  cbn [NotebookPanel.findIndex].
  destruct (String.eqb_spec (NotebookPanel.id c) wanted) as [Heq|Hne].
  - intros [= <-]. exists c. split; [reflexivity|]. split; [exact Heq|]. intros j c' Hj. lia.
  - destruct (NotebookPanel.findIndex wanted l) as [k|]; [|discriminate].
    intros [= <-]. destruct (IH k eq_refl) as (c0 & Hc0 & Hid & Hfirst).
    exists c0. split; [exact Hc0|]. split; [exact Hid|].
    intros [|j] c' Hj Hc'.
    + injection Hc' as <-. exact Hne.
    + apply (Hfirst j c'); [lia|exact Hc'].
Qed.

Lemma findIndex_None (wanted : string) (l : list NotebookPanel.NotebookCell) :
  NotebookPanel.findIndex wanted l = None <->
  Forall (fun c => NotebookPanel.id c <> wanted) l.
Proof.
  induction l as [|c l IH]; [split; [constructor|reflexivity]|].
  cbn [NotebookPanel.findIndex].
  destruct (String.eqb_spec (NotebookPanel.id c) wanted) as [Heq|Hne].
  - split; [discriminate|]. intros H. inversion H. contradiction.
  - destruct (NotebookPanel.findIndex wanted l) as [k|].
    + split; [discriminate|]. intros H. inversion H as [|? ? _ Hl].
      now apply IH in Hl.
    + split; [|reflexivity]. intros _. constructor; [exact Hne|]. now apply IH.
Qed.

Lemma filter_keeps_all (wanted : string) (l : list NotebookPanel.NotebookCell) :
  Forall (fun c => NotebookPanel.id c <> wanted) l ->
  List.filter (fun c => negb (String.eqb (NotebookPanel.id c) wanted)) l = l.
Proof.
  induction 1 as [|c l Hc _ IH]; [reflexivity|].
  cbn [List.filter]. apply String.eqb_neq in Hc. now rewrite Hc, IH.
Qed.

(** X24.  [insertCellAfter] adds exactly one cell, the new empty cell
    named after the time, and makes it the active cell.  The cell goes
    directly behind the first cell with the given id, with everything
    else in place; when no cell has that id it becomes the first cell
    of the notebook.  Deleting the new cell again gives the former
    cell list back, as long as no older cell carries the same id. *)
Theorem insertCellAfter_position now afterId kind lang (p : NotebookPanel.Panel) :
  let fresh := NotebookPanel.newCell now kind lang in
  let p' := NotebookPanel.insertCellAfter now afterId kind lang p in
  List.length (NotebookPanel.cells p') = S (List.length (NotebookPanel.cells p))
  /\ NotebookPanel.activeCell p' = Some (NotebookPanel.id fresh)
  /\ (forall i, NotebookPanel.findIndex afterId (NotebookPanel.cells p) = Some i ->
        NotebookPanel.cells p'
        = (take (S i) (NotebookPanel.cells p) ++ fresh
             :: drop (S i) (NotebookPanel.cells p))%list
        /\ NotebookPanel.cells p' !! S i = Some fresh
        /\ exists c, NotebookPanel.cells p' !! i = Some c /\ NotebookPanel.id c = afterId)
  /\ (Forall (fun c => NotebookPanel.id c <> afterId) (NotebookPanel.cells p) ->
        NotebookPanel.cells p' = fresh :: NotebookPanel.cells p)
  /\ (Forall (fun c => NotebookPanel.id c <> NotebookPanel.id fresh)
             (NotebookPanel.cells p) ->
        NotebookPanel.cells (NotebookPanel.deleteCell (NotebookPanel.id fresh) p')
        = NotebookPanel.cells p).
Proof.
  intros fresh p'. unfold p', NotebookPanel.insertCellAfter, NotebookPanel.splice_in.
  cbn [NotebookPanel.cells NotebookPanel.activeCell]. fold fresh.
  set (l := NotebookPanel.cells p).
  set (position := match NotebookPanel.findIndex afterId l with
                   | Some index => S index
                   | None => 0%nat
                   end).
  split; [|split; [|split; [|split]]].
  - rewrite length_app. cbn [List.length]. rewrite length_take, length_drop.
    assert (position <= List.length l)%nat; [|lia].
    unfold position. destruct (NotebookPanel.findIndex afterId l) as [i|] eqn:Hi; [|lia].
    destruct (findIndex_Some afterId l i Hi) as (c & Hc & _).
    apply lookup_lt_Some in Hc. lia.
  - reflexivity.
  - intros i Hi. unfold position. rewrite Hi.
    destruct (findIndex_Some afterId l i Hi) as (c & Hc & Hid & _).
    pose proof (lookup_lt_Some _ _ _ Hc) as Hlt.
    split; [reflexivity|]. split.
    + rewrite lookup_app_r by (rewrite length_take; lia).
      rewrite length_take. now replace (S i - S i `min` List.length l)%nat with 0%nat by lia.
    + exists c. split; [|exact Hid].
      rewrite lookup_app_l by (rewrite length_take; lia).
      rewrite lookup_take_lt by lia. exact Hc.
  - intros Hnone. apply findIndex_None in Hnone. unfold position. rewrite Hnone.
    now rewrite take_0, drop_0.
  - intros Hfresh. unfold NotebookPanel.deleteCell. cbn [NotebookPanel.cells].
    rewrite List.filter_app. cbn [List.filter]. rewrite String.eqb_refl. cbn [negb].
    rewrite !filter_keeps_all.
    + apply take_drop.
    + apply Forall_drop. exact Hfresh.
    + apply Forall_take. exact Hfresh.
Qed.

(** Inserting behind the markdown cell of the example panel. *)
Lemma insertCellAfter_position_witness :
  NotebookPanel.id
    <$> NotebookPanel.cells
          (NotebookPanel.insertCellAfter 1700000000000 "1" kind_code "python"
             Examples.three_cell_panel)
  = ["1"; "1700000000000"; "2"; "3"].
Proof.
  destruct (insertCellAfter_position 1700000000000 "1" kind_code "python"
              Examples.three_cell_panel) as (_ & _ & Hafter & _).
  destruct (Hafter 0%nat eq_refl) as (-> & _). reflexivity.
Defined.

(** ** Running cells from the panel *)


(** The three ways [executeCell] ends on a code cell. *)
Lemma executeCell_code
    (stringify : OutputData -> string) (env : Env) (now : Z)
    (snapshot : list NotebookPanel.NotebookCell) (wanted : string)
    (p : NotebookPanel.Panel) (st : State) (cell : NotebookPanel.NotebookCell) :
  List.find (fun c => String.eqb (NotebookPanel.id c) wanted) snapshot = Some cell ->
  NotebookPanel.type cell = kind_code ->
  NotebookPanel.executeCell stringify env now snapshot wanted (p, st)
  = let count := default 0 (m ← NotebookPanel.metadata cell;
                            NotebookPanel.executionCount m) + 1 in
    match executeCode env (dispatched_tag cell) (NotebookPanel.content cell)
                      no_options st with
    | (Normal result, st') =>
        (Normal tt,
         (with_cells p
            (NotebookPanel.finished wanted
               (or_else (join LF (map (NotebookPanel.output_text stringify)
                                      (outputs result)))
                        (if success result then "✓ Executed successfully"
                         else "Execution failed"))
               (if res_execution_count result =? 0 then count
                else res_execution_count result)
               now (marked wanted (NotebookPanel.cells p))), st'))
    | (Throw v, st') =>
        match NotebookPanel.failed wanted v count now
                (marked wanted (NotebookPanel.cells p)) with
        | Normal next => (Normal tt, (with_cells p next, st'))
        | Throw w => (Throw w, (with_cells p (marked wanted (NotebookPanel.cells p)), st'))
        end
    end.
Proof.
  intros Hfind Hkind.
  unfold NotebookPanel.executeCell, NotebookPanel.setCells_with, NotebookPanel.setCells,
    NotebookPanel.multiLanguageExecutionService_executeCode.
  rewrite Hfind, Hkind. eff_unfold. cbn [fst snd NotebookPanel.cells].
  fold (dispatched_tag cell).
  destruct (executeCode env (dispatched_tag cell) (NotebookPanel.content cell)
              no_options st) as [[result|v] st']; [reflexivity|].
  unfold await, ret, throw. fold (marked wanted (NotebookPanel.cells p)).
  cbn [fst snd NotebookPanel.cells].
  now destruct (NotebookPanel.failed wanted v _ now (marked wanted (NotebookPanel.cells p))).
Qed.




Lemma finished_marked_lookup wanted text count now l i c :
  l !! i = Some c ->
  NotebookPanel.finished wanted text count now (marked wanted l) !! i
  = Some (if String.eqb (NotebookPanel.id c) wanted
          then {| NotebookPanel.id := NotebookPanel.id c;
                  NotebookPanel.type := NotebookPanel.type c;
                  NotebookPanel.language := NotebookPanel.language c;
                  NotebookPanel.content := NotebookPanel.content c;
                  NotebookPanel.output := Some text;
                  NotebookPanel.isExecuting := Some false;
                  NotebookPanel.metadata :=
                    Some {| NotebookPanel.executionCount := Some count;
                            NotebookPanel.lastExecuted := Some now |} |}
          else c).
Proof.
  intros Hi. unfold NotebookPanel.finished, marked.
  rewrite !list_lookup_fmap, Hi. cbn.
  destruct (String.eqb (NotebookPanel.id c) wanted) eqn:Hc; cbn; now rewrite Hc.
Qed.

Lemma finished_marked_ids wanted text count now l :
  map NotebookPanel.id (NotebookPanel.finished wanted text count now (marked wanted l))
  = map NotebookPanel.id l.
Proof.
  unfold NotebookPanel.finished, marked. rewrite !map_map. apply map_ext.
  intros c. cbn. destruct (String.eqb (NotebookPanel.id c) wanted) eqn:Hc; cbn;
    rewrite Hc; reflexivity.
Qed.

Lemma finished_marked_idle wanted text count now l :
  Forall idle l ->
  Forall idle (NotebookPanel.finished wanted text count now (marked wanted l)).
Proof.
  intros Hidle. unfold NotebookPanel.finished, marked. rewrite map_map.
  apply Forall_map. eapply Forall_impl; [exact Hidle|].
  intros c Hc. cbn. destruct (String.eqb (NotebookPanel.id c) wanted) eqn:Hid; cbn;
    rewrite Hid; [discriminate|exact Hc].
Qed.



(** X26.  Running a code cell whose language has no backend in the
    dispatcher (the panel offers [bash], [html], [css] and [json])
    runs nothing, in whatever world: [executeCell] returns, the counter
    kept for that language goes up by one, and every cell with the id
    shows the two lines
    [ExecutionError: Unsupported language: <language>] and
    [Error: Unsupported language: <language>], with the advanced
    counter as its execution count. *)
Theorem executeCell_unsupported_language
    (stringify : OutputData -> string) (env : Env) (now : Z)
    (snapshot : list NotebookPanel.NotebookCell) (wanted : string)
    (p : NotebookPanel.Panel) (st : State) (cell : NotebookPanel.NotebookCell) :
  List.find (fun c => String.eqb (NotebookPanel.id c) wanted) snapshot = Some cell ->
  NotebookPanel.type cell = kind_code ->
  NotebookPanel.language cell ∉ SupportedLanguage ->
  0 <= counter (NotebookPanel.language cell) st ->
  let lang := NotebookPanel.language cell in
  let ran := NotebookPanel.executeCell stringify env now snapshot wanted (p, st) in
  fst ran = Normal tt
  /\ snd (snd ran) = set_counter lang (counter lang st + 1) st
  /\ forall i c, NotebookPanel.cells p !! i = Some c -> NotebookPanel.id c = wanted ->
       exists c',
         NotebookPanel.cells (fst (snd ran)) !! i = Some c'
         /\ NotebookPanel.output c'
            = Some ("ExecutionError: Unsupported language: " +:+ lang +:+ LF
                    +:+ "Error: Unsupported language: " +:+ lang)
         /\ NotebookPanel.isExecuting c' = Some false
         /\ NotebookPanel.metadata c'
            = Some {| NotebookPanel.executionCount := Some (counter lang st + 1);
                      NotebookPanel.lastExecuted := Some now |}.
Proof.
  intros Hfind Hkind Hnot Hcount lang ran.
  assert (Hvnc : String.eqb lang "vnc" = false).
  { apply String.eqb_neq. intros Heq. apply Hnot. fold lang. rewrite Heq.
    unfold SupportedLanguage. tag_listed. }
  assert (Htag : dispatched_tag cell = lang).
  { unfold dispatched_tag. fold lang. now rewrite Hvnc. }
  assert (Hrun : executeCode env lang (NotebookPanel.content cell) no_options st
                 = (Normal (failure_with_error "ExecutionError"
                              (new_Error ("Unsupported language: " +:+ lang))
                              (counter lang st + 1)),
                    set_counter lang (counter lang st + 1) st)).
  { unfold executeCode. now rewrite executeCode_over_eq, select_unsupported. }
  unfold ran.
  rewrite (executeCell_code stringify env now snapshot wanted p st cell Hfind Hkind).
  rewrite Htag, Hrun. cbn [fst snd with_cells NotebookPanel.cells].
  split; [reflexivity|]. split; [reflexivity|].
  intros i c Hi Heq. rewrite (finished_marked_lookup _ _ _ _ _ i c Hi).
  apply String.eqb_eq in Heq. rewrite Heq.
  eexists. split; [reflexivity|]. cbn.
  assert (Hzero : (counter lang st + 1 =? 0) = false)
    by (apply Z.eqb_neq; unfold lang; lia).
  rewrite Hzero. split; [reflexivity|]. split; reflexivity.
Qed.

(** The bash cell of the example panel. *)
Lemma executeCell_unsupported_language_witness :
  exists c',
    NotebookPanel.cells
      (fst (snd (NotebookPanel.executeCell (fun _ => "{}") Examples.rust_engine
                   1700000000000 (NotebookPanel.cells Examples.three_cell_panel) "3"
                   (Examples.three_cell_panel, initial)))) !! 2%nat = Some c'
    /\ NotebookPanel.output c'
       = Some ("ExecutionError: Unsupported language: bash" +:+ LF
               +:+ "Error: Unsupported language: bash").
Proof.
  destruct (executeCell_unsupported_language (fun _ => "{}") Examples.rust_engine
              1700000000000 (NotebookPanel.cells Examples.three_cell_panel) "3"
              Examples.three_cell_panel initial
              (Examples.panel_cell "3" kind_code "bash" "ls") eq_refl eq_refl)
    as (_ & _ & Hcells).
  - unfold SupportedLanguage. intros H.
    repeat (apply elem_of_cons in H; destruct H as [H|H]; [discriminate H|]).
    now apply elem_of_nil in H.
  - vm_compute. discriminate.
  - destruct (Hcells 2%nat (Examples.panel_cell "3" kind_code "bash" "ls") eq_refl eq_refl)
      as (c' & Hc' & Hout & _).
    exists c'. split; [exact Hc'|exact Hout].
Defined.

Lemma find_unique (l : list NotebookPanel.NotebookCell) (c : NotebookPanel.NotebookCell) :
  NoDup (map NotebookPanel.id l) -> c ∈ l ->
  List.find (fun x => String.eqb (NotebookPanel.id x) (NotebookPanel.id c)) l = Some c.
Proof.
  induction l as [|c0 l IH]; intros Hnodup Hin; [now apply elem_of_nil in Hin|].
  cbn [map] in Hnodup. apply NoDup_cons in Hnodup as [Hfresh Hnodup].
  cbn [List.find]. apply elem_of_cons in Hin as [->|Hin].
  - now rewrite String.eqb_refl.
  - destruct (String.eqb_spec (NotebookPanel.id c0) (NotebookPanel.id c)) as [Heq|_].
    + exfalso. apply Hfresh. rewrite Heq.
      apply list_elem_of_In, in_map, list_elem_of_In, Hin.
    + now apply IH.
Qed.

(** What one [executeCell] on a code cell leaves behind, when the cell
    is of an evaluated tag on an ordinary script only. *)
Lemma executeCell_effect
    (stringify : OutputData -> string) (env : Env) (now : Z)
    (snapshot : list NotebookPanel.NotebookCell) (wanted : string)
    (p : NotebookPanel.Panel) (st : State) (cell : NotebookPanel.NotebookCell) :
  List.find (fun c => String.eqb (NotebookPanel.id c) wanted) snapshot = Some cell ->
  NotebookPanel.type cell = kind_code ->
  (evaluated_tag (dispatched_tag cell) = true ->
   ordinary env (NotebookPanel.content cell)) ->
  exists p' st',
    NotebookPanel.executeCell stringify env now snapshot wanted (p, st)
    = (Normal tt, (p', st'))
    /\ (forall tag,
          counter tag st'
          = counter tag st + (if String.eqb (dispatched_tag cell) tag then 1 else 0))
    /\ map NotebookPanel.id (NotebookPanel.cells p')
       = map NotebookPanel.id (NotebookPanel.cells p)
    /\ (Forall idle (NotebookPanel.cells p) -> Forall idle (NotebookPanel.cells p')).
Proof.
  intros Hfind Hkind Hord.
  destruct (executeCode_counters env (dispatched_tag cell) (NotebookPanel.content cell)
              no_options st Hord) as (result & st' & Hrun & Hself & Hother).
  rewrite (executeCell_code stringify env now snapshot wanted p st cell Hfind Hkind).
  rewrite Hrun. cbn zeta. do 2 eexists. split; [reflexivity|].
  cbn [with_cells NotebookPanel.cells]. split; [|split].
  - intros tag. destruct (String.eqb_spec (dispatched_tag cell) tag) as [<-|Hne].
    + exact Hself.
    + rewrite (Hother tag) by congruence. lia.
  - apply finished_marked_ids.
  - apply finished_marked_idle.
Qed.

Lemma executeAll_effect
    (stringify : OutputData -> string) (world : nat -> Env) (clock : nat -> Z)
    (snapshot todo : list NotebookPanel.NotebookCell) :
  NoDup (map NotebookPanel.id snapshot) ->
  (forall c, c ∈ todo -> c ∈ snapshot) ->
  forall position p st,
    (forall j c, todo !! j = Some c -> NotebookPanel.type c = kind_code ->
       evaluated_tag (dispatched_tag c) = true ->
       ordinary (world (position + j)%nat) (NotebookPanel.content c)) ->
    exists p' st',
      NotebookPanel.executeAll stringify world clock snapshot todo position (p, st)
      = (Normal tt, (p', st'))
      /\ (forall tag,
            counter tag st'
            = counter tag st + Z.of_nat (List.length (code_cells_for tag todo)))
      /\ map NotebookPanel.id (NotebookPanel.cells p')
         = map NotebookPanel.id (NotebookPanel.cells p)
      /\ (Forall idle (NotebookPanel.cells p) -> Forall idle (NotebookPanel.cells p')).
Proof.
  intros Hnodup. induction todo as [|cell rest IH]; intros Hsub position p st Hord.
  - exists p, st. split; [reflexivity|]. cbn.
    split; [intros tag; lia|]. split; [reflexivity|auto].
  - assert (Hrest : forall c, c ∈ rest -> c ∈ snapshot)
      by (intros c Hc; apply Hsub; now apply list_elem_of_further).
    assert (Hord_rest : forall j c, rest !! j = Some c ->
               NotebookPanel.type c = kind_code ->
               evaluated_tag (dispatched_tag c) = true ->
               ordinary (world (S position + j)%nat) (NotebookPanel.content c)).
    { intros j c Hj Hc Hev. replace (S position + j)%nat with (position + S j)%nat by lia.
      now apply (Hord (S j) c). }
    cbn [NotebookPanel.executeAll]. unfold code_cells_for. cbn [List.filter].
    fold (code_cells_for).
    destruct (NotebookPanel.type cell) eqn:Hkind.
    + assert (Hfind : List.find (fun x => String.eqb (NotebookPanel.id x)
                                                     (NotebookPanel.id cell)) snapshot
                      = Some cell)
        by (apply find_unique; [exact Hnodup|apply Hsub; apply list_elem_of_here]).
      assert (Hcell : evaluated_tag (dispatched_tag cell) = true ->
                      ordinary (world position) (NotebookPanel.content cell)).
      { intros Hev. replace position with (position + 0)%nat by lia.
        now apply (Hord 0%nat cell). }
      destruct (executeCell_effect stringify (world position) (clock position) snapshot
                  (NotebookPanel.id cell) p st cell Hfind Hkind Hcell)
        as (p1 & st1 & Hrun & Hcount & Hids & Hidle).
      destruct (IH Hrest (S position) p1 st1 Hord_rest)
        as (p' & st' & IHrun & IHcount & IHids & IHidle).
      exists p', st'. split.
      { unfold bind. now rewrite Hrun. }
      split; [|split].
      * intros tag. rewrite IHcount, Hcount.
        fold (code_cells_for tag rest).
        destruct (String.eqb (dispatched_tag cell) tag); cbn [List.length]; lia.
      * now rewrite IHids.
      * auto.
    + destruct (IH Hrest (S position) p st Hord_rest)
        as (p' & st' & IHrun & IHcount & IHids & IHidle).
      exists p', st'. split; [exact IHrun|]. split; [|split]; auto.
Qed.

Lemma no_cell_dispatched_as_vnc (l : list NotebookPanel.NotebookCell) :
  code_cells_for "vnc" l = [].
Proof.
  unfold code_cells_for. induction l as [|c l IH]; [reflexivity|].
  cbn [List.filter]. destruct (NotebookPanel.type c); [|exact IH].
  unfold dispatched_tag.
  destruct (String.eqb_spec (NotebookPanel.language c) "vnc") as [_|Hne].
  - cbn. exact IH.
  - apply String.eqb_neq in Hne. rewrite Hne. exact IH.
Qed.

(** X27.  When the ids of the cells are pairwise different and the
    sources of the [javascript] and [typescript] code cells are
    ordinary scripts, Run All returns and calls the dispatcher once for
    every code cell and never for a markdown cell: each counter goes
    up by the number of code cells dispatched with that tag, where
    [vnc] cells count for [navlambda] and the counter of [vnc] stays as
    it is.  The cells keep their ids and their order, and no cell is
    left marked as executing when none was before. *)
Theorem executeAllCells_effect
    (stringify : OutputData -> string) (world : nat -> Env) (clock : nat -> Z)
    (p : NotebookPanel.Panel) (st : State) :
  NoDup (map NotebookPanel.id (NotebookPanel.cells p)) ->
  (forall i c, NotebookPanel.cells p !! i = Some c ->
     NotebookPanel.type c = kind_code ->
     evaluated_tag (dispatched_tag c) = true ->
     ordinary (world i) (NotebookPanel.content c)) ->
  exists p' st',
    NotebookPanel.executeAllCells stringify world clock (p, st) = (Normal tt, (p', st'))
    /\ (forall tag,
          counter tag st'
          = counter tag st
            + Z.of_nat (List.length (code_cells_for tag (NotebookPanel.cells p))))
    /\ counter "vnc" st' = counter "vnc" st
    /\ map NotebookPanel.id (NotebookPanel.cells p')
       = map NotebookPanel.id (NotebookPanel.cells p)
    /\ (Forall idle (NotebookPanel.cells p) -> Forall idle (NotebookPanel.cells p')).
Proof.
  intros Hnodup Hord.
  destruct (executeAll_effect stringify world clock (NotebookPanel.cells p)
              (NotebookPanel.cells p) Hnodup (fun c Hc => Hc) 0%nat p st Hord)
    as (p' & st' & Hrun & Hcount & Hids & Hidle).
  exists p', st'. split; [exact Hrun|]. split; [exact Hcount|].
  split; [|split; [exact Hids|exact Hidle]].
  rewrite Hcount, no_cell_dispatched_as_vnc. cbn. lia.
Qed.

(** Run All on the example panel: one call for [navlambda], one for
    [bash], none for the markdown cell. *)
Lemma executeAllCells_effect_witness :
  exists p' st',
    NotebookPanel.executeAllCells (fun _ => "{}") (fun _ => Examples.offline)
      (fun _ => 1700000000000) (Examples.three_cell_panel, initial)
    = (Normal tt, (p', st'))
    /\ counter "navlambda" st' = 1.
Proof.
  destruct (executeAllCells_effect (fun _ => "{}") (fun _ => Examples.offline)
              (fun _ => 1700000000000) Examples.three_cell_panel initial)
    as (p' & st' & Hrun & Hcount & _).
  - repeat constructor; cbn; intros H;
      repeat (apply elem_of_cons in H; destruct H as [H|H]; [discriminate H|]);
      now apply elem_of_nil in H.
  - intros i c _ _ _. apply offline_ordinary.
  - exists p', st'. split; [exact Hrun|]. rewrite Hcount. reflexivity.
Defined.

(** ** Editing cells *)

(** X28.  [updateCell] and [changeCellLanguage] never add, remove or
    reorder cells and never change an id; they leave every cell with
    another id as it was and give every cell with the id the new source
    or the new language.  Of two updates of the same id the later one
    wins, and updating the source and changing the language can be done
    in either order with the same cell list as result. *)
Theorem edits_of_a_cell (wanted text text' lang : string) (p : NotebookPanel.Panel) :
  map NotebookPanel.id (NotebookPanel.cells (NotebookPanel.updateCell wanted text p))
  = map NotebookPanel.id (NotebookPanel.cells p)
  /\ map NotebookPanel.id
         (NotebookPanel.cells (NotebookPanel.changeCellLanguage wanted lang p))
     = map NotebookPanel.id (NotebookPanel.cells p)
  /\ (forall i c, NotebookPanel.cells p !! i = Some c ->
        exists c1 c2,
          NotebookPanel.cells (NotebookPanel.updateCell wanted text p) !! i = Some c1
          /\ NotebookPanel.cells (NotebookPanel.changeCellLanguage wanted lang p) !! i
             = Some c2
          /\ (NotebookPanel.id c <> wanted -> c1 = c /\ c2 = c)
          /\ (NotebookPanel.id c = wanted ->
                NotebookPanel.content c1 = text
                /\ NotebookPanel.language c1 = NotebookPanel.language c
                /\ NotebookPanel.language c2 = lang
                /\ NotebookPanel.content c2 = NotebookPanel.content c))
  /\ NotebookPanel.cells
       (NotebookPanel.updateCell wanted text' (NotebookPanel.updateCell wanted text p))
     = NotebookPanel.cells (NotebookPanel.updateCell wanted text' p)
  /\ NotebookPanel.cells
       (NotebookPanel.changeCellLanguage wanted lang
          (NotebookPanel.updateCell wanted text p))
     = NotebookPanel.cells
         (NotebookPanel.updateCell wanted text
            (NotebookPanel.changeCellLanguage wanted lang p)).
Proof.
  unfold NotebookPanel.updateCell, NotebookPanel.changeCellLanguage.
  cbn [NotebookPanel.cells].
  split; [|split; [|split; [|split]]].
  - rewrite map_map. apply map_ext. intros c.
    now destruct (String.eqb (NotebookPanel.id c) wanted).
  - rewrite map_map. apply map_ext. intros c.
    now destruct (String.eqb (NotebookPanel.id c) wanted).
  - intros i c Hi. rewrite !list_lookup_fmap, Hi. cbn.
    do 2 eexists. split; [reflexivity|]. split; [reflexivity|].
    destruct (String.eqb_spec (NotebookPanel.id c) wanted) as [Heq|Hne].
    + split; [contradiction|]. intros _. cbn. repeat split.
    + split; [intros _; split; reflexivity|contradiction].
  - rewrite map_map. apply map_ext. intros c.
    destruct (String.eqb (NotebookPanel.id c) wanted) eqn:Hc; cbn; now rewrite Hc.
  - rewrite !map_map. apply map_ext. intros c.
    destruct (String.eqb (NotebookPanel.id c) wanted) eqn:Hc; cbn; now rewrite Hc.
Qed.

Lemma edits_of_a_cell_witness :
  exists c1,
    NotebookPanel.cells (NotebookPanel.updateCell "2" "route B -> C"
                           Examples.three_cell_panel) !! 1%nat = Some c1
    /\ NotebookPanel.content c1 = "route B -> C".
Proof.
  destruct (proj1 (proj2 (proj2 (edits_of_a_cell "2" "route B -> C" "" "rust"
                                   Examples.three_cell_panel)))
                  1%nat (Examples.panel_cell "2" kind_code "vnc" "route A -> B") eq_refl)
    as (c1 & c2 & Hc1 & _ & _ & Hedit).
  exists c1. split; [exact Hc1|]. now destruct (Hedit eq_refl).
Defined.

(** ** An SQL answer of the host engine, and how it is shown *)

Lemma formatSQLTable_not_empty (rows : list Row) : truthy (formatSQLTable rows) = true.
Proof.
  destruct rows as [|row rows]; [reflexivity|].
  unfold formatSQLTable. rewrite join_cons_cons.
  destruct (sql_header (row :: rows)); reflexivity.
Qed.

Lemma formatSQLTableHTML_not_empty (rows : list Row) :
  truthy (formatSQLTableHTML rows) = true.
Proof. destruct rows; reflexivity. Qed.

(** X29.  When the host engine answers an SQL query with success and
    rows, the call returns one [execute_result] that carries the text
    table as plain text and the HTML table as HTML, stamped like the
    result.  [formatOutput] shows such an output as HTML, the HTML
    table, while the panel shows the text table. *)
Theorem sql_rows_are_shown_as_tables
    (stringify : OutputData -> string) env code options st rows err :
  tauri env = true ->
  invoke_execute_sql env code
  = Normal {| sql_success := true; sql_rows := Some rows; sql_error := err |} ->
  exists o,
    executeCode env "sql" code options st
    = (Normal {| success := true; outputs := [o];
                 res_execution_count := counter "sql" st + 2;
                 res_error := None |},
       set_counter "sql" (counter "sql" st + 1) st)
    /\ output_type o = execute_result
    /\ out_execution_count o = Some (counter "sql" st + 2)
    /\ formatOutput o
       = {| fmt_type := fmt_html; fmt_content := formatSQLTableHTML rows;
            mimeType := None |}
    /\ NotebookPanel.output_text stringify o = formatSQLTable rows.
Proof.
  intros Htauri Hreply. eexists. split.
  - unfold executeCode. rewrite executeCode_over_eq, select_sql.
    unfold executeSQL. eff_unfold. rewrite Htauri, Hreply.
    cbn [sql_success sql_rows]. rewrite counter_set_counter_eq.
    replace (counter "sql" st + 1 + 1) with (counter "sql" st + 2) by lia.
    reflexivity.
  - cbn. split; [reflexivity|]. split; [reflexivity|].
    unfold formatOutput, formatData, NotebookPanel.output_text. cbn.
    rewrite formatSQLTableHTML_not_empty, formatSQLTable_not_empty. split; reflexivity.
Qed.

Lemma sql_rows_are_shown_as_tables_witness :
  exists o st',
    executeCode Examples.sql_engine "sql" "SELECT id, name FROM people" no_options initial
    = (Normal {| success := true; outputs := [o];
                 res_execution_count := 2; res_error := None |}, st')
    /\ NotebookPanel.output_text (fun _ => "{}") o
       = "id | name" +:+ LF +:+ "--- | ---" +:+ LF +:+ "1 | ada" +:+ LF +:+ "2 | ".
Proof.
  destruct (sql_rows_are_shown_as_tables (fun _ => "{}") Examples.sql_engine
              "SELECT id, name FROM people" no_options initial Examples.two_rows None
              eq_refl eq_refl)
    as (o & Hrun & _ & _ & _ & Htext).
  exists o. eexists. split; [exact Hrun|]. rewrite Htext. reflexivity.
Defined.

(** A zero is shown as an empty cell, and so is an array that holds
    one empty array. *)
Lemma cell_text_empty_iff_witness :
  cell_text (Some (SqlNum 0)) = "" /\ cell_text (Some (SqlArray [SqlArray []])) = "".
Proof.
  split.
  - apply (proj2 (cell_text_empty_iff (Some (SqlNum 0)))). auto 6.
  - apply (proj2 (cell_text_empty_iff (Some (SqlArray [SqlArray []])))).
    do 5 right. exists [SqlArray []]. split; [reflexivity|].
    apply array_of_empty, empty_array.
Defined.
